(** * gesture-event: pointer tracking, gesture state machines and the
      active-gestures registry, embedded in Rocq

    The development follows the TypeScript sources:

    - [PointerManager]        (PointerManager.ts)
    - [ActiveGesturesRegistry] (ActiveGesturesRegistry.ts)
    - [Gesture]               (Gesture.ts, the registry-backed base class)
    - [PinchGesture]          (gestures/PinchGesture.ts)
    - [PanGesture]            (gestures/PanGesture.ts, the one-instance-per-element
                               version with the [forceReset] branch)
    - [GestureManager]        (GestureManager.ts)

    Modelling conventions.

    - A JavaScript [number] is an exact rational ([Q]); IEEE rounding, NaN and
      the infinities are outside the model.  Statements that depend on a
      quotient carry the hypothesis that the divisor is not zero, and a
      number used as a condition ([if (x)]) is true when it is not zero.
      [Math.sqrt] occurs in a comparison, which is written on squares, and
      in the magnitude of the pan's velocity, which is kept as its square.
    - Objects compared with [===] (gesture instances, DOM nodes) carry an
      identity: a [nat].
    - A JavaScript [Map] whose iteration order is observed (the pointer map)
      is an insertion-ordered association list; maps that are only looked up
      (the registry, the element/gesture table) are [gmap]s.
    - Methods that mutate [this] take the state and return the new one;
      [dispatchEvent] appends to a list of dispatched events.
    - The DOM is a parameter: a containment test on node identities. *)

From Stdlib Require Import List Bool Arith ZArith QArith Qabs String Lia.
From stdpp Require Import base gmap strings.
Import ListNotations.

(** ** Numbers *)

Definition number : Type := Q.

Bind Scope Q_scope with number.

(** [if (x)] on a number. *)
Definition truthy (x : number) : bool := negb (Qeq_bool x 0).

(** [x > y] *)
Definition gtb (x y : number) : bool := negb (Qle_bool x y).

(** [Math.sqrt(dx * dx + dy * dy) >= t], written without the square root:
    a square root is never negative, and for a positive [t] both sides
    can be squared.  This is the comparison in exact arithmetic; the code
    compares the rounded square root, which can fall on the other side of
    [t] when the two are within a rounding error of each other. *)
Definition normAtLeast (dx dy t : number) : bool :=
  Qle_bool t 0 || Qle_bool (t * t) (dx * dx + dy * dy).

(** ** DOM nodes and pointer events *)

(** Identity of a DOM node ([HTMLElement], [EventTarget]). *)
Abbreviation Node := nat (only parsing).

(** [event.type] of the four events the pointer manager listens to. *)
Inductive EventType : Type :=
| pointerdown
| pointermove
| pointerup
| pointercancel.

Definition EventType_eqb (a b : EventType) : bool :=
  match a, b with
  | pointerdown, pointerdown
  | pointermove, pointermove
  | pointerup, pointerup
  | pointercancel, pointercancel => true
  | _, _ => false
  end.

(** The fields of a browser [PointerEvent] the library reads, and the
    [forceReset] marker of [InternalEvent].  [ev_target] is [None] for
    [null]: an event that was constructed and never dispatched has no
    target. *)
Record PointerEvent : Type := mkPointerEvent {
  ev_type : EventType;
  ev_pointerId : Z;
  ev_clientX : number;
  ev_clientY : number;
  ev_pageX : number;
  ev_pageY : number;
  ev_target : option Node;
  ev_timeStamp : number;
  ev_isPrimary : bool;
  ev_pressure : number;
  ev_width : number;
  ev_height : number;
  ev_pointerType : string;
  ev_forceReset : bool
}.

(** [PointerData] of PointerManager.ts. *)
Record PointerData : Type := mkPointerData {
  pointerId : Z;
  clientX : number;
  clientY : number;
  pageX : number;
  pageY : number;
  target : option Node;
  timeStamp : number;
  type : EventType;
  isPrimary : bool;
  pressure : number;
  width : number;
  height : number;
  pointerType : string;
  srcEvent : PointerEvent
}.

(** The host environment: [Node.contains] of the DOM, and
    [calculateAverageDistance] of [utils], which is imported by
    PinchGesture.ts and is not among the sources. *)
Class Dom : Type := { contains : Node -> Node -> bool }.

Class Spread : Type := { calculateAverageDistance : list PointerData -> number }.

(** [element === target || element.contains(target)]; [contains(null)] is
    false. *)
Definition isOrContains {dom : Dom} (element : Node) (t : option Node) : bool :=
  match t with
  | Some n => (element =? n)%nat || contains element n
  | None => false
  end.

(** ** The pointer map: [Map<number, PointerData>] *)

Module PointerMap.

Definition t : Type := list (Z * PointerData).

Definition empty : t := [].

Fixpoint get (m : t) (k : Z) : option PointerData :=
  match m with
  | [] => None
  | (k', v) :: rest => if (k =? k')%Z then Some v else get rest k
  end.

(** [Map.set]: an existing key keeps its position, a new key is appended. *)
Fixpoint set (m : t) (k : Z) (v : PointerData) : t :=
  match m with
  | [] => [(k, v)]
  | (k', v') :: rest =>
      if (k =? k')%Z then (k, v) :: rest else (k', v') :: set rest k v
  end.

Definition delete (m : t) (k : Z) : t :=
  List.filter (fun kv => negb (k =? fst kv)%Z) m.

Definition values (m : t) : list PointerData := List.map snd m.

Definition size (m : t) : nat := length m.

End PointerMap.

(** ** PointerManager *)

Module PointerManager.

Section WithWorld.

(** What the registered handlers act on. *)
Context {W : Type}.

(** A registered handler: [(pointers, event) => void].  It is handed the
    manager's own map, not a copy, so it returns the map as it leaves it,
    next to its effect on the world. *)
Definition GestureHandler : Type :=
  PointerMap.t -> PointerEvent -> W -> PointerMap.t * W.

(** A handler that reads the map and never writes to it, as the gestures
    of this library do. *)
Definition reader (f : PointerMap.t -> PointerEvent -> W -> W) : GestureHandler :=
  fun pointers event w => (pointers, f pointers event w).

Definition readsOnly (handler : GestureHandler) : Prop :=
  forall pointers event w, fst (handler pointers event w) = pointers.

Record t : Type := mk {
  pointers : PointerMap.t;
  gestureHandlers : list GestureHandler
}.

Definition registerGestureHandler (pm : t) (handler : GestureHandler) : t :=
  {| pointers := pointers pm; gestureHandlers := gestureHandlers pm ++ [handler] |}.

(** [getPointers]: a copy of the map. *)
Definition getPointers (pm : t) : PointerMap.t := pointers pm.

Definition createPointerData (event : PointerEvent) : PointerData :=
  {| pointerId := ev_pointerId event;
     clientX := ev_clientX event;
     clientY := ev_clientY event;
     pageX := ev_pageX event;
     pageY := ev_pageY event;
     target := ev_target event;
     timeStamp := ev_timeStamp event;
     type := ev_type event;
     isPrimary := ev_isPrimary event;
     pressure := ev_pressure event;
     width := ev_width event;
     height := ev_height event;
     pointerType := ev_pointerType event;
     srcEvent := event |}.

Definition withPointers (pm : t) (m : PointerMap.t) : t :=
  {| pointers := m; gestureHandlers := gestureHandlers pm |}.

(** [this.gestureHandlers.forEach(handler => handler(this.pointers, event))] *)
Definition notifyHandlers (pm : t) (event : PointerEvent) (w : W) : t * W :=
  let after :=
    fold_left (fun st handler => handler (fst st) event (snd st))
              (gestureHandlers pm) (pointers pm, w) in
  (withPointers pm (fst after), snd after).

(** [handlePointerEvent].  Pointer capture and release are requests to the
    browser whose failure is swallowed; they do not appear here. *)
Definition handlePointerEvent (pm : t) (event : PointerEvent) (w : W) : t * W :=
  let pointerId := ev_pointerId event in
  match ev_type event with
  | pointerdown | pointermove =>
      let pm1 := withPointers pm (PointerMap.set (pointers pm) pointerId (createPointerData event)) in
      notifyHandlers pm1 event w
  | pointerup | pointercancel =>
      let pm1 := withPointers pm (PointerMap.set (pointers pm) pointerId (createPointerData event)) in
      let '(pm2, w1) := notifyHandlers pm1 event w in
      (withPointers pm2 (PointerMap.delete (pointers pm2) pointerId), w1)
  end.

(** [new PointerEvent('pointercancel', { bubbles: true, cancelable: true })]
    with [forceReset] set: the fields take the defaults of the DOM
    constructor, and the event has no target.  [now] is the time of its
    construction. *)
Definition syntheticCancel (now : number) : PointerEvent :=
  {| ev_type := pointercancel;
     ev_pointerId := 0%Z;
     ev_clientX := 0%Q;
     ev_clientY := 0%Q;
     ev_pageX := 0%Q;
     ev_pageY := 0%Q;
     ev_target := None;
     ev_timeStamp := now;
     ev_isPrimary := false;
     ev_pressure := 0%Q;
     ev_width := 1%Q;
     ev_height := 1%Q;
     ev_pointerType := ""%string;
     ev_forceReset := true |}.

(** [Object.defineProperties(cancelEvent, { clientX, clientY, pointerId,
    pointerType })] from the first pointer. *)
Definition stampFrom (firstPointer : PointerData) (cancelEvent : PointerEvent) : PointerEvent :=
  {| ev_type := ev_type cancelEvent;
     ev_pointerId := pointerId firstPointer;
     ev_clientX := clientX firstPointer;
     ev_clientY := clientY firstPointer;
     ev_pageX := ev_pageX cancelEvent;
     ev_pageY := ev_pageY cancelEvent;
     ev_target := ev_target cancelEvent;
     ev_timeStamp := ev_timeStamp cancelEvent;
     ev_isPrimary := ev_isPrimary cancelEvent;
     ev_pressure := ev_pressure cancelEvent;
     ev_width := ev_width cancelEvent;
     ev_height := ev_height cancelEvent;
     ev_pointerType := pointerType firstPointer;
     ev_forceReset := ev_forceReset cancelEvent |}.

(** [{ ...pointer, type: 'pointercancel' }] *)
Definition asCancelled (pointer : PointerData) : PointerData :=
  {| pointerId := pointerId pointer;
     clientX := clientX pointer;
     clientY := clientY pointer;
     pageX := pageX pointer;
     pageY := pageY pointer;
     target := target pointer;
     timeStamp := timeStamp pointer;
     type := pointercancel;
     isPrimary := isPrimary pointer;
     pressure := pressure pointer;
     width := width pointer;
     height := height pointer;
     pointerType := pointerType pointer;
     srcEvent := srcEvent pointer |}.

(** [handleInterruptEvents] (blur, contextmenu). *)
Definition handleInterruptEvents (pm : t) (now : number) (w : W) : t * W :=
  let cancelEvent := syntheticCancel now in
  let '(cancelEvent1, pm1) :=
    match PointerMap.values (pointers pm) with
    | firstPointer :: _ =>
        (stampFrom firstPointer cancelEvent,
         withPointers pm (List.map (fun kv => (fst kv, asCancelled (snd kv))) (pointers pm)))
    | [] => (cancelEvent, pm)
    end in
  let '(pm2, w1) := notifyHandlers pm1 cancelEvent1 w in
  (withPointers pm2 PointerMap.empty, w1).

End WithWorld.

Arguments t : clear implicits.
Arguments GestureHandler : clear implicits.

End PointerManager.

(** ** ActiveGesturesRegistry *)

(** A gesture instance as the registry sees it: the identity of the object
    (compared with [===]) and its [name]. *)
Record GestureRef : Type := mkGestureRef {
  ref_id : nat;
  ref_name : string
}.

(** [entry.gesture === gesture] *)
Definition sameGesture (a b : GestureRef) : bool := (ref_id a =? ref_id b)%nat.

(** [ActiveGestureEntry] *)
Record ActiveGestureEntry : Type := mkEntry {
  entry_gesture : GestureRef;
  entry_element : Node
}.

Module ActiveGesturesRegistry.

(** [Map<HTMLElement, Set<ActiveGestureEntry>>].  Every registration builds
    a new entry object, so the set never merges two entries: it is the list
    of entries in the order they were added. *)
Abbreviation t := (gmap nat (list ActiveGestureEntry)).

Definition registerActiveGesture (reg : t) (element : Node) (gesture : GestureRef) : t :=
  let reg1 := match reg !! element with
              | Some _ => reg
              | None => <[element := []]> reg
              end in
  let elementGestures := default [] (reg1 !! element) in
  let entry := {| entry_gesture := gesture; entry_element := element |} in
  <[element := elementGestures ++ [entry]]> reg1.

Definition unregisterActiveGesture (reg : t) (element : Node) (gesture : GestureRef) : t :=
  match reg !! element with
  | None => reg
  | Some elementGestures =>
      let kept := List.filter (fun entry => negb (sameGesture (entry_gesture entry) gesture))
                              elementGestures in
      if (length kept =? 0)%nat then delete element reg else <[element := kept]> reg
  end.

(** The [Record<string, boolean>] built by [reduce]. *)
Definition getActiveGestures (reg : t) (element : Node) : gmap string bool :=
  match reg !! element with
  | None => ∅
  | Some elementGestures =>
      fold_left (fun acc entry => <[ref_name (entry_gesture entry) := true]> acc)
                elementGestures ∅
  end.

Definition isGestureActive (reg : t) (element : Node) (gesture : GestureRef) : bool :=
  match reg !! element with
  | None => false
  | Some elementGestures =>
      existsb (fun entry => sameGesture (entry_gesture entry) gesture) elementGestures
  end.

Definition destroy (reg : t) : t := ∅.

Definition unregisterElement (reg : t) (element : Node) : t := delete element reg.

End ActiveGesturesRegistry.

(** ** Gesture: the base class *)

Inductive GesturePhase : Type :=
| start
| ongoing
| end_
| cancel.

(** A dispatched [CustomEvent]: the element it was dispatched on, its name
    and its [detail]. *)
Record CustomEvent (D : Type) : Type := mkCustomEvent {
  ce_element : Node;
  ce_name : string;
  ce_detail : D
}.

Arguments mkCustomEvent {D} _ _ _.
Arguments ce_element {D} _.
Arguments ce_name {D} _.
Arguments ce_detail {D} _.

Record Point : Type := mkPoint { x : number; y : number }.

Module Gesture.

(** [getTargetElement]: the bound element when the event's target is the
    element or inside it. *)
Definition getTargetElement {dom : Dom} (element : Node) (event : PointerEvent) : option Node :=
  if isOrContains element (ev_target event) then Some element else None.

(** The property names of [Object.prototype] (ECMAScript, with the legacy
    accessors every browser has).  The record of [getActiveGestures] is a
    plain object, so reading one of these names from it gives the
    inherited value, a function or, for [__proto__], the prototype itself:
    a truthy value. *)
Definition inheritedProperty (name : string) : bool :=
  existsb (String.eqb name)
    ["constructor"; "hasOwnProperty"; "isPrototypeOf"; "propertyIsEnumerable";
     "toLocaleString"; "toString"; "valueOf"; "__proto__";
     "__defineGetter__"; "__defineSetter__"; "__lookupGetter__"; "__lookupSetter__"]%string.

(** [activeGestures[gestureName]] as a condition: the value [getActiveGestures]
    wrote under the name, and where it wrote none, what the object
    inherits under that name. *)
Definition isListed (activeGestures : gmap string bool) (gestureName : string) : bool :=
  match activeGestures !! gestureName with
  | Some value => value
  | None => inheritedProperty gestureName
  end.

Definition shouldPreventGesture (preventIf : list string)
  (reg : ActiveGesturesRegistry.t) (element : Node) : bool :=
  if (length preventIf =? 0)%nat then false
  else
    let activeGestures := ActiveGesturesRegistry.getActiveGestures reg element in
    existsb (isListed activeGestures) preventIf.

End Gesture.

(** ** utils *)

Module Utils.

(** Modelled from the spec: [createEventName] of [utils] is not among the
    sources; the external interface names the notifications [<name>Start],
    [<name>], [<name>End] and [<name>Cancel]. *)
Definition createEventName (name : string) (phase : GesturePhase) : string :=
  match phase with
  | start => name ++ "Start"
  | ongoing => name
  | end_ => name ++ "End"
  | cancel => name ++ "Cancel"
  end%string.

Definition sumOf (f : PointerData -> number) (pointers : list PointerData) : number :=
  fold_right (fun p acc => (f p + acc)%Q) 0%Q pointers.

(** Modelled from the spec: [calculateCentroid] of [utils] is not among the
    sources; the glossary defines the centroid as the arithmetic mean
    position of a set of pointers. *)
Definition calculateCentroid (pointers : list PointerData) : Point :=
  let n := inject_Z (Z.of_nat (length pointers)) in
  {| x := (sumOf clientX pointers / n)%Q; y := (sumOf clientY pointers / n)%Q |}.

Inductive Direction : Type := up | down | left | right.

Definition Direction_eqb (a b : Direction) : bool :=
  match a, b with
  | up, up | down, down | left, left | right, right => true
  | _, _ => false
  end.

(** Modelled from the spec: [getDirection] of [utils] is not among the
    sources; the larger absolute axis wins, ties and zero give no
    direction, and a move towards larger x is to the right.  The y axis of
    the viewport grows downwards. *)
Definition getDirection (from to : Point) : option Direction :=
  let dx := (x to - x from)%Q in
  let dy := (y to - y from)%Q in
  if gtb (Qabs dx) (Qabs dy) then Some (if gtb dx 0 then right else left)
  else if gtb (Qabs dy) (Qabs dx) then Some (if gtb dy 0 then down else up)
  else None.

(** Modelled from the spec: [isDirectionAllowed] of [utils] is not among the
    sources; the direction has to be in the allowed set. *)
Definition isDirectionAllowed (direction : option Direction) (allowed : list Direction) : bool :=
  match direction with
  | Some d => existsb (Direction_eqb d) allowed
  | None => false
  end.

End Utils.

(** ** PinchGesture *)

(** [PinchGestureEventData]: the [detail] of a dispatched pinch event. *)
Record PinchGestureEventData : Type := mkPinchData {
  pinch_centroid : Point;
  pinch_target : option Node;
  pinch_srcEvent : PointerEvent;
  pinch_phase : GesturePhase;
  pinch_pointers : list PointerData;
  pinch_timeStamp : number;
  pinch_scale : number;
  pinch_totalScale : number;
  pinch_distance : number;
  pinch_velocity : number;
  pinch_activeGestures : gmap string bool
}.

Module PinchGesture.

(** [PinchGestureState] *)
Record PinchGestureState : Type := mkState {
  startDistance : number;
  lastDistance : number;
  lastScale : number;
  lastTime : number;
  velocity : number;
  totalScale : number
}.

Definition initialState : PinchGestureState :=
  {| startDistance := 0; lastDistance := 0; lastScale := 1; lastTime := 0;
     velocity := 0; totalScale := 1 |}.

(** [PinchGestureOptions]; an absent option is [None].  [threshold] and
    [maxPointers] are resolved by [PointerGesture], which is not among the
    sources, and are not read by this class: the instance keeps them as
    given. *)
Record PinchGestureOptions : Type := mkOptions {
  opt_name : string;
  opt_preventDefault : option bool;
  opt_stopPropagation : option bool;
  opt_preventIf : option (list string);
  opt_threshold : option number;
  opt_minPointers : option nat;
  opt_maxPointers : option nat
}.

(** An instance: the object's identity, the fields set by the
    constructors of [Gesture], [PointerGesture] and [PinchGesture], the
    element bound by [init], and the state. *)
Record t : Type := mk {
  ident : nat;
  name : string;
  preventDefault : bool;
  stopPropagation : bool;
  preventIf : list string;
  threshold : option number;
  minPointers : nat;
  maxPointers : option nat;
  element : Node;
  state : PinchGestureState
}.

(** [new PinchGesture(options)] followed by [init(element)]:
    [minPointers: options.minPointers ?? 2]. *)
Definition create (ident : nat) (options : PinchGestureOptions) (element : Node) : t :=
  {| ident := ident;
     name := opt_name options;
     preventDefault := default false (opt_preventDefault options);
     stopPropagation := default false (opt_stopPropagation options);
     preventIf := default [] (opt_preventIf options);
     threshold := opt_threshold options;
     minPointers := default 2%nat (opt_minPointers options);
     maxPointers := opt_maxPointers options;
     element := element;
     state := initialState |}.

Definition ref (g : t) : GestureRef := {| ref_id := ident g; ref_name := name g |}.

Definition withState (g : t) (s : PinchGestureState) : t :=
  {| ident := ident g; name := name g; preventDefault := preventDefault g;
     stopPropagation := stopPropagation g; preventIf := preventIf g;
     threshold := threshold g; minPointers := minPointers g;
     maxPointers := maxPointers g; element := element g; state := s |}.

(** [get isActive] of [Gesture]: the registry is the only record of it. *)
Definition isActive (g : t) (reg : ActiveGesturesRegistry.t) : bool :=
  ActiveGesturesRegistry.isGestureActive reg (element g) (ref g).

(** [set isActive] of [Gesture]. *)
Definition setActive (g : t) (reg : ActiveGesturesRegistry.t) (isActive : bool)
  : ActiveGesturesRegistry.t :=
  if isActive then ActiveGesturesRegistry.registerActiveGesture reg (element g) (ref g)
  else ActiveGesturesRegistry.unregisterActiveGesture reg (element g) (ref g).

(** [resetState]: [totalScale] is kept. *)
Definition resetState (g : t) (reg : ActiveGesturesRegistry.t) : t * ActiveGesturesRegistry.t :=
  (withState g {| startDistance := 0; lastDistance := 0; lastScale := 1; lastTime := 0;
                  velocity := 0; totalScale := totalScale (state g) |},
   setActive g reg false).

(** [emitPinchEvent].  [preventDefault] and [stopPropagation] act on the
    browser's event and leave no trace here. *)
Definition emitPinchEvent (g : t) (reg : ActiveGesturesRegistry.t) (element : Node)
  (phase : GesturePhase) (pointers : list PointerData) (event : PointerEvent)
  : CustomEvent PinchGestureEventData :=
  let centroid := Utils.calculateCentroid pointers in
  let distance := lastDistance (state g) in
  let scale := lastScale (state g) in
  let activeGestures := ActiveGesturesRegistry.getActiveGestures reg element in
  mkCustomEvent element (Utils.createEventName (name g) phase)
    {| pinch_centroid := centroid;
       pinch_target := ev_target event;
       pinch_srcEvent := event;
       pinch_phase := phase;
       pinch_pointers := pointers;
       pinch_timeStamp := ev_timeStamp event;
       pinch_scale := scale;
       pinch_totalScale := totalScale (state g);
       pinch_distance := distance;
       pinch_velocity := velocity (state g);
       pinch_activeGestures := activeGestures |}.

(** What one call of [handlePointerEvent] leaves behind: the instance, the
    registry and the events it dispatched. *)
Definition Outcome : Type :=
  (t * ActiveGesturesRegistry.t * list (CustomEvent PinchGestureEventData))%type.

Definition unchanged (g : t) (reg : ActiveGesturesRegistry.t) : Outcome := (g, reg, []).

(** [p.type !== 'pointerup' && p.type !== 'pointercancel'] *)
Definition stillPressed (p : PointerData) : bool :=
  negb (EventType_eqb (type p) pointerup) && negb (EventType_eqb (type p) pointercancel).

Section WithHost.

Context {dom : Dom} {spread : Spread}.

#[local] Open Scope Q_scope.

(** [case 'pointerdown'] *)
Definition onPointerDown (g : t) (reg : ActiveGesturesRegistry.t) (targetElement : Node)
  (relevantPointers : list PointerData) (event : PointerEvent) : Outcome :=
  if (2 <=? length relevantPointers)%nat && negb (isActive g reg) then
    let initialDistance := calculateAverageDistance relevantPointers in
    let s := state g in
    let g1 := withState g {| startDistance := initialDistance;
                             lastDistance := initialDistance;
                             lastScale := lastScale s;
                             lastTime := ev_timeStamp event;
                             velocity := velocity s;
                             totalScale := totalScale s |} in
    let reg1 := setActive g1 reg true in
    (g1, reg1, [emitPinchEvent g1 reg1 targetElement start relevantPointers event])
  else unchanged g reg.

(** [case 'pointermove'] *)
Definition onPointerMove (g : t) (reg : ActiveGesturesRegistry.t) (targetElement : Node)
  (relevantPointers : list PointerData) (event : PointerEvent) : Outcome :=
  let s := state g in
  if isActive g reg && truthy (startDistance s)
     && (minPointers g <=? length relevantPointers)%nat then
    let currentDistance := calculateAverageDistance relevantPointers in
    let scale := if truthy (startDistance s) then currentDistance / startDistance s else 1 in
    let scaleChange := scale / lastScale s in
    let totalScale1 := totalScale s * scaleChange in
    let deltaTime := (ev_timeStamp event - lastTime s) / 1000 in
    let velocity1 :=
      if gtb deltaTime 0 && truthy (lastDistance s)
      then (currentDistance - lastDistance s) / deltaTime
      else velocity s in
    let g1 := withState g {| startDistance := startDistance s;
                             lastDistance := currentDistance;
                             lastScale := scale;
                             lastTime := ev_timeStamp event;
                             velocity := velocity1;
                             totalScale := totalScale1 |} in
    (g1, reg, [emitPinchEvent g1 reg targetElement ongoing relevantPointers event])
  else unchanged g reg.

(** [case 'pointerup': case 'pointercancel'] *)
Definition onPointerEnd (g : t) (reg : ActiveGesturesRegistry.t) (targetElement : Node)
  (relevantPointers : list PointerData) (event : PointerEvent) : Outcome :=
  if isActive g reg then
    let remainingPointers := List.filter stillPressed relevantPointers in
    if (length remainingPointers <? minPointers g)%nat then
      let phase := if EventType_eqb (ev_type event) pointercancel then cancel else end_ in
      let dispatched := emitPinchEvent g reg targetElement phase relevantPointers event in
      let '(g1, reg1) := resetState g reg in
      (g1, reg1, [dispatched])
    else if (2 <=? length remainingPointers)%nat then
      let newDistance := calculateAverageDistance remainingPointers in
      let s := state g in
      (withState g {| startDistance := newDistance / lastScale s;
                      lastDistance := lastDistance s;
                      lastScale := lastScale s;
                      lastTime := lastTime s;
                      velocity := velocity s;
                      totalScale := totalScale s |},
       reg, [])
    else unchanged g reg
  else unchanged g reg.

(** The pointers whose target is the element or inside it. *)
Definition relevantTo (targetElement : Node) (pointersArray : list PointerData)
  : list PointerData :=
  List.filter (fun pointer => isOrContains targetElement (target pointer)) pointersArray.

(** [handlePointerEvent] *)
Definition handlePointerEvent (g : t) (reg : ActiveGesturesRegistry.t)
  (pointers : PointerMap.t) (event : PointerEvent) : Outcome :=
  let pointersArray := PointerMap.values pointers in
  match Gesture.getTargetElement (element g) event with
  | None => unchanged g reg
  | Some targetElement =>
      if Gesture.shouldPreventGesture (preventIf g) reg targetElement then
        if isActive g reg then
          let dispatched := emitPinchEvent g reg targetElement cancel pointersArray event in
          let '(g1, reg1) := resetState g reg in
          (g1, reg1, [dispatched])
        else unchanged g reg
      else
        let relevantPointers := relevantTo targetElement pointersArray in
        match ev_type event with
        | pointerdown => onPointerDown g reg targetElement relevantPointers event
        | pointermove => onPointerMove g reg targetElement relevantPointers event
        | pointerup | pointercancel => onPointerEnd g reg targetElement relevantPointers event
        end
  end.

End WithHost.

(** [destroy]: [resetState], then the base class removes its option
    listener from the element. *)
Definition destroy (g : t) (reg : ActiveGesturesRegistry.t) : t * ActiveGesturesRegistry.t :=
  resetState g reg.

End PinchGesture.

(** ** PanGesture *)

(** [PanGestureEventData]: the [detail] of a dispatched pan event.
    [velocity] is [Math.sqrt(velocityX * velocityX + velocityY * velocityY)];
    the field here is its square. *)
Record PanGestureEventData : Type := mkPanData {
  pan_centroid : Point;
  pan_target : option Node;
  pan_srcEvent : PointerEvent;
  pan_phase : GesturePhase;
  pan_pointers : list PointerData;
  pan_timeStamp : number;
  pan_deltaX : number;
  pan_deltaY : number;
  pan_direction : option Utils.Direction;
  pan_velocityX : number;
  pan_velocityY : number;
  pan_velocitySquared : number;
  pan_totalDeltaX : number;
  pan_totalDeltaY : number
}.

Module PanGesture.

(** [PanGestureState] *)
Record PanGestureState : Type := mkState {
  active : bool;
  startPointers : PointerMap.t;
  startCentroid : option Point;
  lastCentroid : option Point;
  movementThresholdReached : bool;
  totalDeltaX : number;
  totalDeltaY : number
}.

Definition initialState : PanGestureState :=
  {| active := false; startPointers := PointerMap.empty; startCentroid := None;
     lastCentroid := None; movementThresholdReached := false;
     totalDeltaX := 0; totalDeltaY := 0 |}.

(** An instance.  [preventIf] is the field of the base class [Gesture];
    [threshold], [minPointers] and [maxPointers] are those of
    [PointerGesture] ([maxPointers] is [None] for [Infinity]); [element] is
    [None] until the instance is bound. *)
Record t : Type := mk {
  ident : nat;
  name : string;
  preventDefault : bool;
  stopPropagation : bool;
  preventIf : list string;
  threshold : number;
  minPointers : nat;
  maxPointers : option nat;
  direction : list Utils.Direction;
  element : option Node;
  state : PanGestureState
}.

Definition ref (g : t) : GestureRef := {| ref_id := ident g; ref_name := name g |}.

Definition withState (g : t) (s : PanGestureState) : t :=
  {| ident := ident g; name := name g; preventDefault := preventDefault g;
     stopPropagation := stopPropagation g; preventIf := preventIf g;
     threshold := threshold g; minPointers := minPointers g;
     maxPointers := maxPointers g; direction := direction g;
     element := element g; state := s |}.

(** [resetState] *)
Definition resetState (g : t) : t := withState g initialState.

(** [resetActiveState]: the total delta is kept. *)
Definition resetActiveState (g : t) : t :=
  withState g {| active := false; startPointers := PointerMap.empty;
                 startCentroid := None; lastCentroid := None;
                 movementThresholdReached := false;
                 totalDeltaX := totalDeltaX (state g);
                 totalDeltaY := totalDeltaY (state g) |}.

(** [destroy] *)
Definition destroy (g : t) : t := resetState g.

(** [length > this.maxPointers] *)
Definition exceeds (n : nat) (maxPointers : option nat) : bool :=
  match maxPointers with
  | Some m => (m <? n)%nat
  | None => false
  end.

Section WithHost.

Context {dom : Dom}.

#[local] Open Scope Q_scope.

(** [getTargetElement] with the guard on [this.element]. *)
Definition getTargetElement (g : t) (event : PointerEvent) : option Node :=
  match element g with
  | Some el => Gesture.getTargetElement el event
  | None => None
  end.

(** [emitPanEvent]: nothing is dispatched without a start centroid. *)
Definition emitPanEvent (g : t) (element : Node) (phase : GesturePhase)
  (pointers : list PointerData) (event : PointerEvent) (currentCentroid : Point)
  : list (CustomEvent PanGestureEventData) :=
  match startCentroid (state g) with
  | None => []
  | Some startCentroid =>
      let deltaX := x currentCentroid - x startCentroid in
      let deltaY := y currentCentroid - y startCentroid in
      let direction := Utils.getDirection startCentroid currentCentroid in
      let timeElapsed :=
        match PointerMap.values (startPointers (state g)) with
        | firstPointer :: _ => (ev_timeStamp event - timeStamp firstPointer) / 1000
        | [] => 0
        end in
      let velocityX := if gtb timeElapsed 0 then deltaX / timeElapsed else 0 in
      let velocityY := if gtb timeElapsed 0 then deltaY / timeElapsed else 0 in
      [mkCustomEvent element (Utils.createEventName (name g) phase)
         {| pan_centroid := currentCentroid;
            pan_target := ev_target event;
            pan_srcEvent := event;
            pan_phase := phase;
            pan_pointers := pointers;
            pan_timeStamp := ev_timeStamp event;
            pan_deltaX := deltaX;
            pan_deltaY := deltaY;
            pan_direction := direction;
            pan_velocityX := velocityX;
            pan_velocityY := velocityY;
            pan_velocitySquared := velocityX * velocityX + velocityY * velocityY;
            pan_totalDeltaX := totalDeltaX (state g);
            pan_totalDeltaY := totalDeltaY (state g) |}]
  end.

Definition Outcome : Type := (t * list (CustomEvent PanGestureEventData))%type.

(** [cancel] *)
Definition cancelGesture (g : t) (element : Node) (pointers : list PointerData)
  (event : PointerEvent) : Outcome :=
  let dispatched :=
    match active (state g), startCentroid (state g), lastCentroid (state g) with
    | true, Some _, Some lastCentroid => emitPanEvent g element cancel pointers event lastCentroid
    | _, _, _ => []
    end in
  (resetState g, dispatched).

(** The branch taken on [event.forceReset && this.element]. *)
Definition onForceReset (g : t) (element : Node) (pointers : PointerMap.t)
  (event : PointerEvent) : Outcome :=
  if active (state g) then
    let relevantPointers := PointerMap.values pointers in
    let dispatched :=
      match startCentroid (state g), lastCentroid (state g) with
      | Some _, Some lastCentroid =>
          emitPanEvent g element cancel relevantPointers event lastCentroid
      | _, _ => []
      end in
    (resetActiveState g, dispatched)
  else (g, []).

(** [case 'pointerdown'] *)
Definition onPointerDown (g : t) (relevantPointers : list PointerData) : Outcome :=
  let s := state g in
  match active s, startCentroid s with
  | false, None =>
      let startPointers1 :=
        fold_left (fun m pointer => PointerMap.set m (pointerId pointer) pointer)
                  relevantPointers (startPointers s) in
      let centroid := Utils.calculateCentroid relevantPointers in
      (withState g {| active := active s;
                      startPointers := startPointers1;
                      startCentroid := Some centroid;
                      lastCentroid := Some centroid;
                      movementThresholdReached := movementThresholdReached s;
                      totalDeltaX := totalDeltaX s;
                      totalDeltaY := totalDeltaY s |}, [])
  | _, _ => (g, [])
  end.

Definition withLastCentroid (g : t) (c : Point) : t :=
  let s := state g in
  withState g {| active := active s; startPointers := startPointers s;
                 startCentroid := startCentroid s; lastCentroid := Some c;
                 movementThresholdReached := movementThresholdReached s;
                 totalDeltaX := totalDeltaX s; totalDeltaY := totalDeltaY s |}.

(** [case 'pointermove'] *)
Definition onPointerMove (g : t) (targetElement : Node)
  (relevantPointers : list PointerData) (event : PointerEvent) : Outcome :=
  let s := state g in
  match startCentroid s with
  | Some start0 =>
      if (minPointers g <=? length relevantPointers)%nat then
        let currentCentroid := Utils.calculateCentroid relevantPointers in
        let deltaX := x currentCentroid - x start0 in
        let deltaY := y currentCentroid - y start0 in
        let moveDirection := Utils.getDirection start0 currentCentroid in
        if negb (movementThresholdReached s)
           && normAtLeast deltaX deltaY (threshold g)
           && Utils.isDirectionAllowed moveDirection (direction g) then
          let g1 := withState g {| active := true; startPointers := startPointers s;
                                   startCentroid := startCentroid s;
                                   lastCentroid := lastCentroid s;
                                   movementThresholdReached := true;
                                   totalDeltaX := totalDeltaX s;
                                   totalDeltaY := totalDeltaY s |} in
          (withLastCentroid g1 currentCentroid,
           emitPanEvent g1 targetElement start relevantPointers event currentCentroid)
        else if movementThresholdReached s && active s then
          let lastDeltaX := match lastCentroid s with
                            | Some l => x currentCentroid - x l
                            | None => 0
                            end in
          let lastDeltaY := match lastCentroid s with
                            | Some l => y currentCentroid - y l
                            | None => 0
                            end in
          let g1 := withState g {| active := active s; startPointers := startPointers s;
                                   startCentroid := startCentroid s;
                                   lastCentroid := lastCentroid s;
                                   movementThresholdReached := movementThresholdReached s;
                                   totalDeltaX := totalDeltaX s + lastDeltaX;
                                   totalDeltaY := totalDeltaY s + lastDeltaY |} in
          (withLastCentroid g1 currentCentroid,
           emitPanEvent g1 targetElement ongoing relevantPointers event currentCentroid)
        else (withLastCentroid g currentCentroid, [])
      else (g, [])
  | None => (g, [])
  end.

(** [p.type !== 'pointerup' && p.type !== 'pointercancel'] *)
Definition stillPressed (p : PointerData) : bool :=
  negb (EventType_eqb (type p) pointerup) && negb (EventType_eqb (type p) pointercancel).

(** [case 'pointerup': case 'pointercancel'] *)
Definition onPointerEnd (g : t) (targetElement : Node)
  (relevantPointers : list PointerData) (event : PointerEvent) : Outcome :=
  let s := state g in
  if active s && movementThresholdReached s then
    if (length (List.filter stillPressed relevantPointers) =? 0)%nat then
      let dispatched :=
        match lastCentroid s, startCentroid s with
        | Some currentCentroid, _
        | None, Some currentCentroid =>
            emitPanEvent g targetElement end_ relevantPointers event currentCentroid
        | None, None => []
        end in
      (resetActiveState g, dispatched)
    else (g, [])
  else (resetActiveState g, []).

Definition relevantTo (targetElement : Node) (pointersArray : list PointerData)
  : list PointerData :=
  List.filter (fun pointer => isOrContains targetElement (target pointer)) pointersArray.

(** [handlePointerEvent] *)
Definition handlePointerEvent (g : t) (pointers : PointerMap.t) (event : PointerEvent)
  : Outcome :=
  match ev_forceReset event, element g with
  | true, Some element => onForceReset g element pointers event
  | _, _ =>
      let pointersArray := PointerMap.values pointers in
      match getTargetElement g event with
      | None => (g, [])
      | Some targetElement =>
          let relevantPointers := relevantTo targetElement pointersArray in
          if (length relevantPointers <? minPointers g)%nat
             || exceeds (length relevantPointers) (maxPointers g) then
            if active (state g) then cancelGesture g targetElement relevantPointers event
            else (g, [])
          else
            match ev_type event with
            | pointerdown => onPointerDown g relevantPointers
            | pointermove => onPointerMove g targetElement relevantPointers event
            | pointerup | pointercancel => onPointerEnd g targetElement relevantPointers event
            end
      end
  end.

End WithHost.

End PanGesture.

(** ** GestureManager and the running system *)

(** A gesture instance of either class, and an event dispatched by one. *)
Inductive AnyGesture : Type :=
| PanInstance (g : PanGesture.t)
| PinchInstance (g : PinchGesture.t).

Inductive Dispatched : Type :=
| PanDispatched (e : CustomEvent PanGestureEventData)
| PinchDispatched (e : CustomEvent PinchGestureEventData).

Module GestureManager.

(** [gestureTemplates] and [elementGestureMap]. *)
Record t : Type := mk {
  gestureTemplates : gmap string AnyGesture;
  elementGestureMap : gmap nat (gmap string AnyGesture)
}.

(** What the handlers and the manager act on: the registry singleton, the
    manager's tables, which hold the instances, and the events dispatched
    so far. *)
Record World : Type := mkWorld {
  registry : ActiveGesturesRegistry.t;
  manager : t;
  dispatched : list Dispatched
}.

Definition lookupInstance (m : t) (element : Node) (gestureName : string)
  : option AnyGesture :=
  match elementGestureMap m !! element with
  | Some elementGestures => elementGestures !! gestureName
  | None => None
  end.

Definition storeInstance (m : t) (element : Node) (gestureName : string)
  (gesture : AnyGesture) : t :=
  {| gestureTemplates := gestureTemplates m;
     elementGestureMap :=
       <[element := <[gestureName := gesture]> (default ∅ (elementGestureMap m !! element))]>
         (elementGestureMap m) |}.

(** [gesture.destroy()] as far as the registry is concerned. *)
Definition destroyGesture (gesture : AnyGesture) (reg : ActiveGesturesRegistry.t)
  : ActiveGesturesRegistry.t :=
  match gesture with
  | PinchInstance g => snd (PinchGesture.destroy g reg)
  | PanInstance _ => reg
  end.

(** [unregisterElement(gestureName, element)] *)
Definition unregisterElement (w : World) (gestureName : string) (element : Node)
  : World * bool :=
  match elementGestureMap (manager w) !! element with
  | None => (w, false)
  | Some elementGestures =>
      match elementGestures !! gestureName with
      | None => (w, false)
      | Some gesture =>
          let reg1 := destroyGesture gesture (registry w) in
          let elementGestures1 := delete gestureName elementGestures in
          let reg2 := ActiveGesturesRegistry.unregisterElement reg1 element in
          let table :=
            if (size elementGestures1 =? 0)%nat
            then delete element (elementGestureMap (manager w))
            else <[element := elementGestures1]> (elementGestureMap (manager w)) in
          ({| registry := reg2;
              manager := {| gestureTemplates := gestureTemplates (manager w);
                            elementGestureMap := table |};
              dispatched := dispatched w |}, true)
      end
  end.

(** [unregisterAllGestures(element)] *)
Definition unregisterAllGestures (w : World) (element : Node) : World :=
  match elementGestureMap (manager w) !! element with
  | None => w
  | Some elementGestures =>
      let reg1 :=
        map_fold (fun _ gesture reg =>
                    ActiveGesturesRegistry.unregisterElement (destroyGesture gesture reg) element)
                 (registry w) elementGestures in
      {| registry := reg1;
         manager := {| gestureTemplates := gestureTemplates (manager w);
                       elementGestureMap := delete element (elementGestureMap (manager w)) |};
         dispatched := dispatched w |}
  end.

Section WithHost.

Context {dom : Dom} {spread : Spread}.

(** The handler an instance registers with the pointer manager when it is
    bound: its [handlePointerEvent], acting on the instance registered
    under [(element, gestureName)]. *)
Definition instanceHandler (element : Node) (gestureName : string)
  : PointerManager.GestureHandler World :=
  PointerManager.reader (fun pointers event w =>
    match lookupInstance (manager w) element gestureName with
    | Some (PinchInstance g) =>
        let '(g1, reg1, out) := PinchGesture.handlePointerEvent g (registry w) pointers event in
        {| registry := reg1;
           manager := storeInstance (manager w) element gestureName (PinchInstance g1);
           dispatched := dispatched w ++ List.map PinchDispatched out |}
    | Some (PanInstance g) =>
        let '(g1, out) := PanGesture.handlePointerEvent g pointers event in
        {| registry := registry w;
           manager := storeInstance (manager w) element gestureName (PanInstance g1);
           dispatched := dispatched w ++ List.map PanDispatched out |}
    | None => w
    end).

(** The pointer manager together with the world its handlers act on. *)
Record System : Type := mkSystem {
  pointerManager : PointerManager.t World;
  world : World
}.

(** Modelled from the spec: [PointerGesture.init] is not among the sources;
    the coordinator binds an instance to its target and subscribes it to
    the pointer tracker. *)
Definition attach (sys : System) (element : Node) (gestureName : string)
  (gesture : AnyGesture) : System :=
  {| pointerManager :=
       PointerManager.registerGestureHandler (pointerManager sys)
         (instanceHandler element gestureName);
     world :=
       {| registry := registry (world sys);
          manager := storeInstance (manager (world sys)) element gestureName gesture;
          dispatched := dispatched (world sys) |} |}.

Definition emptySystem : System :=
  {| pointerManager := {| PointerManager.pointers := PointerMap.empty;
                          PointerManager.gestureHandlers := [] |};
     world := {| registry := ∅;
                 manager := {| gestureTemplates := ∅; elementGestureMap := ∅ |};
                 dispatched := [] |} |}.

(** What reaches the system from the browser: a pointer event, or a blur
    or contextmenu event at a given time. *)
Inductive Input : Type :=
| PointerInput (event : PointerEvent)
| InterruptInput (now : number).

Definition step (sys : System) (input : Input) : System :=
  let '(pm1, w1) :=
    match input with
    | PointerInput event => PointerManager.handlePointerEvent (pointerManager sys) event (world sys)
    | InterruptInput now => PointerManager.handleInterruptEvents (pointerManager sys) now (world sys)
    end in
  {| pointerManager := pm1; world := w1 |}.

Definition run (sys : System) (inputs : list Input) : System := fold_left step inputs sys.

End WithHost.

End GestureManager.

(** ** Observations used in the statements *)

(** The entries the registry holds for a gesture on an element. *)
Definition entriesOf (reg : ActiveGesturesRegistry.t) (element : Node) (gesture : GestureRef)
  : list ActiveGestureEntry :=
  List.filter (fun entry => sameGesture (entry_gesture entry) gesture)
              (default [] (reg !! element)).

(** A handler that records what it is called with, tagged with its own
    number. *)
Definition recorder (tag : nat)
  : PointerManager.GestureHandler (list (nat * PointerMap.t * PointerEvent)) :=
  PointerManager.reader (fun pointers event log => log ++ [(tag, pointers, event)]).

(** A handler that removes the pointer of the event from the map it is
    handed: [pointers.delete(event.pointerId)]. *)
Definition eraser {W : Type} : PointerManager.GestureHandler W :=
  fun pointers event w => (PointerMap.delete pointers (ev_pointerId event), w).

(** The maps the handlers of a list are handed, one per handler and in
    order, when [notifyHandlers] calls them with [event] on the map [m]:
    every handler is handed the manager's map as the handlers before it
    left it. *)
Fixpoint handed {W : Type} (handlers : list (PointerManager.GestureHandler W))
  (event : PointerEvent) (m : PointerMap.t) (w : W) : list PointerMap.t :=
  match handlers with
  | [] => []
  | handler :: rest =>
      m :: handed rest event (fst (handler m event w)) (snd (handler m event w))
  end.

(** What a dispatched event is called and its phase. *)
Definition label (d : Dispatched) : string * GesturePhase :=
  match d with
  | PanDispatched e => (ce_name e, pan_phase (ce_detail e))
  | PinchDispatched e => (ce_name e, pinch_phase (ce_detail e))
  end.

Definition labels (sys : GestureManager.System) : list (string * GesturePhase) :=
  List.map label (GestureManager.dispatched (GestureManager.world sys)).

(** Phase, [scale] and [totalScale] of the pinch events, as reduced
    fractions. *)
Definition pinchScales (sys : GestureManager.System) : list (GesturePhase * Q * Q) :=
  flat_map (fun d => match d with
                     | PinchDispatched e =>
                         [(pinch_phase (ce_detail e),
                           Qred (pinch_scale (ce_detail e)),
                           Qred (pinch_totalScale (ce_detail e)))]
                     | PanDispatched _ => []
                     end)
           (GestureManager.dispatched (GestureManager.world sys)).

(** Phase, [deltaX] and [deltaY] of the pan events, as reduced fractions. *)
Definition panDeltas (sys : GestureManager.System) : list (GesturePhase * Q * Q) :=
  flat_map (fun d => match d with
                     | PanDispatched e =>
                         [(pan_phase (ce_detail e),
                           Qred (pan_deltaX (ce_detail e)),
                           Qred (pan_deltaY (ce_detail e)))]
                     | PinchDispatched _ => []
                     end)
           (GestureManager.dispatched (GestureManager.world sys)).

Definition pinchAt (sys : GestureManager.System) (element : Node) (gestureName : string)
  : option PinchGesture.t :=
  match GestureManager.lookupInstance (GestureManager.manager (GestureManager.world sys))
          element gestureName with
  | Some (PinchInstance g) => Some g
  | _ => None
  end.

Definition panAt (sys : GestureManager.System) (element : Node) (gestureName : string)
  : option PanGesture.t :=
  match GestureManager.lookupInstance (GestureManager.manager (GestureManager.world sys))
          element gestureName with
  | Some (PanInstance g) => Some g
  | _ => None
  end.

(** An active pan has its centroids and its element. *)
Definition panCoherent (g : PanGesture.t) : Prop :=
  PanGesture.active (PanGesture.state g) = true ->
  PanGesture.startCentroid (PanGesture.state g) <> None
  /\ PanGesture.lastCentroid (PanGesture.state g) <> None
  /\ PanGesture.element g <> None.

(** ** A concrete host and concrete runs *)

Module Demo.

(** A page: node 0 is the root and contains every node; node 1 is a
    gesture target with one child, node 2; node 3 is another element. *)
Definition page : Dom :=
  {| contains := fun a b =>
       (a =? b)%nat || (a =? 0)%nat || ((a =? 1)%nat && (b =? 2)%nat) |}.

Definition taxicab (p q : PointerData) : number :=
  (Qabs (clientX p - clientX q) + Qabs (clientY p - clientY q))%Q.

Fixpoint pairSum (pointers : list PointerData) : number :=
  match pointers with
  | [] => 0
  | p :: rest => (Utils.sumOf (taxicab p) rest + pairSum rest)%Q
  end.

(** The mean distance over the pairs of pointers, for pointers that lie on
    one horizontal or vertical line, where the distance of two pointers is
    the sum of their coordinate differences.  The runs below only place
    pointers on the line y = 0. *)
Definition axisSpread : Spread :=
  {| calculateAverageDistance := fun pointers =>
       let n := length pointers in
       if (n <? 2)%nat then 0%Q
       else (pairSum pointers / inject_Z (Z.of_nat (n * (n - 1) / 2)))%Q |}.

(** A touch event of pointer [id] at [(px, 0)] on the node [on]. *)
Definition touch (kind : EventType) (id : Z) (px : number) (on : Node) (time : number)
  : PointerEvent :=
  {| ev_type := kind; ev_pointerId := id;
     ev_clientX := px; ev_clientY := 0; ev_pageX := px; ev_pageY := 0;
     ev_target := Some on; ev_timeStamp := time;
     ev_isPrimary := (id =? 1)%Z; ev_pressure := 1 # 2;
     ev_width := 1; ev_height := 1;
     ev_pointerType := "touch"; ev_forceReset := false |}.

Definition pinchOptions (name : string) (minPointers : option nat) : PinchGesture.PinchGestureOptions :=
  {| PinchGesture.opt_name := name;
     PinchGesture.opt_preventDefault := None;
     PinchGesture.opt_stopPropagation := None;
     PinchGesture.opt_preventIf := None;
     PinchGesture.opt_threshold := Some 0%Q;
     PinchGesture.opt_minPointers := minPointers;
     PinchGesture.opt_maxPointers := Some 10%nat |}.

(** [new PinchGesture({ name: 'pinch', threshold: 0, maxPointers: 10 })] on node 1. *)
Definition pinch : PinchGesture.t := PinchGesture.create 11 (pinchOptions "pinch" None) 1.

(** The same with [minPointers: 3]. *)
Definition pinch3 : PinchGesture.t := PinchGesture.create 12 (pinchOptions "pinch" (Some 3%nat)) 1.

(** A second pinch recogniser under another name. *)
Definition zoom : PinchGesture.t := PinchGesture.create 13 (pinchOptions "zoom" None) 1.

(** A pan on node 1: threshold 10, one or two pointers, every direction. *)
Definition panWith (preventIf : list string) : PanGesture.t :=
  {| PanGesture.ident := 21;
     PanGesture.name := "pan";
     PanGesture.preventDefault := false;
     PanGesture.stopPropagation := false;
     PanGesture.preventIf := preventIf;
     PanGesture.threshold := 10;
     PanGesture.minPointers := 1;
     PanGesture.maxPointers := Some 2%nat;
     PanGesture.direction := [Utils.up; Utils.down; Utils.left; Utils.right];
     PanGesture.element := Some 1%nat;
     PanGesture.state := PanGesture.initialState |}.

Definition pan : PanGesture.t := panWith [].

Definition attach := @GestureManager.attach page axisSpread.

(** The systems: which instances are bound to node 1, in the order they
    subscribed. *)
Definition onlyPinch : GestureManager.System :=
  attach GestureManager.emptySystem 1%nat "pinch" (PinchInstance pinch).

Definition onlyPinch3 : GestureManager.System :=
  attach GestureManager.emptySystem 1%nat "pinch" (PinchInstance pinch3).

Definition onlyPan : GestureManager.System :=
  attach GestureManager.emptySystem 1%nat "pan" (PanInstance pan).

Definition panAndPinch (preventIf : list string) : GestureManager.System :=
  attach (attach GestureManager.emptySystem 1%nat "pan" (PanInstance (panWith preventIf)))
         1%nat "pinch" (PinchInstance pinch).

Definition pinchAndZoom : GestureManager.System :=
  attach (attach GestureManager.emptySystem 1%nat "pinch" (PinchInstance pinch))
         1%nat "zoom" (PinchInstance zoom).

(** Two fingers go down on node 1, 100 apart (the second on its child). *)
Definition twoFingersDown : list GestureManager.Input :=
  [GestureManager.PointerInput (touch pointerdown 1 0 1%nat 0);
   GestureManager.PointerInput (touch pointerdown 2 100 2%nat 10)].

(** The pointer map the manager holds after the given events, none of
    which removed a pointer. *)
Definition held (events : list PointerEvent) : PointerMap.t :=
  fold_left (fun m event =>
               PointerMap.set m (ev_pointerId event) (PointerManager.createPointerData event))
            events PointerMap.empty.

(** A pinch instance that is notified of the given calls, one after the
    other. *)
Definition feed (from : PinchGesture.t * ActiveGesturesRegistry.t)
  (calls : list (PointerMap.t * PointerEvent)) : PinchGesture.t * ActiveGesturesRegistry.t :=
  fold_left (fun st call =>
               let '(g1, reg1, _) :=
                 @PinchGesture.handlePointerEvent page axisSpread
                   (fst st) (snd st) (fst call) (snd call) in
               (g1, reg1))
            calls from.

(** Three fingers at 0, 100 and 200; the second moves to 150; the third is
    lifted; the second reports a move without having moved. *)
Definition finger1 : PointerEvent := touch pointerdown 1 0 1%nat 0.
Definition finger2 : PointerEvent := touch pointerdown 2 100 2%nat 10.
Definition finger3 : PointerEvent := touch pointerdown 3 200 1%nat 20.
Definition finger2To150 : PointerEvent := touch pointermove 2 150 2%nat 30.
Definition finger2To225 : PointerEvent := touch pointermove 2 225 2%nat 40.
Definition finger3Up : PointerEvent := touch pointerup 3 200 1%nat 40.
Definition finger2Still : PointerEvent := touch pointermove 2 150 2%nat 50.

(** The pinch with three fingers down and a scale of 4/3, before the third
    finger is lifted. *)
Definition spreadBefore : PinchGesture.t * ActiveGesturesRegistry.t :=
  feed (pinch, ∅)
       [(held [finger1], finger1);
        (held [finger1; finger2], finger2);
        (held [finger1; finger2; finger3], finger3);
        (held [finger1; finger2; finger3; finger2To150], finger2To150)].

(** The map the handlers see when the third finger is lifted, and at the
    move that follows. *)
Definition atRelease : PointerMap.t :=
  held [finger1; finger2; finger3; finger2To150; finger3Up].

Definition afterRelease : PointerMap.t :=
  PointerMap.set (PointerMap.delete atRelease 3) 2
                 (PointerManager.createPointerData finger2Still).

End Demo.

(** ** Calls on the registry *)

(** No element of the registry maps to an empty set. *)
Definition noEmptySets (reg : ActiveGesturesRegistry.t) : Prop :=
  forall element entries, reg !! element = Some entries -> entries <> [].

(** A call of one of the registry's public methods. *)
Inductive RegistryCall : Type :=
| RegisterActive (element : Node) (gesture : GestureRef)
| UnregisterActive (element : Node) (gesture : GestureRef)
| UnregisterElement (element : Node)
| DestroyRegistry.

Definition registryCall (reg : ActiveGesturesRegistry.t) (call : RegistryCall)
  : ActiveGesturesRegistry.t :=
  match call with
  | RegisterActive element gesture =>
      ActiveGesturesRegistry.registerActiveGesture reg element gesture
  | UnregisterActive element gesture =>
      ActiveGesturesRegistry.unregisterActiveGesture reg element gesture
  | UnregisterElement element => ActiveGesturesRegistry.unregisterElement reg element
  | DestroyRegistry => ActiveGesturesRegistry.destroy reg
  end.


(** ** Calls on the pointer manager *)

(** A snapshot as the manager holds it between two events: stored under
    the pointer's own id, and made from a [pointerdown] or a [pointermove]. *)
Definition keptSnapshot (kv : Z * PointerData) : Prop :=
  pointerId (snd kv) = fst kv
  /\ (type (snd kv) = pointerdown \/ type (snd kv) = pointermove).

(** One event reaching the listeners of a manager with any kind of
    handlers, as [GestureManager.step] does for the running system. *)
Definition managerStep {W : Type} (st : PointerManager.t W * W)
  (input : GestureManager.Input) : PointerManager.t W * W :=
  match input with
  | GestureManager.PointerInput event =>
      PointerManager.handlePointerEvent (fst st) event (snd st)
  | GestureManager.InterruptInput now =>
      PointerManager.handleInterruptEvents (fst st) now (snd st)
  end.

(** ** PointerManager: the singleton *)

Module PointerManagerStatic.

(** [PointerManagerOptions]; an absent option is [None]. *)
Record PointerManagerOptions : Type := mkOptions {
  opt_root : option Node;
  opt_touchAction : option string;
  opt_passive : option bool
}.

(** An instance: the fields the constructor sets, and the pointer map and
    the handlers. *)
Record ManagerInstance (W : Type) : Type := mkInstance {
  root : Node;
  touchAction : string;
  passive : bool;
  tracker : PointerManager.t W
}.

Arguments mkInstance {W} _ _ _ _.
Arguments root {W} _.
Arguments touchAction {W} _.
Arguments passive {W} _.
Arguments tracker {W} _.

(** What a call of [getInstance] gives back. *)
Inductive Outcome (W : Type) : Type :=
| Returned (instance : ManagerInstance W)
| Thrown (message : string).

Arguments Returned {W} _.
Arguments Thrown {W} _.

Section WithDocument.

Context {W : Type}.

(** [document.documentElement] *)
Variable documentElement : Node.

(** The constructor: [options.root ?? document.documentElement],
    [options.touchAction || 'auto'] (the empty string is falsy) and
    [options.passive !== false]. *)
Definition construct (options : PointerManagerOptions) : ManagerInstance W :=
  {| root := default documentElement (opt_root options);
     touchAction := match opt_touchAction options with
                    | Some value => if String.eqb value "" then "auto"%string else value
                    | None => "auto"%string
                    end;
     passive := match opt_passive options with
                | Some false => false
                | _ => true
                end;
     tracker := {| PointerManager.pointers := PointerMap.empty;
                   PointerManager.gestureHandlers := [] |} |}.

(** [getInstance]; the static field [PointerManager.instance] is [None]
    for [null], and so is a call without options. *)
Definition getInstance (static : option (ManagerInstance W)) (options : option PointerManagerOptions)
  : option (ManagerInstance W) * Outcome W :=
  match static, options with
  | None, Some given => (Some (construct given), Returned (construct given))
  | None, None =>
      (None, Thrown "PointerManager must be initialized with options first time")
  | Some instance, _ => (Some instance, Returned instance)
  end.

(** The calls of a list, one after the other, with what each gave back. *)
Definition getInstances (static : option (ManagerInstance W))
  (calls : list (option PointerManagerOptions)) : option (ManagerInstance W) * list (Outcome W) :=
  fold_left (fun st options =>
               let '(static1, outcome) := getInstance (fst st) options in
               (static1, snd st ++ [outcome]))
            calls (static, []).

End WithDocument.

End PointerManagerStatic.


(** ** Histories of one gesture instance *)

(** The order in which a gesture may dispatch its phases: [start] while it
    is idle, [ongoing], [end] and [cancel] while it is active.  The result
    is whether the gesture is active after the phases, and [None] when they
    are out of order. *)
Fixpoint phaseOrder (active : bool) (phases : list GesturePhase) : option bool :=
  match phases with
  | [] => Some active
  | start :: rest => if active then None else phaseOrder true rest
  | ongoing :: rest => if active then phaseOrder true rest else None
  | end_ :: rest | cancel :: rest => if active then phaseOrder false rest else None
  end.

(** [end] and [cancel] close a gesture. *)
Definition closes (phase : GesturePhase) : bool :=
  match phase with
  | end_ | cancel => true
  | start | ongoing => false
  end.

(** The product of the [scale] of the events that closed a pinch. *)
Definition finishedScales (out : list (CustomEvent PinchGestureEventData)) : number :=
  fold_right (fun dispatched acc =>
                if closes (pinch_phase (ce_detail dispatched))
                then (pinch_scale (ce_detail dispatched) * acc)%Q
                else acc)
             1%Q out.

Section Histories.

Context {dom : Dom} {spread : Spread}.

(** A pinch instance whose [handlePointerEvent] is called with the given
    maps and events, one after the other; the events it dispatches are
    collected in order. *)
Definition pinchCalls (from : PinchGesture.Outcome)
  (calls : list (PointerMap.t * PointerEvent)) : PinchGesture.Outcome :=
  fold_left (fun st call =>
               let '(g, reg, out) := st in
               let '(g1, reg1, out1) :=
                 PinchGesture.handlePointerEvent g reg (fst call) (snd call) in
               (g1, reg1, out ++ out1))
            calls from.

(** The same for a pan instance. *)
Definition panCalls (from : PanGesture.Outcome)
  (calls : list (PointerMap.t * PointerEvent)) : PanGesture.Outcome :=
  fold_left (fun st call =>
               let '(g, out) := st in
               let '(g1, out1) := PanGesture.handlePointerEvent g (fst call) (snd call) in
               (g1, out ++ out1))
            calls from.

End Histories.


(** A pan whose flags agree: it is active exactly when its movement
    threshold was reached, and then it has its centroids and its element. *)
Definition panSettled (g : PanGesture.t) : Prop :=
  panCoherent g
  /\ PanGesture.movementThresholdReached (PanGesture.state g)
     = PanGesture.active (PanGesture.state g).

(** What one call of [handlePointerEvent] can do to a settled pan [g],
    as the instance [g1] it leaves and the events it dispatches: it stays
    quiet and as active as it was; it starts; it reports a move; it
    closes. *)
Inductive panStep (g : PanGesture.t)
  : PanGesture.t -> list (CustomEvent PanGestureEventData) -> Prop :=
| panQuiet (g1 : PanGesture.t) :
    PanGesture.active (PanGesture.state g1) = PanGesture.active (PanGesture.state g) ->
    (PanGesture.active (PanGesture.state g) = true -> g1 = g) ->
    panStep g g1 []
| panStarted (g1 : PanGesture.t) (start0 c : Point) (el : Node)
    (dispatched : CustomEvent PanGestureEventData) :
    PanGesture.active (PanGesture.state g) = false ->
    PanGesture.active (PanGesture.state g1) = true ->
    PanGesture.element g = Some el ->
    ce_element dispatched = el ->
    ce_name dispatched = Utils.createEventName (PanGesture.name g) start ->
    pan_phase (ce_detail dispatched) = start ->
    PanGesture.startCentroid (PanGesture.state g) = Some start0 ->
    PanGesture.startCentroid (PanGesture.state g1) = Some start0 ->
    PanGesture.lastCentroid (PanGesture.state g1) = Some c ->
    PanGesture.totalDeltaX (PanGesture.state g1) = PanGesture.totalDeltaX (PanGesture.state g) ->
    PanGesture.totalDeltaY (PanGesture.state g1) = PanGesture.totalDeltaY (PanGesture.state g) ->
    pan_deltaX (ce_detail dispatched) = (x c - x start0)%Q ->
    pan_deltaY (ce_detail dispatched) = (y c - y start0)%Q ->
    pan_totalDeltaX (ce_detail dispatched) = PanGesture.totalDeltaX (PanGesture.state g) ->
    pan_totalDeltaY (ce_detail dispatched) = PanGesture.totalDeltaY (PanGesture.state g) ->
    Utils.isDirectionAllowed (pan_direction (ce_detail dispatched)) (PanGesture.direction g)
    = true ->
    (PanGesture.minPointers g <= length (pan_pointers (ce_detail dispatched)))%nat ->
    PanGesture.exceeds (length (pan_pointers (ce_detail dispatched))) (PanGesture.maxPointers g)
    = false ->
    pan_centroid (ce_detail dispatched) = c ->
    panStep g g1 [dispatched]
| panMoved (g1 : PanGesture.t) (start0 last c : Point) (el : Node)
    (dispatched : CustomEvent PanGestureEventData) :
    PanGesture.active (PanGesture.state g) = true ->
    PanGesture.active (PanGesture.state g1) = true ->
    PanGesture.element g = Some el ->
    ce_element dispatched = el ->
    ce_name dispatched = Utils.createEventName (PanGesture.name g) ongoing ->
    pan_phase (ce_detail dispatched) = ongoing ->
    PanGesture.startCentroid (PanGesture.state g) = Some start0 ->
    PanGesture.lastCentroid (PanGesture.state g) = Some last ->
    PanGesture.startCentroid (PanGesture.state g1) = Some start0 ->
    PanGesture.lastCentroid (PanGesture.state g1) = Some c ->
    PanGesture.totalDeltaX (PanGesture.state g1)
    = (PanGesture.totalDeltaX (PanGesture.state g) + (x c - x last))%Q ->
    PanGesture.totalDeltaY (PanGesture.state g1)
    = (PanGesture.totalDeltaY (PanGesture.state g) + (y c - y last))%Q ->
    pan_deltaX (ce_detail dispatched) = (x c - x start0)%Q ->
    pan_deltaY (ce_detail dispatched) = (y c - y start0)%Q ->
    pan_totalDeltaX (ce_detail dispatched) = PanGesture.totalDeltaX (PanGesture.state g1) ->
    pan_totalDeltaY (ce_detail dispatched) = PanGesture.totalDeltaY (PanGesture.state g1) ->
    (PanGesture.minPointers g <= length (pan_pointers (ce_detail dispatched)))%nat ->
    PanGesture.exceeds (length (pan_pointers (ce_detail dispatched))) (PanGesture.maxPointers g)
    = false ->
    pan_centroid (ce_detail dispatched) = c ->
    panStep g g1 [dispatched]
| panClosed (g1 : PanGesture.t) (start0 last : Point) (el : Node)
    (dispatched : CustomEvent PanGestureEventData) :
    PanGesture.active (PanGesture.state g) = true ->
    PanGesture.active (PanGesture.state g1) = false ->
    PanGesture.element g = Some el ->
    ce_element dispatched = el ->
    ce_name dispatched
    = Utils.createEventName (PanGesture.name g) (pan_phase (ce_detail dispatched)) ->
    closes (pan_phase (ce_detail dispatched)) = true ->
    PanGesture.startCentroid (PanGesture.state g) = Some start0 ->
    PanGesture.lastCentroid (PanGesture.state g) = Some last ->
    pan_deltaX (ce_detail dispatched) = (x last - x start0)%Q ->
    pan_deltaY (ce_detail dispatched) = (y last - y start0)%Q ->
    pan_totalDeltaX (ce_detail dispatched) = PanGesture.totalDeltaX (PanGesture.state g) ->
    pan_totalDeltaY (ce_detail dispatched) = PanGesture.totalDeltaY (PanGesture.state g) ->
    pan_centroid (ce_detail dispatched) = last ->
    panStep g g1 [dispatched].


(** ** Example histories *)

Module Examples.

(** With fingers 1 and 2 down 100 apart, finger 2 moves to 150 and is
    lifted; it goes down again at 100 and moves to 200.  Each call is the
    map the handlers are handed and the event. *)
Definition finger2Up : PointerEvent := Demo.touch pointerup 2 150 2%nat 40.
Definition finger2Again : PointerEvent := Demo.touch pointerdown 2 100 2%nat 50.
Definition finger2To200 : PointerEvent := Demo.touch pointermove 2 200 2%nat 60.

Definition twoPinches : list (PointerMap.t * PointerEvent) :=
  [(Demo.held [Demo.finger1], Demo.finger1);
   (Demo.held [Demo.finger1; Demo.finger2], Demo.finger2);
   (Demo.held [Demo.finger1; Demo.finger2; Demo.finger2To150], Demo.finger2To150);
   (Demo.held [Demo.finger1; Demo.finger2; Demo.finger2To150; finger2Up], finger2Up);
   (Demo.held [Demo.finger1; finger2Again], finger2Again);
   (Demo.held [Demo.finger1; finger2Again; finger2To200], finger2To200)].

(** A pinch on node 1 that lists "zoom" in [preventIf]. *)
Definition shyPinch : PinchGesture.t :=
  PinchGesture.create 14
    {| PinchGesture.opt_name := "pinch";
       PinchGesture.opt_preventDefault := None;
       PinchGesture.opt_stopPropagation := None;
       PinchGesture.opt_preventIf := Some ["zoom"%string];
       PinchGesture.opt_threshold := Some 0%Q;
       PinchGesture.opt_minPointers := None;
       PinchGesture.opt_maxPointers := Some 10%nat |}
    1.

(** The registry in which the "zoom" instance is active on node 1. *)
Definition zoomActive : ActiveGesturesRegistry.t :=
  ActiveGesturesRegistry.registerActiveGesture ∅ 1%nat (PinchGesture.ref Demo.zoom).

Definition pinchCalls := @pinchCalls Demo.page Demo.axisSpread.

(** One finger goes down on node 1 at 0, drags to 20 and to 30, and is
    lifted. *)
Definition dragDown : PointerEvent := Demo.touch pointerdown 1 0 1%nat 0.
Definition dragTo20 : PointerEvent := Demo.touch pointermove 1 20 1%nat 10.
Definition dragTo30 : PointerEvent := Demo.touch pointermove 1 30 1%nat 20.
Definition dragUp : PointerEvent := Demo.touch pointerup 1 30 1%nat 30.

Definition drag : list (PointerMap.t * PointerEvent) :=
  [(Demo.held [dragDown], dragDown);
   (Demo.held [dragDown; dragTo20], dragTo20);
   (Demo.held [dragDown; dragTo20; dragTo30], dragTo30);
   (Demo.held [dragDown; dragTo20; dragTo30; dragUp], dragUp)].

Definition panCalls := @panCalls Demo.page.

(** The drag with two more fingers on the element: the map the handlers
    are handed when finger 3 goes down. *)
Definition crowd : PointerMap.t * PointerEvent :=
  (Demo.held [dragDown; dragTo20; dragTo30; Demo.finger2; Demo.finger3], Demo.finger3).

End Examples.

(** * Properties *)

(** ** The pointer map *)

Lemma PointerMap_get_set_eq (m : PointerMap.t) (k : Z) (v : PointerData) :
  PointerMap.get (PointerMap.set m k v) k = Some v.
Proof.
  induction m as [| [k' v'] rest IH]; simpl.
  - now rewrite Z.eqb_refl.
  - destruct (k =? k')%Z eqn:E; simpl.
    + now rewrite Z.eqb_refl.
    + now rewrite E.
Qed.

Lemma PointerMap_get_set_ne (m : PointerMap.t) (k q : Z) (v : PointerData) :
  q <> k -> PointerMap.get (PointerMap.set m k v) q = PointerMap.get m q.
Proof.
  intros Hne. induction m as [| [k' v'] rest IH]; simpl.
  - destruct (q =? k)%Z eqn:E; [apply Z.eqb_eq in E; contradiction | reflexivity].
  - destruct (k =? k')%Z eqn:E; simpl.
    + apply Z.eqb_eq in E. subst k'.
      destruct (q =? k)%Z eqn:E'; [apply Z.eqb_eq in E'; contradiction | reflexivity].
    + now rewrite IH.
Qed.

Lemma PointerMap_get_delete_eq (m : PointerMap.t) (k : Z) :
  PointerMap.get (PointerMap.delete m k) k = None.
Proof.
  unfold PointerMap.delete.
  induction m as [| [k' v'] rest IH]; simpl; [reflexivity |].
  destruct (k =? k')%Z eqn:E; simpl; [assumption |].
  now rewrite E.
Qed.

Lemma PointerMap_get_delete_ne (m : PointerMap.t) (k q : Z) :
  q <> k -> PointerMap.get (PointerMap.delete m k) q = PointerMap.get m q.
Proof.
  intros Hne. unfold PointerMap.delete.
  induction m as [| [k' v'] rest IH]; simpl; [reflexivity |].
  destruct (k =? k')%Z eqn:E; simpl.
  - apply Z.eqb_eq in E. subst k'.
    destruct (q =? k)%Z eqn:E'; [apply Z.eqb_eq in E'; contradiction | assumption].
  - now rewrite IH.
Qed.

(** ** PointerManager *)

(** Handlers that only read are all called with the map the manager holds,
    which they leave as it is. *)
Lemma notifyHandlers_readers {W : Type} (pm : PointerManager.t W) (event : PointerEvent) (w : W) :
  Forall PointerManager.readsOnly (PointerManager.gestureHandlers pm) ->
  PointerManager.notifyHandlers pm event w
  = (pm, fold_left (fun acc handler => snd (handler (PointerManager.pointers pm) event acc))
                   (PointerManager.gestureHandlers pm) w).
Proof.
  intros Hread. unfold PointerManager.notifyHandlers.
  assert (Hfold : forall (handlers : list (PointerManager.GestureHandler W))
                         (m : PointerMap.t) (acc : W),
            Forall PointerManager.readsOnly handlers ->
            fold_left (fun st handler => handler (fst st) event (snd st)) handlers (m, acc)
            = (m, fold_left (fun acc handler => snd (handler m event acc)) handlers acc)).
  { induction handlers as [| handler handlers IH]; intros m acc Hall; simpl; [reflexivity |].
    inversion Hall as [| ? ? Hhandler Hrest]; subst.
    specialize (Hhandler m event acc).
    destruct (handler m event acc) as [m1 acc1]. simpl in *. subst m1.
    now apply IH. }
  rewrite (Hfold _ _ _ Hread). simpl.
  now destruct pm.
Qed.

(** Whatever the handlers do to the map, the pointer of a terminal event
    is not in it when [handlePointerEvent] returns. *)
Lemma terminal_pointer_removed {W : Type} (pm : PointerManager.t W) (event : PointerEvent) (w : W) :
  ev_type event = pointerup \/ ev_type event = pointercancel ->
  PointerMap.get (PointerManager.pointers (fst (PointerManager.handlePointerEvent pm event w)))
                 (ev_pointerId event) = None.
Proof.
  intros Hterminal. unfold PointerManager.handlePointerEvent.
  destruct Hterminal as [-> | ->];
    destruct (PointerManager.notifyHandlers _ event w) as [pm2 w1]; simpl;
    apply PointerMap_get_delete_eq.
Qed.

(** [notifyHandlers] calls the handlers in order; each is handed the map
    and the world as the one before it left them. *)
Lemma notifyHandlers_fold {W : Type} (pm : PointerManager.t W) (event : PointerEvent) (w : W) :
  let left := fold_left (fun st handler => handler (fst st) event (snd st))
                        (PointerManager.gestureHandlers pm) (PointerManager.pointers pm, w) in
  PointerManager.notifyHandlers pm event w = (PointerManager.withPointers pm (fst left), snd left).
Proof. reflexivity. Qed.

(** Handlers that leave the entry of a pointer alone are all handed a map
    with that entry. *)
Lemma handed_keeps_entry {W : Type} (handlers : list (PointerManager.GestureHandler W))
  (event : PointerEvent) (p : Z) (snapshot : PointerData) :
  Forall (fun handler =>
            forall m w, PointerMap.get m p = Some snapshot ->
                        PointerMap.get (fst (handler m event w)) p = Some snapshot)
         handlers ->
  forall m w,
    PointerMap.get m p = Some snapshot ->
    Forall (fun given => PointerMap.get given p = Some snapshot) (handed handlers event m w).
Proof.
  induction handlers as [| handler handlers IH]; intros Hkeep m w Hm; simpl; constructor.
  - exact Hm.
  - inversion Hkeep as [| ? ? Hhandler Hrest]; subst.
    apply IH; [exact Hrest | now apply Hhandler].
Qed.

Lemma handed_readers {W : Type} (handlers : list (PointerManager.GestureHandler W))
  (event : PointerEvent) (m : PointerMap.t) (w : W) :
  Forall PointerManager.readsOnly handlers ->
  Forall (fun given => given = m) (handed handlers event m w).
Proof.
  revert w. induction handlers as [| handler handlers IH]; intros w Hread; simpl; constructor.
  - reflexivity.
  - inversion Hread as [| ? ? Hhandler Hrest]; subst.
    rewrite (Hhandler m event w). now apply IH.
Qed.

Lemma handed_length {W : Type} (handlers : list (PointerManager.GestureHandler W))
  (event : PointerEvent) (m : PointerMap.t) (w : W) :
  length (handed handlers event m w) = length handlers.
Proof.
  revert m w. induction handlers as [| handler handlers IH]; intros m w; simpl;
    [reflexivity | now rewrite IH].
Qed.

(** C2.  When a [pointerup] or [pointercancel] event for pointer [p] is
    handled, the snapshot made from the event, field by field, is stored
    under [p] first.  Every registered handler is then called once, in
    order, with the event and with the manager's own map as the handlers
    before it left it: the first handler is handed the map that holds the
    terminal snapshot under [p], and so is every handler when no handler
    removes or replaces the entry of [p] in the map it is handed; handlers
    that only read the map are all handed that same map.  When
    [handlePointerEvent] returns, the manager's map has no entry for [p],
    whatever the handlers did, and the handlers are the same; with
    handlers that only read, the other pointers are as they were before
    the event. *)
Theorem C2_terminal_pointer_seen_then_removed :
  forall (W : Type) (pm : PointerManager.t W) (event : PointerEvent) (w : W),
    ev_type event = pointerup \/ ev_type event = pointercancel ->
    let p := ev_pointerId event in
    let snapshot := PointerManager.createPointerData event in
    let handlers := PointerManager.gestureHandlers pm in
    let seen := PointerMap.set (PointerManager.pointers pm) p snapshot in
    let given := handed handlers event seen w in
    let left := fold_left (fun st handler => handler (fst st) event (snd st)) handlers (seen, w) in
    let after := PointerManager.handlePointerEvent pm event w in
    PointerMap.get seen p = Some snapshot
    /\ snapshot
       = {| pointerId := ev_pointerId event;
            clientX := ev_clientX event;
            clientY := ev_clientY event;
            pageX := ev_pageX event;
            pageY := ev_pageY event;
            target := ev_target event;
            timeStamp := ev_timeStamp event;
            type := ev_type event;
            isPrimary := ev_isPrimary event;
            pressure := ev_pressure event;
            width := ev_width event;
            height := ev_height event;
            pointerType := ev_pointerType event;
            srcEvent := event |}
    /\ length given = length handlers
    /\ hd_error given = match handlers with
                        | [] => None
                        | _ :: _ => Some seen
                        end
    /\ (Forall (fun handler =>
                  forall m w', PointerMap.get m p = Some snapshot ->
                               PointerMap.get (fst (handler m event w')) p = Some snapshot)
               handlers ->
        Forall (fun m => PointerMap.get m p = Some snapshot) given)
    /\ (Forall PointerManager.readsOnly handlers ->
        Forall (fun m => m = seen) given
        /\ snd after = fold_left (fun acc handler => snd (handler seen event acc)) handlers w
        /\ forall q, q <> p ->
             PointerMap.get (PointerManager.pointers (fst after)) q
             = PointerMap.get (PointerManager.pointers pm) q)
    /\ snd after = snd left
    /\ PointerManager.pointers (fst after) = PointerMap.delete (fst left) p
    /\ PointerMap.get (PointerManager.pointers (fst after)) p = None
    /\ PointerManager.gestureHandlers (fst after) = handlers.
Proof.
  intros W pm event w Hterminal p snapshot handlers seen given left after.
  assert (Hafter : after = (PointerManager.withPointers pm (PointerMap.delete (fst left) p),
                            snd left)).
  { subst after left seen snapshot p handlers. unfold PointerManager.handlePointerEvent.
    destruct Hterminal as [-> | ->]; cbv zeta; rewrite notifyHandlers_fold; reflexivity. }
  split; [apply PointerMap_get_set_eq |].
  split; [reflexivity |].
  split; [apply handed_length |].
  split; [subst given; now destruct handlers |].
  split.
  { intros Hkeep. apply handed_keeps_entry; [exact Hkeep | apply PointerMap_get_set_eq]. }
  split.
  { intros Hread. split; [now apply handed_readers |].
    pose proof (notifyHandlers_readers (PointerManager.withPointers pm seen) event w Hread)
      as Hnotify.
    rewrite notifyHandlers_fold in Hnotify. cbv zeta in Hnotify. simpl in Hnotify.
    fold handlers in Hnotify. fold left in Hnotify.
    injection Hnotify as Hmap Hworld.
    rewrite Hafter. simpl. split; [exact Hworld |].
    intros q Hq. rewrite Hmap, PointerMap_get_delete_ne by assumption.
    now apply PointerMap_get_set_ne. }
  rewrite Hafter. simpl.
  repeat split. apply PointerMap_get_delete_eq.
Qed.

(** With recording handlers, the log shows every handler called once, in
    order, with the map that still holds the pointer. *)
Lemma C2_witness :
  let pm := {| PointerManager.pointers :=
                 [(1%Z, PointerManager.createPointerData
                          (mkPointerEvent pointerdown 1 5 5 5 5 (Some 1%nat) 0 true 1 1 1 "touch" false));
                  (2%Z, PointerManager.createPointerData
                          (mkPointerEvent pointerdown 2 9 9 9 9 (Some 1%nat) 1 false 1 1 1 "touch" false))];
               PointerManager.gestureHandlers := [recorder 0; recorder 1] |} in
  let event := mkPointerEvent pointerup 2 9 7 9 7 (Some 1%nat) 2 false 0 1 1 "touch" false in
  let seen := PointerMap.set (PointerManager.pointers pm) 2%Z
                             (PointerManager.createPointerData event) in
  let after := PointerManager.handlePointerEvent pm event [] in
  Forall PointerManager.readsOnly (PointerManager.gestureHandlers pm)
  /\ (ev_type event = pointerup \/ ev_type event = pointercancel)
  /\ List.map (fun call => (fst (fst call),
                            option_map type (PointerMap.get (snd (fst call)) 2%Z)))
              (snd after)
     = [(0%nat, Some pointerup); (1%nat, Some pointerup)]
  /\ Forall (fun m => PointerMap.get m 2%Z = Some (PointerManager.createPointerData event))
            (handed (PointerManager.gestureHandlers pm) event seen [])
  /\ PointerMap.get (PointerManager.pointers (fst after)) 2%Z = None.
Proof.
  intros pm event seen after.
  assert (Hread : Forall PointerManager.readsOnly (PointerManager.gestureHandlers pm))
    by (repeat constructor).
  pose proof (C2_terminal_pointer_seen_then_removed _ pm event [] (or_introl eq_refl))
    as (_ & _ & _ & _ & Hkept & Hreaders & _ & _ & Hgone & _).
  destruct (Hreaders Hread) as (_ & Hcalls & _).
  split; [exact Hread |].
  split; [left; reflexivity |].
  split; [fold after in Hcalls; rewrite Hcalls; reflexivity |].
  split; [| exact Hgone].
  apply Hkept. repeat constructor; intros m w' Hm; exact Hm.
Defined.

(** A handler that removes the pointer of the event is registered before
    a recording handler.  Pointers 1 and 2 are down and pointer 2 goes up:
    the first handler is handed the map with the terminal snapshot of
    pointer 2, the recording handler a map that holds pointer 1 only. *)
Lemma C2_counterexample_eraser_first :
  let pm := {| PointerManager.pointers :=
                 [(1%Z, PointerManager.createPointerData
                          (mkPointerEvent pointerdown 1 5 5 5 5 (Some 1%nat) 0 true 1 1 1 "touch" false));
                  (2%Z, PointerManager.createPointerData
                          (mkPointerEvent pointerdown 2 9 9 9 9 (Some 1%nat) 1 false 1 1 1 "touch" false))];
               PointerManager.gestureHandlers := [eraser; recorder 1] |} in
  let event := mkPointerEvent pointerup 2 9 7 9 7 (Some 1%nat) 2 false 0 1 1 "touch" false in
  let seen := PointerMap.set (PointerManager.pointers pm) 2%Z
                             (PointerManager.createPointerData event) in
  let given := handed (PointerManager.gestureHandlers pm) event seen [] in
  let after := PointerManager.handlePointerEvent pm event [] in
  ev_type event = pointerup
  /\ List.map (fun m => (List.map fst m, option_map type (PointerMap.get m 2%Z))) given
     = [([1%Z; 2%Z], Some pointerup); ([1%Z], None)]
  /\ List.map (fun call => (fst (fst call), List.map fst (snd (fst call)),
                            option_map type (PointerMap.get (snd (fst call)) 2%Z)))
              (snd after)
     = [(1%nat, [1%Z], None)]
  /\ ~ Forall (fun m => PointerMap.get m 2%Z <> None) given.
Proof.
  intros pm event seen given after.
  split; [reflexivity |]. split; [reflexivity |]. split; [reflexivity |].
  intros Hall. inversion Hall as [| ? ? _ Hrest]; subst.
  inversion Hrest as [| ? ? Hsecond _]; subst.
  apply Hsecond. reflexivity.
Qed.

(** ** ActiveGesturesRegistry *)

Lemma registry_lookup_register (reg : ActiveGesturesRegistry.t) (e : Node) (g : GestureRef) :
  ActiveGesturesRegistry.registerActiveGesture reg e g !! e
  = Some (default [] (reg !! e) ++ [mkEntry g e]).
Proof.
  unfold ActiveGesturesRegistry.registerActiveGesture.
  rewrite lookup_insert_eq.
  destruct (reg !! e) as [entries |] eqn:E.
  - now rewrite E.
  - now rewrite lookup_insert_eq.
Qed.

Lemma registry_lookup_register_ne (reg : ActiveGesturesRegistry.t) (e e' : Node)
  (g : GestureRef) :
  e <> e' -> ActiveGesturesRegistry.registerActiveGesture reg e g !! e' = reg !! e'.
Proof.
  intros Hne. unfold ActiveGesturesRegistry.registerActiveGesture.
  rewrite lookup_insert_ne by assumption.
  destruct (reg !! e); [reflexivity | now rewrite lookup_insert_ne].
Qed.

Lemma registry_lookup_unregister (reg : ActiveGesturesRegistry.t) (e : Node) (g : GestureRef) :
  ActiveGesturesRegistry.unregisterActiveGesture reg e g !! e
  = match List.filter (fun entry => negb (sameGesture (entry_gesture entry) g))
                      (default [] (reg !! e)) with
    | [] => None
    | kept => Some kept
    end.
Proof.
  unfold ActiveGesturesRegistry.unregisterActiveGesture.
  destruct (reg !! e) as [entries |] eqn:E; simpl; [| exact E].
  destruct (List.filter _ entries) as [| entry kept]; simpl.
  - apply lookup_delete_eq.
  - apply lookup_insert_eq.
Qed.

Lemma registry_lookup_unregister_ne (reg : ActiveGesturesRegistry.t) (e e' : Node)
  (g : GestureRef) :
  e <> e' -> ActiveGesturesRegistry.unregisterActiveGesture reg e g !! e' = reg !! e'.
Proof.
  intros Hne. unfold ActiveGesturesRegistry.unregisterActiveGesture.
  destruct (reg !! e) as [entries |]; [| reflexivity].
  destruct (length _ =? 0)%nat.
  - now apply lookup_delete_ne.
  - now apply lookup_insert_ne.
Qed.

Lemma existsb_filter_negb {A : Type} (f : A -> bool) (l : list A) :
  existsb f (List.filter (fun a => negb (f a)) l) = false.
Proof.
  induction l as [| a l IH]; simpl; [reflexivity |].
  destruct (f a) eqn:E; simpl; [assumption |].
  now rewrite E.
Qed.

Lemma filter_filter_negb {A : Type} (f : A -> bool) (l : list A) :
  List.filter f (List.filter (fun a => negb (f a)) l) = [].
Proof.
  induction l as [| a l IH]; simpl; [reflexivity |].
  destruct (f a) eqn:E; simpl; [assumption |].
  now rewrite E.
Qed.

Lemma filter_negb_all {A : Type} (f : A -> bool) (l : list A) :
  forallb f l = true -> List.filter (fun a => negb (f a)) l = [].
Proof.
  induction l as [| a l IH]; simpl; [reflexivity |].
  intros Hall. apply andb_prop in Hall as [Ha Hl].
  rewrite Ha. simpl. now apply IH.
Qed.

(** A gesture is not active on an element after it was unregistered there. *)
Lemma isGestureActive_unregister (reg : ActiveGesturesRegistry.t) (e : Node) (g : GestureRef) :
  ActiveGesturesRegistry.isGestureActive
    (ActiveGesturesRegistry.unregisterActiveGesture reg e g) e g = false.
Proof.
  unfold ActiveGesturesRegistry.isGestureActive.
  rewrite registry_lookup_unregister.
  pose proof (existsb_filter_negb (fun entry => sameGesture (entry_gesture entry) g)
                (default [] (reg !! e))) as Hnone.
  destruct (List.filter _ (default [] (reg !! e))); [reflexivity | exact Hnone].
Qed.

Lemma isGestureActive_register (reg : ActiveGesturesRegistry.t) (e : Node) (g : GestureRef) :
  ActiveGesturesRegistry.isGestureActive
    (ActiveGesturesRegistry.registerActiveGesture reg e g) e g = true.
Proof.
  unfold ActiveGesturesRegistry.isGestureActive.
  rewrite registry_lookup_register, existsb_app. simpl.
  unfold sameGesture. rewrite Nat.eqb_refl. now rewrite orb_true_r.
Qed.

Lemma registered_entries (reg : ActiveGesturesRegistry.t) (e : Node) (g : GestureRef) (n : nat) :
  default [] (Nat.iter n (fun r => ActiveGesturesRegistry.registerActiveGesture r e g) reg !! e)
  = default [] (reg !! e) ++ repeat (mkEntry g e) n.
Proof.
  induction n as [| n IH]; simpl.
  - now rewrite app_nil_r.
  - rewrite registry_lookup_register. simpl. rewrite IH.
    rewrite <- app_assoc. f_equal.
    change [mkEntry g e] with (repeat (mkEntry g e) 1).
    rewrite <- repeat_app. now rewrite Nat.add_comm.
Qed.

(** C10.  After any number [n] of [registerActiveGesture(e, g)] calls, the
    registry holds [n] more entries for [g] on [e] than before; one
    [unregisterActiveGesture(e, g)] then leaves [isGestureActive(e, g)]
    false; and when every entry of [e] was one of [g], the key [e] itself
    is gone and [getActiveGestures(e)] is the empty record. *)
Theorem C10_unregister_removes_every_entry :
  forall (reg : ActiveGesturesRegistry.t) (e : Node) (g : GestureRef) (n : nat),
    let registered :=
      Nat.iter n (fun r => ActiveGesturesRegistry.registerActiveGesture r e g) reg in
    let after := ActiveGesturesRegistry.unregisterActiveGesture registered e g in
    length (entriesOf registered e g) = (length (entriesOf reg e g) + n)%nat
    /\ ActiveGesturesRegistry.isGestureActive after e g = false
    /\ entriesOf after e g = []
    /\ (forallb (fun entry => sameGesture (entry_gesture entry) g) (default [] (reg !! e)) = true ->
        after !! e = None /\ ActiveGesturesRegistry.getActiveGestures after e = ∅).
Proof.
  intros reg e g n registered after.
  assert (Hentries : default [] (registered !! e) = default [] (reg !! e) ++ repeat (mkEntry g e) n)
    by apply registered_entries.
  assert (Hself : forallb (fun entry => sameGesture (entry_gesture entry) g)
                          (repeat (mkEntry g e) n) = true).
  { clear. induction n as [| n IH]; simpl; [reflexivity |].
    unfold sameGesture at 1. simpl. now rewrite Nat.eqb_refl. }
  split; [| split; [| split]].
  - unfold entriesOf. rewrite Hentries, List.filter_app, length_app. f_equal.
    clear -Hself. induction n as [| n IH]; simpl in *; [reflexivity |].
    apply andb_prop in Hself as [Hg Hrest]. rewrite Hg. simpl. f_equal. now apply IH.
  - apply isGestureActive_unregister.
  - unfold entriesOf. subst after. rewrite registry_lookup_unregister.
    pose proof (filter_filter_negb (fun entry => sameGesture (entry_gesture entry) g)
                  (default [] (registered !! e))) as Hnone.
    destruct (List.filter _ (default [] (registered !! e))); [reflexivity | exact Hnone].
  - intros Hall.
    assert (Hgone : after !! e = None).
    { subst after. rewrite registry_lookup_unregister, Hentries.
      rewrite filter_negb_all; [reflexivity |].
      rewrite forallb_app, Hall. exact Hself. }
    split; [exact Hgone |].
    unfold ActiveGesturesRegistry.getActiveGestures. now rewrite Hgone.
Qed.

(** A gesture registered three times on element 1, next to another
    gesture on element 2. *)
Lemma C10_witness :
  let g := mkGestureRef 11 "pinch" in
  let reg := ActiveGesturesRegistry.registerActiveGesture ∅ 2%nat (mkGestureRef 12 "rotate") in
  let registered :=
    Nat.iter 3 (fun r => ActiveGesturesRegistry.registerActiveGesture r 1%nat g) reg in
  let after := ActiveGesturesRegistry.unregisterActiveGesture registered 1%nat g in
  forallb (fun entry => sameGesture (entry_gesture entry) g) (default [] (reg !! 1%nat)) = true
  /\ length (entriesOf registered 1%nat g) = 3%nat
  /\ ActiveGesturesRegistry.isGestureActive registered 1%nat g = true
  /\ ActiveGesturesRegistry.isGestureActive after 1%nat g = false
  /\ after !! 1%nat = None
  /\ ActiveGesturesRegistry.getActiveGestures after 1%nat = ∅
  /\ ActiveGesturesRegistry.isGestureActive after 2%nat (mkGestureRef 12 "rotate") = true.
Proof.
  intros g reg registered after.
  destruct (C10_unregister_removes_every_entry reg 1%nat g 3)
    as (Hcount & Hoff & _ & Hdropped).
  destruct (Hdropped eq_refl) as (Hkey & Hnames).
  repeat split; try assumption; reflexivity.
Defined.

(** ** PinchGesture *)

Section PinchFacts.

Context {dom : Dom} {spread : Spread}.

#[local] Open Scope Q_scope.

Lemma truthy_nonzero (a : number) : ~ a == 0 -> truthy a = true.
Proof.
  intros Ha. unfold truthy.
  destruct (Qeq_bool a 0) eqn:E; [| reflexivity].
  apply Qeq_bool_eq in E. contradiction.
Qed.

Lemma truthy_true_nonzero (a : number) : truthy a = true -> ~ a == 0.
Proof.
  unfold truthy. intros Ha Hzero.
  apply Qeq_bool_iff in Hzero. rewrite Hzero in Ha. discriminate.
Qed.

Lemma Qdiv_nonzero (a b : Q) : ~ a == 0 -> ~ b == 0 -> ~ a / b == 0.
Proof.
  intros Ha Hb Hq. apply Ha.
  assert (Hsplit : a == a / b * b) by (field; assumption).
  rewrite Hsplit, Hq. apply Qmult_0_l.
Qed.

(** An event inside the element of a gesture that nothing prevents is
    handed to the case of its type, with the pointers inside the element. *)
Lemma pinch_dispatch (g : PinchGesture.t) (reg : ActiveGesturesRegistry.t)
  (pointers : PointerMap.t) (event : PointerEvent) :
  isOrContains (PinchGesture.element g) (ev_target event) = true ->
  Gesture.shouldPreventGesture (PinchGesture.preventIf g) reg (PinchGesture.element g) = false ->
  PinchGesture.handlePointerEvent g reg pointers event
  = let relevantPointers :=
      PinchGesture.relevantTo (PinchGesture.element g) (PointerMap.values pointers) in
    match ev_type event with
    | pointerdown =>
        PinchGesture.onPointerDown g reg (PinchGesture.element g) relevantPointers event
    | pointermove =>
        PinchGesture.onPointerMove g reg (PinchGesture.element g) relevantPointers event
    | pointerup | pointercancel =>
        PinchGesture.onPointerEnd g reg (PinchGesture.element g) relevantPointers event
    end.
Proof.
  intros Hinside Hfree.
  unfold PinchGesture.handlePointerEvent, Gesture.getTargetElement.
  now rewrite Hinside, Hfree.
Qed.

(** The instance keeps its configuration and its identity when its state
    changes. *)
Lemma pinch_withState_isActive (g : PinchGesture.t) (s : PinchGesture.PinchGestureState)
  (reg : ActiveGesturesRegistry.t) :
  PinchGesture.isActive (PinchGesture.withState g s) reg = PinchGesture.isActive g reg.
Proof. reflexivity. Qed.

(** A [pointerdown] with two or more pointers inside the element starts an
    inactive pinch: the spread becomes the start distance, the instance is
    registered as active, and a [start] event is dispatched. *)
Lemma pinch_down_step (g : PinchGesture.t) (reg : ActiveGesturesRegistry.t)
  (pointers : PointerMap.t) (event : PointerEvent) :
  isOrContains (PinchGesture.element g) (ev_target event) = true ->
  Gesture.shouldPreventGesture (PinchGesture.preventIf g) reg (PinchGesture.element g) = false ->
  ev_type event = pointerdown ->
  PinchGesture.isActive g reg = false ->
  let relevantPointers :=
    PinchGesture.relevantTo (PinchGesture.element g) (PointerMap.values pointers) in
  (2 <= length relevantPointers)%nat ->
  let s := PinchGesture.state g in
  exists s1 dispatched,
    PinchGesture.handlePointerEvent g reg pointers event
    = (PinchGesture.withState g s1,
       ActiveGesturesRegistry.registerActiveGesture reg (PinchGesture.element g) (PinchGesture.ref g),
       [dispatched])
    /\ PinchGesture.startDistance s1 = calculateAverageDistance relevantPointers
    /\ PinchGesture.lastDistance s1 = calculateAverageDistance relevantPointers
    /\ PinchGesture.lastScale s1 = PinchGesture.lastScale s
    /\ PinchGesture.totalScale s1 = PinchGesture.totalScale s
    /\ pinch_phase (ce_detail dispatched) = start
    /\ pinch_scale (ce_detail dispatched) = PinchGesture.lastScale s
    /\ pinch_totalScale (ce_detail dispatched) = PinchGesture.totalScale s.
Proof.
  cbv zeta. intros Hinside Hfree Htype Hidle Hcount.
  rewrite pinch_dispatch by assumption. rewrite Htype. cbv zeta.
  unfold PinchGesture.onPointerDown.
  apply Nat.leb_le in Hcount. rewrite Hcount, Hidle. simpl andb. cbv iota zeta.
  eexists. eexists. split; [reflexivity |].
  repeat split; reflexivity.
Qed.

(** One move of an active pinch: the event carries the ratio of the new
    distance to the start distance, and the total is multiplied by the
    ratio of that scale to the previous one. *)
Lemma pinch_move_step (g : PinchGesture.t) (reg : ActiveGesturesRegistry.t)
  (pointers : PointerMap.t) (event : PointerEvent) :
  isOrContains (PinchGesture.element g) (ev_target event) = true ->
  Gesture.shouldPreventGesture (PinchGesture.preventIf g) reg (PinchGesture.element g) = false ->
  ev_type event = pointermove ->
  PinchGesture.isActive g reg = true ->
  ~ PinchGesture.startDistance (PinchGesture.state g) == 0 ->
  let relevantPointers :=
    PinchGesture.relevantTo (PinchGesture.element g) (PointerMap.values pointers) in
  (PinchGesture.minPointers g <= length relevantPointers)%nat ->
  let s := PinchGesture.state g in
  let scale := calculateAverageDistance relevantPointers / PinchGesture.startDistance s in
  exists s1 dispatched,
    PinchGesture.handlePointerEvent g reg pointers event
    = (PinchGesture.withState g s1, reg, [dispatched])
    /\ PinchGesture.startDistance s1 = PinchGesture.startDistance s
    /\ PinchGesture.lastDistance s1 = calculateAverageDistance relevantPointers
    /\ PinchGesture.lastScale s1 = scale
    /\ PinchGesture.totalScale s1
       = PinchGesture.totalScale s * (scale / PinchGesture.lastScale s)
    /\ pinch_phase (ce_detail dispatched) = ongoing
    /\ pinch_scale (ce_detail dispatched) = scale
    /\ pinch_totalScale (ce_detail dispatched)
       = PinchGesture.totalScale s * (scale / PinchGesture.lastScale s)
    /\ pinch_distance (ce_detail dispatched) = calculateAverageDistance relevantPointers.
Proof.
  cbv zeta. intros Hinside Hfree Htype Hactive Hstart Hcount.
  rewrite pinch_dispatch by assumption. rewrite Htype. cbv zeta.
  unfold PinchGesture.onPointerMove.
  rewrite Hactive, (truthy_nonzero _ Hstart).
  apply Nat.leb_le in Hcount. rewrite Hcount. simpl andb. cbv iota.
  eexists. eexists. split; [reflexivity |].
  repeat split; reflexivity.
Qed.

(** A pointer that goes up while as many pointers as the gesture needs, and
    at least two, stay pressed: nothing is dispatched, and the start
    distance becomes the spread of the remaining pointers divided by the
    last scale. *)
Lemma pinch_end_rebase (g : PinchGesture.t) (reg : ActiveGesturesRegistry.t)
  (pointers : PointerMap.t) (event : PointerEvent) :
  isOrContains (PinchGesture.element g) (ev_target event) = true ->
  Gesture.shouldPreventGesture (PinchGesture.preventIf g) reg (PinchGesture.element g) = false ->
  ev_type event = pointerup \/ ev_type event = pointercancel ->
  PinchGesture.isActive g reg = true ->
  let remainingPointers :=
    List.filter PinchGesture.stillPressed
      (PinchGesture.relevantTo (PinchGesture.element g) (PointerMap.values pointers)) in
  (PinchGesture.minPointers g <= length remainingPointers)%nat ->
  (2 <= length remainingPointers)%nat ->
  let s := PinchGesture.state g in
  PinchGesture.handlePointerEvent g reg pointers event
  = (PinchGesture.withState g
       {| PinchGesture.startDistance :=
            calculateAverageDistance remainingPointers / PinchGesture.lastScale s;
          PinchGesture.lastDistance := PinchGesture.lastDistance s;
          PinchGesture.lastScale := PinchGesture.lastScale s;
          PinchGesture.lastTime := PinchGesture.lastTime s;
          PinchGesture.velocity := PinchGesture.velocity s;
          PinchGesture.totalScale := PinchGesture.totalScale s |},
     reg, []).
Proof.
  cbv zeta. intros Hinside Hfree Htype Hactive Hmin Htwo.
  rewrite pinch_dispatch by assumption. cbv zeta.
  assert (Hend : forall relevantPointers,
            match ev_type event with
            | pointerdown =>
                PinchGesture.onPointerDown g reg (PinchGesture.element g) relevantPointers event
            | pointermove =>
                PinchGesture.onPointerMove g reg (PinchGesture.element g) relevantPointers event
            | _ => PinchGesture.onPointerEnd g reg (PinchGesture.element g) relevantPointers event
            end
            = PinchGesture.onPointerEnd g reg (PinchGesture.element g) relevantPointers event).
  { intros relevantPointers. destruct Htype as [-> | ->]; reflexivity. }
  rewrite Hend. unfold PinchGesture.onPointerEnd. rewrite Hactive.
  apply Nat.leb_le in Htwo. rewrite Htwo.
  assert (Hnot : (length (List.filter PinchGesture.stillPressed
                            (PinchGesture.relevantTo (PinchGesture.element g)
                               (PointerMap.values pointers)))
                  <? PinchGesture.minPointers g)%nat = false)
    by (apply Nat.ltb_ge; exact Hmin).
  now rewrite Hnot.
Qed.

(** C3.  A pinch whose last scale and total scale are 1, as
    they are in a new instance, starts with two pointers 100 apart.  A
    move that brings the distance to 150 dispatches an [ongoing] event with
    [scale] 3/2 and [totalScale] 3/2.  A further move that brings the
    distance to 225 dispatches an [ongoing] event whose [scale] is 9/4, the
    ratio to the start distance, and whose [totalScale] is 9/4: the total
    was multiplied by 3/2, the ratio of the new scale to the previous one,
    which is not itself a field of the event. *)
Theorem C3_pinch_scale_is_relative_to_start
  (g : PinchGesture.t) (reg : ActiveGesturesRegistry.t)
  (pointers0 pointers1 pointers2 : PointerMap.t) (down move1 move2 : PointerEvent) :
  PinchGesture.lastScale (PinchGesture.state g) == 1 ->
  PinchGesture.totalScale (PinchGesture.state g) == 1 ->
  PinchGesture.isActive g reg = false ->
  Gesture.shouldPreventGesture (PinchGesture.preventIf g) reg (PinchGesture.element g) = false ->
  Gesture.shouldPreventGesture (PinchGesture.preventIf g)
    (ActiveGesturesRegistry.registerActiveGesture reg (PinchGesture.element g) (PinchGesture.ref g))
    (PinchGesture.element g) = false ->
  ev_type down = pointerdown -> ev_type move1 = pointermove -> ev_type move2 = pointermove ->
  isOrContains (PinchGesture.element g) (ev_target down) = true ->
  isOrContains (PinchGesture.element g) (ev_target move1) = true ->
  isOrContains (PinchGesture.element g) (ev_target move2) = true ->
  let relevant := fun pointers =>
    PinchGesture.relevantTo (PinchGesture.element g) (PointerMap.values pointers) in
  (2 <= length (relevant pointers0))%nat ->
  (PinchGesture.minPointers g <= length (relevant pointers1))%nat ->
  (PinchGesture.minPointers g <= length (relevant pointers2))%nat ->
  calculateAverageDistance (relevant pointers0) == 100 ->
  calculateAverageDistance (relevant pointers1) == 150 ->
  calculateAverageDistance (relevant pointers2) == 225 ->
  let '(g1, reg1, out0) := PinchGesture.handlePointerEvent g reg pointers0 down in
  let '(g2, reg2, out1) := PinchGesture.handlePointerEvent g1 reg1 pointers1 move1 in
  let '(g3, reg3, out2) := PinchGesture.handlePointerEvent g2 reg2 pointers2 move2 in
  exists started first second,
    out0 = [started] /\ out1 = [first] /\ out2 = [second]
    /\ pinch_phase (ce_detail started) = start
    /\ pinch_phase (ce_detail first) = ongoing
    /\ pinch_scale (ce_detail first) == 3 # 2
    /\ pinch_totalScale (ce_detail first) == 3 # 2
    /\ pinch_phase (ce_detail second) = ongoing
    /\ pinch_scale (ce_detail second) == 9 # 4
    /\ pinch_totalScale (ce_detail second) == 9 # 4.
Proof.
  intros Hone Htotal Hidle Hfree0 Hfree1 Hdown Hmove1 Hmove2 Hin0 Hin1 Hin2
         relevant Hcount0 Hcount1 Hcount2 Hd0 Hd1 Hd2.
  destruct (pinch_down_step g reg pointers0 down Hin0 Hfree0 Hdown Hidle Hcount0)
    as (s1 & started & Hstep0 & Hstart1 & _ & Hlast1 & Htotal1 & Hphase0 & _ & _).
  rewrite Hstep0.
  set (g1 := PinchGesture.withState g s1).
  set (reg1 := ActiveGesturesRegistry.registerActiveGesture reg (PinchGesture.element g)
                 (PinchGesture.ref g)).
  assert (Hactive1 : PinchGesture.isActive g1 reg1 = true)
    by apply isGestureActive_register.
  assert (Hnz1 : ~ PinchGesture.startDistance (PinchGesture.state g1) == 0).
  { simpl. rewrite Hstart1. fold (relevant pointers0). rewrite Hd0. discriminate. }
  destruct (pinch_move_step g1 reg1 pointers1 move1 Hin1 Hfree1 Hmove1 Hactive1 Hnz1 Hcount1)
    as (s2 & first & Hstep1 & Hstart2 & _ & Hlast2 & Htotal2 & Hphase1 & Hscale1 & Htot1 & _).
  rewrite Hstep1.
  set (g2 := PinchGesture.withState g1 s2).
  assert (Hactive2 : PinchGesture.isActive g2 reg1 = true) by exact Hactive1.
  assert (Hnz2 : ~ PinchGesture.startDistance (PinchGesture.state g2) == 0).
  { simpl. rewrite Hstart2. exact Hnz1. }
  destruct (pinch_move_step g2 reg1 pointers2 move2 Hin2 Hfree1 Hmove2 Hactive2 Hnz2 Hcount2)
    as (s3 & second & Hstep2 & _ & _ & _ & _ & Hphase2 & Hscale2 & Htot2 & _).
  rewrite Hstep2.
  exists started, first, second.
  simpl in Hscale1, Htot1, Hscale2, Htot2.
  fold (relevant pointers1) in Hscale1, Htot1, Hlast2, Htotal2.
  fold (relevant pointers2) in Hscale2, Htot2.
  repeat split; try assumption; try reflexivity.
  - rewrite Hscale1, Hstart1. fold (relevant pointers0). rewrite Hd0, Hd1. reflexivity.
  - rewrite Htot1, Htotal1, Hlast1, Hstart1. fold (relevant pointers0).
    rewrite Hd0, Hd1, Hone, Htotal. reflexivity.
  - rewrite Hscale2, Hstart2. simpl. rewrite Hstart1. fold (relevant pointers0).
    rewrite Hd0, Hd2. reflexivity.
  - rewrite Htot2, Htotal2, Hlast2, Hstart2. simpl.
    rewrite Htotal1, Hlast1, Hstart1. fold (relevant pointers0) (relevant pointers1).
    rewrite Hd0, Hd1, Hd2, Hone, Htotal. reflexivity.
Qed.

(** C6.  An active pinch that nothing prevents receives a [pointerup] or
    [pointercancel] inside its element.  When fewer than [minPointers]
    pointers stay pressed inside the element, be they two or more, the
    pinch closes: it dispatches one [end], or one [cancel] for a
    [pointercancel], unregisters itself and resets its state.  When at
    least [minPointers] and at least two stay pressed, nothing is
    dispatched, the registry is untouched, and the start distance becomes
    the spread of the remaining pointers divided by the last scale, the
    rest of the state being kept; at the next move with enough pointers
    and a start distance that is not zero, the [ongoing] event carries as
    [scale] the spread at the move divided by that start distance, and as
    [totalScale] the total multiplied by that scale over the last scale. *)
Theorem C6_release_rebases_or_ends
  (g : PinchGesture.t) (reg : ActiveGesturesRegistry.t)
  (pointers : PointerMap.t) (release : PointerEvent) :
  PinchGesture.isActive g reg = true ->
  Gesture.shouldPreventGesture (PinchGesture.preventIf g) reg (PinchGesture.element g) = false ->
  ev_type release = pointerup \/ ev_type release = pointercancel ->
  isOrContains (PinchGesture.element g) (ev_target release) = true ->
  let s := PinchGesture.state g in
  let remaining :=
    List.filter PinchGesture.stillPressed
      (PinchGesture.relevantTo (PinchGesture.element g) (PointerMap.values pointers)) in
  let rebased := calculateAverageDistance remaining / PinchGesture.lastScale s in
  let result := PinchGesture.handlePointerEvent g reg pointers release in
  ((length remaining < PinchGesture.minPointers g)%nat ->
   exists dispatched,
     result = (fst (PinchGesture.resetState g reg),
               ActiveGesturesRegistry.unregisterActiveGesture reg (PinchGesture.element g)
                 (PinchGesture.ref g),
               [dispatched])
     /\ pinch_phase (ce_detail dispatched)
        = (if EventType_eqb (ev_type release) pointercancel then cancel else end_)
     /\ PinchGesture.startDistance (PinchGesture.state (fst (fst result))) = 0
     /\ PinchGesture.lastScale (PinchGesture.state (fst (fst result))) = 1
     /\ PinchGesture.totalScale (PinchGesture.state (fst (fst result))) = PinchGesture.totalScale s
     /\ PinchGesture.isActive (fst (fst result)) (snd (fst result)) = false)
  /\ ((PinchGesture.minPointers g <= length remaining)%nat ->
      (2 <= length remaining)%nat ->
      result
      = (PinchGesture.withState g
           {| PinchGesture.startDistance := rebased;
              PinchGesture.lastDistance := PinchGesture.lastDistance s;
              PinchGesture.lastScale := PinchGesture.lastScale s;
              PinchGesture.lastTime := PinchGesture.lastTime s;
              PinchGesture.velocity := PinchGesture.velocity s;
              PinchGesture.totalScale := PinchGesture.totalScale s |},
         reg, [])
      /\ forall (pointers' : PointerMap.t) (move : PointerEvent),
           ev_type move = pointermove ->
           isOrContains (PinchGesture.element g) (ev_target move) = true ->
           let relevant' :=
             PinchGesture.relevantTo (PinchGesture.element g) (PointerMap.values pointers') in
           (PinchGesture.minPointers g <= length relevant')%nat ->
           truthy rebased = true ->
           exists s2 dispatched,
             PinchGesture.handlePointerEvent (fst (fst result)) (snd (fst result)) pointers' move
             = (PinchGesture.withState g s2, reg, [dispatched])
             /\ pinch_phase (ce_detail dispatched) = ongoing
             /\ pinch_scale (ce_detail dispatched) = calculateAverageDistance relevant' / rebased
             /\ pinch_totalScale (ce_detail dispatched)
                = PinchGesture.totalScale s
                  * (calculateAverageDistance relevant' / rebased / PinchGesture.lastScale s)
             /\ PinchGesture.startDistance s2 = rebased
             /\ PinchGesture.lastScale s2 = calculateAverageDistance relevant' / rebased
             /\ PinchGesture.totalScale s2 = pinch_totalScale (ce_detail dispatched)).
Proof.
  intros Hactive Hfree Hrelease Hin s remaining rebased result.
  split.
  - intros Hfew. subst result.
    rewrite pinch_dispatch by assumption. cbv zeta.
    assert (Hend : forall relevantPointers,
              match ev_type release with
              | pointerdown =>
                  PinchGesture.onPointerDown g reg (PinchGesture.element g) relevantPointers release
              | pointermove =>
                  PinchGesture.onPointerMove g reg (PinchGesture.element g) relevantPointers release
              | _ => PinchGesture.onPointerEnd g reg (PinchGesture.element g) relevantPointers release
              end
              = PinchGesture.onPointerEnd g reg (PinchGesture.element g) relevantPointers release).
    { intros relevantPointers. destruct Hrelease as [-> | ->]; reflexivity. }
    rewrite Hend. unfold PinchGesture.onPointerEnd. rewrite Hactive.
    fold remaining. apply Nat.ltb_lt in Hfew. rewrite Hfew.
    unfold PinchGesture.resetState, PinchGesture.setActive. cbn [fst snd].
    eexists. split; [reflexivity |]. split; [reflexivity |].
    split; [reflexivity |]. split; [reflexivity |]. split; [reflexivity |].
    apply isGestureActive_unregister.
  - intros Hmin Htwo.
    assert (Hresult : result
              = (PinchGesture.withState g
                   {| PinchGesture.startDistance := rebased;
                      PinchGesture.lastDistance := PinchGesture.lastDistance s;
                      PinchGesture.lastScale := PinchGesture.lastScale s;
                      PinchGesture.lastTime := PinchGesture.lastTime s;
                      PinchGesture.velocity := PinchGesture.velocity s;
                      PinchGesture.totalScale := PinchGesture.totalScale s |},
                 reg, []))
      by exact (pinch_end_rebase g reg pointers release Hin Hfree Hrelease Hactive Hmin Htwo).
    split; [exact Hresult |].
    intros pointers' move Hmove Hin' relevant' Hmin' Hstart.
    rewrite Hresult. cbn [fst snd].
    set (g1 := PinchGesture.withState g _).
    assert (Hnz : ~ PinchGesture.startDistance (PinchGesture.state g1) == 0)
      by (apply truthy_true_nonzero; exact Hstart).
    destruct (pinch_move_step g1 reg pointers' move Hin' Hfree Hmove Hactive Hnz Hmin')
      as (s2 & dispatched & Hstep & Hstart2 & _ & Hlast2 & Htotal2 & Hphase & Hscale & Htotal & _).
    exists s2, dispatched.
    split; [exact Hstep |]. split; [exact Hphase |].
    split; [exact Hscale |]. split; [exact Htotal |].
    split; [exact Hstart2 |]. split; [exact Hlast2 |].
    rewrite Htotal. exact Htotal2.
Qed.

End PinchFacts.

(** The same three events on the page of [Demo], with the second finger
    moving along the x axis. *)
Lemma C3_witness :
  PinchGesture.isActive Demo.pinch ∅ = false
  /\ (@calculateAverageDistance Demo.axisSpread
        (@PinchGesture.relevantTo Demo.page 1%nat
           (PointerMap.values (Demo.held [Demo.finger1; Demo.finger2; Demo.finger2To150;
                                          Demo.finger2To225]))) == 225)%Q
  /\ let '(g1, reg1, out0) :=
       @PinchGesture.handlePointerEvent Demo.page Demo.axisSpread Demo.pinch ∅
         (Demo.held [Demo.finger1; Demo.finger2]) Demo.finger2 in
     let '(g2, reg2, out1) :=
       @PinchGesture.handlePointerEvent Demo.page Demo.axisSpread g1 reg1
         (Demo.held [Demo.finger1; Demo.finger2; Demo.finger2To150]) Demo.finger2To150 in
     let '(g3, reg3, out2) :=
       @PinchGesture.handlePointerEvent Demo.page Demo.axisSpread g2 reg2
         (Demo.held [Demo.finger1; Demo.finger2; Demo.finger2To150; Demo.finger2To225])
         Demo.finger2To225 in
     exists started first second,
       out0 = [started] /\ out1 = [first] /\ out2 = [second]
       /\ pinch_phase (ce_detail started) = start
       /\ pinch_phase (ce_detail first) = ongoing
       /\ (pinch_scale (ce_detail first) == 3 # 2)%Q
       /\ (pinch_totalScale (ce_detail first) == 3 # 2)%Q
       /\ pinch_phase (ce_detail second) = ongoing
       /\ (pinch_scale (ce_detail second) == 9 # 4)%Q
       /\ (pinch_totalScale (ce_detail second) == 9 # 4)%Q.
Proof.
  split; [reflexivity |]. split; [vm_compute; reflexivity |].
  apply (@C3_pinch_scale_is_relative_to_start Demo.page Demo.axisSpread);
    try reflexivity; try (apply Nat.leb_le; reflexivity); vm_compute; reflexivity.
Defined.

(** Two fingers 100 apart, then 150, then 225: the second move dispatches
    a [scale] of 9/4, which is 3/4 away from 3/2, not within a tenth of it. *)
Lemma C3_counterexample_second_move :
  pinchScales
    (GestureManager.run Demo.onlyPinch
       [GestureManager.PointerInput Demo.finger1;
        GestureManager.PointerInput Demo.finger2;
        GestureManager.PointerInput Demo.finger2To150;
        GestureManager.PointerInput Demo.finger2To225])
  = [(start, 1%Q, 1%Q); (ongoing, 3 # 2, 3 # 2); (ongoing, 9 # 4, 9 # 4)]
  /\ (Qabs ((9 # 4) - (3 # 2)) == 3 # 4)%Q
  /\ ~ (Qabs ((9 # 4) - (3 # 2)) <= 1 # 10)%Q.
Proof.
  split; [vm_compute; reflexivity |]. split; [vm_compute; reflexivity |].
  intros Hclose. apply Qle_bool_iff in Hclose. vm_compute in Hclose. discriminate.
Qed.

(** Three fingers at 0, 100 and 200 on the page of [Demo]; the second
    moves to 150; the third is lifted, which leaves two pointers pressed,
    and the start distance becomes their spread divided by the last scale;
    the next move dispatches the spread divided by that start distance. *)
Lemma C6_witness :
  let g := fst Demo.spreadBefore in
  let reg := snd Demo.spreadBefore in
  let remaining :=
    List.filter PinchGesture.stillPressed
      (@PinchGesture.relevantTo Demo.page (PinchGesture.element g)
         (PointerMap.values Demo.atRelease)) in
  let rebased := (@calculateAverageDistance Demo.axisSpread remaining
                  / PinchGesture.lastScale (PinchGesture.state g))%Q in
  let result :=
    @PinchGesture.handlePointerEvent Demo.page Demo.axisSpread g reg Demo.atRelease
      Demo.finger3Up in
  PinchGesture.isActive g reg = true
  /\ length remaining = 2%nat
  /\ snd result = []
  /\ snd (fst result) = reg
  /\ PinchGesture.startDistance (PinchGesture.state (fst (fst result))) = rebased
  /\ exists s2 dispatched,
       @PinchGesture.handlePointerEvent Demo.page Demo.axisSpread (fst (fst result))
         (snd (fst result)) Demo.afterRelease Demo.finger2Still
       = (PinchGesture.withState g s2, reg, [dispatched])
       /\ pinch_phase (ce_detail dispatched) = ongoing
       /\ pinch_scale (ce_detail dispatched)
          = (@calculateAverageDistance Demo.axisSpread
               (@PinchGesture.relevantTo Demo.page (PinchGesture.element g)
                  (PointerMap.values Demo.afterRelease))
             / rebased)%Q.
Proof.
  intros g reg remaining rebased result.
  assert (Hactive : PinchGesture.isActive g reg = true) by reflexivity.
  destruct (@C6_release_rebases_or_ends Demo.page Demo.axisSpread g reg Demo.atRelease
              Demo.finger3Up Hactive eq_refl (or_introl eq_refl) eq_refl)
    as (_ & Hrebase).
  destruct Hrebase as (Hresult & Hnext);
    [apply Nat.leb_le; reflexivity | apply Nat.leb_le; reflexivity |].
  destruct (Hnext Demo.afterRelease Demo.finger2Still eq_refl eq_refl)
    as (s2 & dispatched & Hstep & Hphase & Hscale & _);
    [apply Nat.leb_le; reflexivity | vm_compute; reflexivity |].
  split; [exact Hactive |]. split; [reflexivity |].
  fold result in Hresult, Hstep.
  split; [rewrite Hresult; reflexivity |].
  split; [rewrite Hresult; reflexivity |].
  split; [rewrite Hresult; reflexivity |].
  exists s2, dispatched.
  split; [exact Hstep |]. split; [exact Hphase |]. exact Hscale.
Defined.

(** A pinch that needs three pointers loses the third: two pointers stay
    pressed, 100 apart, and the last scale is 1, yet the start distance is
    not 100: the gesture has ended and its state is reset. *)
Lemma C6_counterexample_below_minimum :
  let before :=
    GestureManager.run Demo.onlyPinch3
      [GestureManager.PointerInput Demo.finger1;
       GestureManager.PointerInput Demo.finger2;
       GestureManager.PointerInput Demo.finger3] in
  let after := GestureManager.step before (GestureManager.PointerInput Demo.finger3Up) in
  let remaining :=
    List.filter PinchGesture.stillPressed
      (@PinchGesture.relevantTo Demo.page 1%nat
         (PointerMap.values (Demo.held [Demo.finger1; Demo.finger2; Demo.finger3; Demo.finger3Up]))) in
  option_map (fun g => PinchGesture.isActive g (GestureManager.registry (GestureManager.world before)))
             (pinchAt before 1%nat "pinch") = Some true
  /\ length remaining = 2%nat
  /\ option_map (fun g => Qred (@calculateAverageDistance Demo.axisSpread remaining
                                / PinchGesture.lastScale (PinchGesture.state g)))
                (pinchAt before 1%nat "pinch") = Some 100%Q
  /\ labels after = [("pinchStart"%string, start); ("pinchEnd"%string, end_)]
  /\ option_map (fun g => PinchGesture.startDistance (PinchGesture.state g))
                (pinchAt after 1%nat "pinch") = Some 0%Q
  /\ option_map (fun g => PinchGesture.isActive g (GestureManager.registry (GestureManager.world after)))
                (pinchAt after 1%nat "pinch") = Some false.
Proof. repeat split; vm_compute; reflexivity. Qed.

(** The condition under which a [pointerdown] starts a pinch that nothing
    prevents: two pointers inside the element and an inactive gesture,
    whatever [minPointers] is. *)
Lemma pinch_starts_with_two {dom : Dom} {spread : Spread}
  (g : PinchGesture.t) (reg : ActiveGesturesRegistry.t)
  (pointers : PointerMap.t) (event : PointerEvent) :
  isOrContains (PinchGesture.element g) (ev_target event) = true ->
  Gesture.shouldPreventGesture (PinchGesture.preventIf g) reg (PinchGesture.element g) = false ->
  ev_type event = pointerdown ->
  let count := length (PinchGesture.relevantTo (PinchGesture.element g)
                         (PointerMap.values pointers)) in
  let '(g1, reg1, out) := PinchGesture.handlePointerEvent g reg pointers event in
  if (2 <=? count)%nat && negb (PinchGesture.isActive g reg)
  then List.map (fun d => pinch_phase (ce_detail d)) out = [start]
       /\ PinchGesture.isActive g1 reg1 = true
  else out = [] /\ g1 = g /\ reg1 = reg.
Proof.
  intros Hinside Hfree Htype count.
  rewrite pinch_dispatch by assumption. rewrite Htype. cbv zeta.
  unfold PinchGesture.onPointerDown. fold count.
  destruct ((2 <=? count)%nat && negb (PinchGesture.isActive g reg)); cbv zeta.
  - split; [reflexivity | apply isGestureActive_register].
  - repeat split.
Qed.

(** ** Exclusion in PinchGesture *)

(** While a gesture named in [preventIf] is active on the element, an
    inactive pinch stays as it is and dispatches nothing. *)
Lemma pinch_suppressed_stays_inactive {dom : Dom} {spread : Spread}
  (g : PinchGesture.t) (reg : ActiveGesturesRegistry.t)
  (pointers : PointerMap.t) (event : PointerEvent) :
  Gesture.shouldPreventGesture (PinchGesture.preventIf g) reg (PinchGesture.element g) = true ->
  PinchGesture.isActive g reg = false ->
  PinchGesture.handlePointerEvent g reg pointers event = (g, reg, []).
Proof.
  intros Hprevented Hidle. unfold PinchGesture.handlePointerEvent, Gesture.getTargetElement.
  destruct (isOrContains _ _); [| reflexivity].
  now rewrite Hprevented, Hidle.
Qed.

(** An active pinch that becomes prevented dispatches one [cancel] at the
    next event inside its element, and is inactive afterwards. *)
Lemma pinch_suppressed_cancels {dom : Dom} {spread : Spread}
  (g : PinchGesture.t) (reg : ActiveGesturesRegistry.t)
  (pointers : PointerMap.t) (event : PointerEvent) :
  Gesture.shouldPreventGesture (PinchGesture.preventIf g) reg (PinchGesture.element g) = true ->
  PinchGesture.isActive g reg = true ->
  isOrContains (PinchGesture.element g) (ev_target event) = true ->
  exists dispatched,
    PinchGesture.handlePointerEvent g reg pointers event
    = (fst (PinchGesture.resetState g reg), snd (PinchGesture.resetState g reg), [dispatched])
    /\ pinch_phase (ce_detail dispatched) = cancel
    /\ PinchGesture.isActive (fst (PinchGesture.resetState g reg))
                             (snd (PinchGesture.resetState g reg)) = false.
Proof.
  intros Hprevented Hactive Hinside.
  unfold PinchGesture.handlePointerEvent, Gesture.getTargetElement.
  rewrite Hinside, Hprevented, Hactive. simpl.
  eexists. split; [reflexivity |]. split; [reflexivity |].
  apply isGestureActive_unregister.
Qed.

(** ** The interrupt in PanGesture *)

Lemma panCoherent_inactive (g : PanGesture.t) :
  PanGesture.active (PanGesture.state g) = false -> panCoherent g.
Proof. intros Hidle Hactive. congruence. Qed.

(** Every call of [handlePointerEvent] keeps an active pan coherent. *)
Lemma pan_step_coherent {dom : Dom} (g : PanGesture.t) (pointers : PointerMap.t)
  (event : PointerEvent) :
  panCoherent g -> panCoherent (fst (PanGesture.handlePointerEvent g pointers event)).
Proof.
  intros Hg. unfold PanGesture.handlePointerEvent.
  assert (Hrest :
    panCoherent (fst
      match PanGesture.getTargetElement g event with
      | None => (g, [])
      | Some targetElement =>
          let relevantPointers :=
            PanGesture.relevantTo targetElement (PointerMap.values pointers) in
          if (length relevantPointers <? PanGesture.minPointers g)%nat
             || PanGesture.exceeds (length relevantPointers) (PanGesture.maxPointers g)
          then if PanGesture.active (PanGesture.state g)
               then PanGesture.cancelGesture g targetElement relevantPointers event
               else (g, [])
          else match ev_type event with
               | pointerdown => PanGesture.onPointerDown g relevantPointers
               | pointermove => PanGesture.onPointerMove g targetElement relevantPointers event
               | _ => PanGesture.onPointerEnd g targetElement relevantPointers event
               end
      end)).
  { unfold PanGesture.getTargetElement.
    destruct (PanGesture.element g) as [el |] eqn:Hel; [| exact Hg].
    unfold Gesture.getTargetElement.
    destruct (isOrContains el (ev_target event)); [| exact Hg].
    cbv zeta.
    destruct (_ || _).
    - destruct (PanGesture.active (PanGesture.state g)); [| exact Hg].
      now apply panCoherent_inactive.
    - destruct (ev_type event).
      + unfold PanGesture.onPointerDown.
        destruct (PanGesture.active (PanGesture.state g)) eqn:Hactive; [exact Hg |].
        destruct (PanGesture.startCentroid (PanGesture.state g)); [exact Hg |].
        apply panCoherent_inactive. reflexivity.
      + unfold PanGesture.onPointerMove.
        destruct (PanGesture.startCentroid (PanGesture.state g)) eqn:Hstart; [| exact Hg].
        destruct (_ <=? _)%nat; [| exact Hg].
        destruct (_ && _ && _).
        * intros _. simpl. rewrite Hel. repeat split; congruence.
        * destruct (_ && _).
          -- intros Hactive. simpl in *. rewrite Hel. repeat split; congruence.
          -- intros Hactive. simpl in *. rewrite Hel, Hstart. repeat split; congruence.
      + unfold PanGesture.onPointerEnd.
        destruct (_ && _); [| now apply panCoherent_inactive].
        destruct (_ =? _)%nat; [now apply panCoherent_inactive | exact Hg].
      + unfold PanGesture.onPointerEnd.
        destruct (_ && _); [| now apply panCoherent_inactive].
        destruct (_ =? _)%nat; [now apply panCoherent_inactive | exact Hg]. }
  destruct (ev_forceReset event); [| exact Hrest].
  destruct (PanGesture.element g) as [el |] eqn:Hel; [| exact Hrest].
  unfold PanGesture.onForceReset.
  destruct (PanGesture.active (PanGesture.state g)) eqn:Hactive.
  - now apply panCoherent_inactive.
  - exact Hg.
Qed.

(** A coherent, active pan answers the interrupt's event with exactly one
    [cancel], whatever the pointer map holds, and is inactive afterwards;
    an inactive pan dispatches nothing. *)
Lemma pan_interrupt_cancels_once {dom : Dom} (g : PanGesture.t) (pointers : PointerMap.t)
  (event : PointerEvent) :
  panCoherent g ->
  ev_forceReset event = true ->
  PanGesture.active (PanGesture.state g) = true ->
  exists dispatched,
    PanGesture.handlePointerEvent g pointers event = (PanGesture.resetActiveState g, [dispatched])
    /\ pan_phase (ce_detail dispatched) = cancel
    /\ pan_pointers (ce_detail dispatched) = PointerMap.values pointers.
Proof.
  intros Hg Hforce Hactive.
  destruct (Hg Hactive) as (Hstart & Hlast & Hel).
  unfold PanGesture.handlePointerEvent. rewrite Hforce.
  destruct (PanGesture.element g) as [el |]; [| congruence].
  unfold PanGesture.onForceReset. rewrite Hactive.
  destruct (PanGesture.startCentroid (PanGesture.state g)) as [c0 |] eqn:Hc0; [| congruence].
  destruct (PanGesture.lastCentroid (PanGesture.state g)) as [c1 |]; [| congruence].
  unfold PanGesture.emitPanEvent. rewrite Hc0.
  eexists. split; [reflexivity |]. split; reflexivity.
Qed.

Lemma pan_interrupt_inactive {dom : Dom} (g : PanGesture.t) (pointers : PointerMap.t)
  (event : PointerEvent) (element : Node) :
  ev_forceReset event = true ->
  PanGesture.element g = Some element ->
  PanGesture.active (PanGesture.state g) = false ->
  PanGesture.handlePointerEvent g pointers event = (g, []).
Proof.
  intros Hforce Hel Hidle. unfold PanGesture.handlePointerEvent, PanGesture.onForceReset.
  now rewrite Hforce, Hel, Hidle.
Qed.

(** The event of an interrupt has no target: a pinch takes it for an event
    outside its element and does nothing, active or not. *)
Lemma pinch_ignores_interrupt {dom : Dom} {spread : Spread}
  (g : PinchGesture.t) (reg : ActiveGesturesRegistry.t) (pointers : PointerMap.t)
  (event : PointerEvent) :
  ev_target event = None ->
  PinchGesture.handlePointerEvent g reg pointers event = (g, reg, []).
Proof.
  intros Hnull. unfold PinchGesture.handlePointerEvent, Gesture.getTargetElement.
  now rewrite Hnull.
Qed.

(** A pan's handler leaves the registry as it is. *)
Lemma pan_handler_keeps_registry {dom : Dom} {spread : Spread}
  (element : Node) (gestureName : string) (g : PanGesture.t)
  (pointers : PointerMap.t) (event : PointerEvent) (w : GestureManager.World) :
  GestureManager.lookupInstance (GestureManager.manager w) element gestureName
  = Some (PanInstance g) ->
  GestureManager.registry
    (snd (GestureManager.instanceHandler element gestureName pointers event w))
  = GestureManager.registry w.
Proof.
  intros Hlookup. unfold GestureManager.instanceHandler, PointerManager.reader. simpl.
  rewrite Hlookup.
  now destruct (PanGesture.handlePointerEvent g pointers event).
Qed.

(** ** What the two classes leave out *)

(** The event an interrupt hands to the handlers carries [forceReset] and
    has no target, with or without pointers in the map. *)
Lemma interrupt_event_shape {W : Type} (pm : PointerManager.t W) (now : number) (w : W) :
  exists cancelEvent pm1,
    PointerManager.handleInterruptEvents pm now w
    = (PointerManager.withPointers (fst (PointerManager.notifyHandlers pm1 cancelEvent w))
         PointerMap.empty,
       snd (PointerManager.notifyHandlers pm1 cancelEvent w))
    /\ ev_type cancelEvent = pointercancel
    /\ ev_forceReset cancelEvent = true
    /\ ev_target cancelEvent = None.
Proof.
  unfold PointerManager.handleInterruptEvents.
  destruct (PointerMap.values (PointerManager.pointers pm)) as [| firstPointer rest].
  - exists (PointerManager.syntheticCancel now), pm.
    destruct (PointerManager.notifyHandlers pm _ w). repeat split.
  - exists (PointerManager.stampFrom firstPointer (PointerManager.syntheticCancel now)),
           (PointerManager.withPointers pm
              (List.map (fun kv => (fst kv, PointerManager.asCancelled (snd kv)))
                        (PointerManager.pointers pm))).
    destruct (PointerManager.notifyHandlers _ _ w). repeat split.
Qed.

(** [handlePointerEvent] of the pan never reads [preventIf]: an instance
    with another list does the same and dispatches the same. *)
Lemma pan_ignores_preventIf {dom : Dom} (g : PanGesture.t) (preventIf : list string)
  (pointers : PointerMap.t) (event : PointerEvent) :
  let listed :=
    {| PanGesture.ident := PanGesture.ident g;
       PanGesture.name := PanGesture.name g;
       PanGesture.preventDefault := PanGesture.preventDefault g;
       PanGesture.stopPropagation := PanGesture.stopPropagation g;
       PanGesture.preventIf := preventIf;
       PanGesture.threshold := PanGesture.threshold g;
       PanGesture.minPointers := PanGesture.minPointers g;
       PanGesture.maxPointers := PanGesture.maxPointers g;
       PanGesture.direction := PanGesture.direction g;
       PanGesture.element := PanGesture.element g;
       PanGesture.state := PanGesture.state g |} in
  PanGesture.state (fst (PanGesture.handlePointerEvent listed pointers event))
  = PanGesture.state (fst (PanGesture.handlePointerEvent g pointers event))
  /\ snd (PanGesture.handlePointerEvent listed pointers event)
     = snd (PanGesture.handlePointerEvent g pointers event).
Proof.
  destruct g as [ident name pd sp pif th mn mx dir el st].
  destruct st as [act held sc lc reached tx ty].
  cbv zeta.
  unfold PanGesture.handlePointerEvent, PanGesture.onForceReset, PanGesture.getTargetElement,
    PanGesture.cancelGesture, PanGesture.onPointerDown, PanGesture.onPointerMove,
    PanGesture.onPointerEnd, PanGesture.emitPanEvent, PanGesture.resetActiveState,
    PanGesture.resetState, PanGesture.withLastCentroid, PanGesture.withState.
  simpl.
  repeat match goal with
         | |- context [match ?c with _ => _ end] => destruct c; simpl
         end;
    split; reflexivity.
Qed.

(** An active pan that loses a pointer while another stays pressed inside
    its element, within its pointer bounds, keeps its whole state, the
    start centroid included, and dispatches nothing. *)
Lemma pan_keeps_start_when_a_pointer_is_lifted {dom : Dom} (g : PanGesture.t)
  (element : Node) (pointers : PointerMap.t) (event : PointerEvent) :
  PanGesture.element g = Some element ->
  ev_forceReset event = false ->
  ev_type event = pointerup \/ ev_type event = pointercancel ->
  isOrContains element (ev_target event) = true ->
  PanGesture.active (PanGesture.state g) = true ->
  PanGesture.movementThresholdReached (PanGesture.state g) = true ->
  let relevantPointers := PanGesture.relevantTo element (PointerMap.values pointers) in
  (PanGesture.minPointers g <= length relevantPointers)%nat ->
  PanGesture.exceeds (length relevantPointers) (PanGesture.maxPointers g) = false ->
  List.filter PanGesture.stillPressed relevantPointers <> [] ->
  PanGesture.handlePointerEvent g pointers event = (g, []).
Proof.
  intros Hel Hforce Htype Hinside Hactive Hreached relevantPointers Hmin Hmax Hleft.
  unfold PanGesture.handlePointerEvent, PanGesture.getTargetElement, Gesture.getTargetElement.
  rewrite Hforce, Hel, Hinside. cbv zeta. fold relevantPointers.
  assert (Hlow : (length relevantPointers <? PanGesture.minPointers g)%nat = false)
    by (apply Nat.ltb_ge; exact Hmin).
  rewrite Hlow, Hmax. simpl orb. cbv iota.
  assert (Hend : PanGesture.onPointerEnd g element relevantPointers event = (g, [])).
  { unfold PanGesture.onPointerEnd. rewrite Hactive, Hreached. simpl andb. cbv iota.
    destruct (List.filter PanGesture.stillPressed relevantPointers); [congruence | reflexivity]. }
  destruct Htype as [-> | ->]; exact Hend.
Qed.

(** The handler of a gesture instance only reads the pointer map. *)
Lemma instanceHandler_readsOnly {dom : Dom} {spread : Spread}
  (element : Node) (gestureName : string) :
  PointerManager.readsOnly (GestureManager.instanceHandler element gestureName).
Proof. intros pointers event w. reflexivity. Qed.

(** Through the handler of a pinch instance, an event without a target,
    such as the one an interrupt sends, leaves the world as it is: no event
    is dispatched and the registry keeps its records. *)
Lemma pinch_handler_ignores_interrupt {dom : Dom} {spread : Spread}
  (element : Node) (gestureName : string) (g : PinchGesture.t)
  (pointers : PointerMap.t) (event : PointerEvent) (w : GestureManager.World) :
  GestureManager.lookupInstance (GestureManager.manager w) element gestureName
  = Some (PinchInstance g) ->
  ev_target event = None ->
  snd (GestureManager.instanceHandler element gestureName pointers event w) = w.
Proof.
  intros Hlookup Hnull.
  unfold GestureManager.instanceHandler, PointerManager.reader. simpl.
  rewrite Hlookup, (pinch_ignores_interrupt g _ pointers event Hnull).
  unfold PinchGesture.unchanged. simpl. rewrite app_nil_r.
  destruct w as [reg m log]. simpl in *. f_equal.
  destruct m as [templates table]. unfold GestureManager.storeInstance. simpl. f_equal.
  unfold GestureManager.lookupInstance in Hlookup. simpl in Hlookup.
  destruct (table !! element) as [elementGestures |] eqn:Htable; [| discriminate].
  simpl. rewrite (insert_id elementGestures gestureName _ Hlookup).
  now apply insert_id.
Qed.

(** ** Runs of the system *)

(** C1.  A pan and a pinch are bound to one element; two fingers go down
    and one moves, so that both gestures are active.  The interrupt
    dispatches the pan's [cancel] and nothing for the pinch, which is still
    registered as active when the pointer map has been cleared; a second
    interrupt, with no pointer left, changes nothing. *)
Theorem C1_interrupt_leaves_active_pinch_without_cancel :
  let before :=
    GestureManager.run (Demo.panAndPinch [])
      (Demo.twoFingersDown
       ++ [GestureManager.PointerInput (Demo.touch pointermove 2 120 2%nat 20)]) in
  let after := GestureManager.step before (GestureManager.InterruptInput 30) in
  let again := GestureManager.step after (GestureManager.InterruptInput 40) in
  let pinchActive := fun sys =>
    option_map (fun g => PinchGesture.isActive g
                           (GestureManager.registry (GestureManager.world sys)))
               (pinchAt sys 1%nat "pinch") in
  let panActive := fun sys =>
    option_map (fun g => PanGesture.active (PanGesture.state g)) (panAt sys 1%nat "pan") in
  labels before = [("pinchStart", start); ("panStart", start); ("pinch", ongoing)]%string
  /\ panActive before = Some true
  /\ pinchActive before = Some true
  /\ labels after = labels before ++ [("panCancel"%string, cancel)]
  /\ panActive after = Some false
  /\ pinchActive after = Some true
  /\ PointerManager.pointers (GestureManager.pointerManager after) = []
  /\ pinchAt after 1%nat "pinch" = pinchAt before 1%nat "pinch"
  /\ labels again = labels after
  /\ pinchActive again = Some true.
Proof. repeat split; vm_compute; reflexivity. Qed.



(** C7.  A pan with one to two pointers: the first finger drags to x = 20
    and the pan starts; a second finger goes down at x = 100 and reports a
    move; it is lifted; the first finger then moves by one pixel.  The
    deltas dispatched are 20, 60 and 21: between the last two events the
    only motion is one pixel, and the delta changes by 39. *)
Theorem C7_lifting_a_finger_moves_the_pan_delta :
  let sys :=
    GestureManager.run Demo.onlyPan
      [GestureManager.PointerInput (Demo.touch pointerdown 1 0 1%nat 0);
       GestureManager.PointerInput (Demo.touch pointermove 1 20 1%nat 10);
       GestureManager.PointerInput (Demo.touch pointerdown 2 100 1%nat 20);
       GestureManager.PointerInput (Demo.touch pointermove 2 100 1%nat 30);
       GestureManager.PointerInput (Demo.touch pointerup 2 100 1%nat 40);
       GestureManager.PointerInput (Demo.touch pointermove 1 21 1%nat 50)] in
  panDeltas sys = [(start, 20%Q, 0%Q); (ongoing, 60%Q, 0%Q); (ongoing, 21%Q, 0%Q)]
  /\ (Qabs (21 - 60) == 39)%Q
  /\ labels sys = [("panStart", start); ("pan", ongoing); ("pan", ongoing)]%string
  /\ option_map (fun g => PanGesture.startCentroid (PanGesture.state g)) (panAt sys 1%nat "pan")
     = Some (Some (mkPoint 0 0)).
Proof. repeat split; vm_compute; reflexivity. Qed.

(** C8.  A pinch configured with [minPointers: 3] dispatches [start] and
    becomes active when the second of two fingers goes down; without the
    option the minimum is 2. *)
Theorem C8_pinch_starts_below_minPointers :
  let sys := GestureManager.run Demo.onlyPinch3 Demo.twoFingersDown in
  PinchGesture.minPointers Demo.pinch3 = 3%nat
  /\ PinchGesture.minPointers Demo.pinch = 2%nat
  /\ length (PointerManager.pointers (GestureManager.pointerManager sys)) = 2%nat
  /\ labels sys = [("pinchStart", start)]%string
  /\ option_map (fun g => PinchGesture.isActive g
                            (GestureManager.registry (GestureManager.world sys)))
                (pinchAt sys 1%nat "pinch") = Some true
  /\ option_map (fun g => Qred (PinchGesture.startDistance (PinchGesture.state g)))
                (pinchAt sys 1%nat "pinch") = Some 100%Q.
Proof. repeat split; vm_compute; reflexivity. Qed.

(** C9.  Two pinch recognisers, "pinch" and "zoom", are active on one
    element.  Unregistering "pinch" removes that instance and keeps the
    "zoom" instance bound, but the registry loses the record of "zoom" as
    well: the element's key is deleted. *)
Theorem C9_unregister_drops_the_other_active_record :
  let sys := GestureManager.run Demo.pinchAndZoom Demo.twoFingersDown in
  let w := GestureManager.world sys in
  let w1 := fst (GestureManager.unregisterElement w "pinch" 1%nat) in
  labels sys = [("pinchStart", start); ("zoomStart", start)]%string
  /\ ActiveGesturesRegistry.isGestureActive (GestureManager.registry w) 1%nat
       (PinchGesture.ref Demo.zoom) = true
  /\ snd (GestureManager.unregisterElement w "pinch" 1%nat) = true
  /\ GestureManager.lookupInstance (GestureManager.manager w1) 1%nat "pinch" = None
  /\ GestureManager.lookupInstance (GestureManager.manager w1) 1%nat "zoom"
     = GestureManager.lookupInstance (GestureManager.manager w) 1%nat "zoom"
  /\ ActiveGesturesRegistry.isGestureActive (GestureManager.registry w1) 1%nat
       (PinchGesture.ref Demo.zoom) = false
  /\ GestureManager.registry w1 !! 1%nat = None.
Proof. repeat split; vm_compute; reflexivity. Qed.

(** What [unregisterElement] does to the registry in general: the key of
    the element is deleted, whatever it held. *)
Lemma unregisterElement_clears_the_element (w : GestureManager.World)
  (gestureName : string) (element : Node) :
  snd (GestureManager.unregisterElement w gestureName element) = true ->
  GestureManager.registry (fst (GestureManager.unregisterElement w gestureName element))
    !! element = None.
Proof.
  unfold GestureManager.unregisterElement.
  destruct (GestureManager.elementGestureMap (GestureManager.manager w) !! element)
    as [elementGestures |]; [| discriminate].
  destruct (elementGestures !! gestureName); [| discriminate].
  intros _. simpl. apply lookup_delete_eq.
Qed.

(** * Further properties *)

(** ** The registry across calls *)

Lemma registered_set_not_empty (reg : ActiveGesturesRegistry.t) (e : Node) (g : GestureRef) :
  noEmptySets reg -> noEmptySets (ActiveGesturesRegistry.registerActiveGesture reg e g).
Proof.
  intros Hreg e' entries Hlookup.
  destruct (decide (e = e')) as [<- | Hne].
  - rewrite registry_lookup_register in Hlookup. injection Hlookup as <-.
    now destruct (default [] (reg !! e)).
  - rewrite registry_lookup_register_ne in Hlookup by assumption. eauto.
Qed.

Lemma unregistered_set_not_empty (reg : ActiveGesturesRegistry.t) (e : Node) (g : GestureRef) :
  noEmptySets reg -> noEmptySets (ActiveGesturesRegistry.unregisterActiveGesture reg e g).
Proof.
  intros Hreg e' entries Hlookup.
  destruct (decide (e = e')) as [<- | Hne].
  - rewrite registry_lookup_unregister in Hlookup.
    destruct (List.filter _ (default [] (reg !! e))); [discriminate |].
    injection Hlookup as <-. discriminate.
  - rewrite registry_lookup_unregister_ne in Hlookup by assumption. eauto.
Qed.

(** X1.  Starting from the empty registry, no sequence of calls of
    [registerActiveGesture], [unregisterActiveGesture], [unregisterElement]
    and [destroy] leaves an element that maps to an empty set: a key is in
    the map exactly while some gesture is active on the element. *)
Theorem registry_never_keeps_an_empty_set :
  forall calls : list RegistryCall, noEmptySets (fold_left registryCall calls ∅).
Proof.
  assert (Hstep : forall reg call, noEmptySets reg -> noEmptySets (registryCall reg call)).
  { intros reg [e g | e g | e |] Hreg; simpl.
    - now apply registered_set_not_empty.
    - now apply unregistered_set_not_empty.
    - intros e' entries Hlookup. unfold ActiveGesturesRegistry.unregisterElement in Hlookup.
      apply lookup_delete_Some in Hlookup as [_ Hlookup]. eauto.
    - intros e' entries Hlookup. unfold ActiveGesturesRegistry.destroy in Hlookup.
      now rewrite lookup_empty in Hlookup. }
  assert (Hfold : forall calls reg, noEmptySets reg -> noEmptySets (fold_left registryCall calls reg)).
  { induction calls as [| call calls IH]; intros reg Hreg; simpl; [exact Hreg |].
    apply IH, Hstep, Hreg. }
  intros calls. apply Hfold. intros e entries Hlookup. now rewrite lookup_empty in Hlookup.
Qed.

Lemma filter_keeps_all {A : Type} (f : A -> bool) (l : list A) :
  existsb f l = false -> List.filter (fun a => negb (f a)) l = l.
Proof.
  induction l as [| a l IH]; simpl; [reflexivity |].
  intros Hnone. apply orb_false_elim in Hnone as [Ha Hl].
  rewrite Ha. simpl. f_equal. now apply IH.
Qed.

(** X2.  Registering a gesture that is not active on an element and
    unregistering it again gives back the registry as it was, provided no
    element maps to an empty set. *)
Theorem register_then_unregister_restores :
  forall (reg : ActiveGesturesRegistry.t) (e : Node) (g : GestureRef),
    noEmptySets reg ->
    ActiveGesturesRegistry.isGestureActive reg e g = false ->
    ActiveGesturesRegistry.unregisterActiveGesture
      (ActiveGesturesRegistry.registerActiveGesture reg e g) e g = reg.
Proof.
  intros reg e g Hreg Hidle.
  unfold ActiveGesturesRegistry.unregisterActiveGesture.
  rewrite registry_lookup_register.
  assert (Hself : sameGesture g g = true) by apply Nat.eqb_refl.
  rewrite List.filter_app. simpl. rewrite Hself. simpl. rewrite app_nil_r.
  unfold ActiveGesturesRegistry.isGestureActive in Hidle.
  unfold ActiveGesturesRegistry.registerActiveGesture.
  destruct (reg !! e) as [entries |] eqn:Hlookup; simpl in *.
  - rewrite (filter_keeps_all _ _ Hidle).
    destruct entries as [| entry entries]; [exfalso; exact (Hreg _ _ Hlookup eq_refl) |].
    simpl. rewrite Hlookup. simpl.
    rewrite insert_insert_eq. now apply insert_id.
  - rewrite lookup_insert_eq. simpl.
    rewrite !delete_insert_eq. now apply delete_id.
Qed.

Lemma register_then_unregister_witness :
  let other := mkGestureRef 12 "rotate" in
  let reg := ActiveGesturesRegistry.registerActiveGesture ∅ 1%nat other in
  let g := mkGestureRef 11 "pinch" in
  noEmptySets reg
  /\ ActiveGesturesRegistry.isGestureActive reg 1%nat g = false
  /\ ActiveGesturesRegistry.unregisterActiveGesture
       (ActiveGesturesRegistry.registerActiveGesture reg 1%nat g) 1%nat g = reg.
Proof.
  intros other reg g.
  assert (Hreg : noEmptySets reg) by (apply registered_set_not_empty; intros e l H; now rewrite lookup_empty in H).
  split; [exact Hreg |]. split; [reflexivity |].
  apply (register_then_unregister_restores reg 1%nat g Hreg). reflexivity.
Defined.

Lemma filter_filter_other {A : Type} (f h : A -> bool) (l : list A) :
  (forall a, f a = true -> h a = false) ->
  List.filter h (List.filter (fun a => negb (f a)) l) = List.filter h l.
Proof.
  intros Hdisjoint. induction l as [| a l IH]; simpl; [reflexivity |].
  destruct (f a) eqn:Hf; simpl.
  - rewrite (Hdisjoint a Hf). exact IH.
  - now rewrite IH.
Qed.

Lemma sameGesture_other (g h : GestureRef) (entry : ActiveGestureEntry) :
  ref_id h <> ref_id g ->
  sameGesture (entry_gesture entry) g = true -> sameGesture (entry_gesture entry) h = false.
Proof.
  unfold sameGesture. intros Hne Hg. apply Nat.eqb_eq in Hg. apply Nat.eqb_neq. congruence.
Qed.

(** The entries of a gesture on an element, across a registration and an
    unregistration of that gesture or of another. *)
Lemma entriesOf_register_same (reg : ActiveGesturesRegistry.t) (e : Node) (g : GestureRef) :
  entriesOf (ActiveGesturesRegistry.registerActiveGesture reg e g) e g
  = entriesOf reg e g ++ [mkEntry g e].
Proof.
  unfold entriesOf. rewrite registry_lookup_register. simpl.
  rewrite List.filter_app. simpl.
  assert (Hself : sameGesture g g = true) by apply Nat.eqb_refl.
  now rewrite Hself.
Qed.

Lemma entriesOf_unregister_same (reg : ActiveGesturesRegistry.t) (e : Node) (g : GestureRef) :
  entriesOf (ActiveGesturesRegistry.unregisterActiveGesture reg e g) e g = [].
Proof.
  unfold entriesOf. rewrite registry_lookup_unregister.
  pose proof (filter_filter_negb (fun entry => sameGesture (entry_gesture entry) g)
                (default [] (reg !! e))) as Hnone.
  destruct (List.filter _ (default [] (reg !! e))); [reflexivity | exact Hnone].
Qed.

Lemma entriesOf_register_other (reg : ActiveGesturesRegistry.t) (e e' : Node)
  (g h : GestureRef) :
  ref_id h <> ref_id g \/ e' <> e ->
  entriesOf (ActiveGesturesRegistry.registerActiveGesture reg e g) e' h = entriesOf reg e' h.
Proof.
  intros Hother. unfold entriesOf.
  destruct (decide (e = e')) as [<- | Hne].
  - destruct Hother as [Hid | Hel]; [| congruence].
    rewrite registry_lookup_register. simpl. rewrite List.filter_app. simpl.
    assert (Hidb : sameGesture g h = false) by (apply Nat.eqb_neq; congruence).
    rewrite Hidb. apply app_nil_r.
  - now rewrite registry_lookup_register_ne.
Qed.

Lemma entriesOf_unregister_other (reg : ActiveGesturesRegistry.t) (e e' : Node)
  (g h : GestureRef) :
  ref_id h <> ref_id g \/ e' <> e ->
  entriesOf (ActiveGesturesRegistry.unregisterActiveGesture reg e g) e' h = entriesOf reg e' h.
Proof.
  intros Hother. unfold entriesOf.
  destruct (decide (e = e')) as [<- | Hne].
  - destruct Hother as [Hid | Hel]; [| congruence].
    rewrite registry_lookup_unregister.
    rewrite <- (filter_filter_other
                  (fun entry => sameGesture (entry_gesture entry) g)
                  (fun entry => sameGesture (entry_gesture entry) h)
                  (default [] (reg !! e)))
      by (intros entry; now apply sameGesture_other).
    now destruct (List.filter _ (default [] (reg !! e))).
  - now rewrite registry_lookup_unregister_ne.
Qed.

(** [isGestureActive] answers whether the gesture has an entry. *)
Lemma isGestureActive_entriesOf (reg : ActiveGesturesRegistry.t) (e : Node) (h : GestureRef) :
  ActiveGesturesRegistry.isGestureActive reg e h
  = negb (length (entriesOf reg e h) =? 0)%nat.
Proof.
  unfold ActiveGesturesRegistry.isGestureActive, entriesOf.
  destruct (reg !! e) as [entries |]; simpl; [| reflexivity].
  induction entries as [| entry entries IH]; simpl; [reflexivity |].
  now destruct (sameGesture (entry_gesture entry) h).
Qed.

(** X3.  [registerActiveGesture] and [unregisterActiveGesture] for one
    gesture instance on one element leave the entries of every other
    instance, and of every instance on another element, as they are, and
    with them what [isGestureActive] answers. *)
Theorem registry_calls_leave_other_gestures :
  forall (reg : ActiveGesturesRegistry.t) (e e' : Node) (g h : GestureRef),
    ref_id h <> ref_id g \/ e' <> e ->
    let registered := ActiveGesturesRegistry.registerActiveGesture reg e g in
    let unregistered := ActiveGesturesRegistry.unregisterActiveGesture reg e g in
    entriesOf registered e' h = entriesOf reg e' h
    /\ entriesOf unregistered e' h = entriesOf reg e' h
    /\ ActiveGesturesRegistry.isGestureActive registered e' h
       = ActiveGesturesRegistry.isGestureActive reg e' h
    /\ ActiveGesturesRegistry.isGestureActive unregistered e' h
       = ActiveGesturesRegistry.isGestureActive reg e' h.
Proof.
  intros reg e e' g h Hother registered unregistered.
  rewrite !isGestureActive_entriesOf.
  subst registered unregistered.
  rewrite entriesOf_register_other, entriesOf_unregister_other by assumption.
  repeat split.
Qed.

Lemma registry_calls_leave_other_gestures_witness :
  let g := mkGestureRef 11 "pinch" in
  let h := mkGestureRef 12 "rotate" in
  let reg := ActiveGesturesRegistry.registerActiveGesture
               (ActiveGesturesRegistry.registerActiveGesture ∅ 1%nat g) 1%nat h in
  (ref_id h <> ref_id g \/ 1%nat <> 1%nat)
  /\ entriesOf (ActiveGesturesRegistry.unregisterActiveGesture reg 1%nat g) 1%nat h
     = [mkEntry h 1%nat]
  /\ ActiveGesturesRegistry.isGestureActive
       (ActiveGesturesRegistry.unregisterActiveGesture reg 1%nat g) 1%nat h = true.
Proof.
  intros g h reg.
  assert (Hother : ref_id h <> ref_id g \/ 1%nat <> 1%nat) by (left; discriminate).
  split; [exact Hother |].
  destruct (registry_calls_leave_other_gestures reg 1%nat 1%nat g h Hother)
    as (_ & Hentries & _ & Hactive).
  split; [rewrite Hentries | rewrite Hactive]; reflexivity.
Defined.

Lemma filter_filter_same {A : Type} (f : A -> bool) (l : list A) :
  List.filter f (List.filter f l) = List.filter f l.
Proof.
  induction l as [| a l IH]; simpl; [reflexivity |].
  destruct (f a) eqn:E; simpl; [rewrite E; now f_equal | exact IH].
Qed.

(** X4.  Unregistering a gesture a second time changes nothing. *)
Theorem unregister_twice_is_unregister_once :
  forall (reg : ActiveGesturesRegistry.t) (e : Node) (g : GestureRef),
    ActiveGesturesRegistry.unregisterActiveGesture
      (ActiveGesturesRegistry.unregisterActiveGesture reg e g) e g
    = ActiveGesturesRegistry.unregisterActiveGesture reg e g.
Proof.
  intros reg e g.
  set (once := ActiveGesturesRegistry.unregisterActiveGesture reg e g).
  pose proof (registry_lookup_unregister reg e g) as Hlookup. fold once in Hlookup.
  unfold ActiveGesturesRegistry.unregisterActiveGesture at 1.
  destruct (List.filter _ (default [] (reg !! e))) as [| entry kept] eqn:Hkept;
    rewrite Hlookup; [reflexivity |].
  rewrite <- Hkept, filter_filter_same, Hkept. simpl.
  now apply insert_id.
Qed.

(** The record built by [getActiveGestures] holds [true] under a name, and
    nothing else, exactly when an entry of the element carries that name. *)
Lemma activeGestures_lookup (reg : ActiveGesturesRegistry.t) (e : Node) (n : string) :
  ActiveGesturesRegistry.getActiveGestures reg e !! n
  = if existsb (fun entry => String.eqb (ref_name (entry_gesture entry)) n)
               (default [] (reg !! e))
    then Some true else None.
Proof.
  unfold ActiveGesturesRegistry.getActiveGestures.
  assert (Hfold : forall (entries : list ActiveGestureEntry) (acc : gmap string bool),
            fold_left (fun acc entry => <[ref_name (entry_gesture entry) := true]> acc)
                      entries acc !! n
            = if existsb (fun entry => String.eqb (ref_name (entry_gesture entry)) n) entries
              then Some true else acc !! n).
  { induction entries as [| entry entries IH]; intros acc; simpl; [reflexivity |].
    rewrite IH.
    destruct (existsb _ entries); [now rewrite orb_true_r |].
    rewrite orb_false_r.
    destruct (String.eqb_spec (ref_name (entry_gesture entry)) n) as [-> | Hne].
    - apply lookup_insert_eq.
    - now apply lookup_insert_ne. }
  destruct (reg !! e) as [entries |]; simpl.
  - now rewrite Hfold, lookup_empty.
  - apply lookup_empty.
Qed.

(** X5.  A gesture is prevented on an element exactly when one of the
    names in its [preventIf] is the name of an entry the registry holds for
    that element, or is the name of a property that the record of active
    gestures, a plain object, inherits from [Object.prototype] (such as
    [toString] or [constructor]), which is truthy with nothing active.
    The identity of the active instance plays no part, nor do the other
    elements, and an empty list never prevents. *)
Theorem shouldPreventGesture_by_name :
  forall (preventIf : list string) (reg : ActiveGesturesRegistry.t) (e : Node),
    Gesture.shouldPreventGesture preventIf reg e = true
    <-> exists gestureName,
          In gestureName preventIf
          /\ (Gesture.inheritedProperty gestureName = true
              \/ exists entry,
                   In entry (default [] (reg !! e))
                   /\ ref_name (entry_gesture entry) = gestureName).
Proof.
  intros preventIf reg e. unfold Gesture.shouldPreventGesture.
  assert (Hlisted : forall n,
            Gesture.isListed (ActiveGesturesRegistry.getActiveGestures reg e) n = true
            <-> (Gesture.inheritedProperty n = true
                 \/ exists entry, In entry (default [] (reg !! e))
                                  /\ ref_name (entry_gesture entry) = n)).
  { intros n. unfold Gesture.isListed. rewrite activeGestures_lookup.
    destruct (existsb _ (default [] (reg !! e))) eqn:Hany.
    - apply existsb_exists in Hany as (entry & Hin & Hname).
      apply String.eqb_eq in Hname. split; [right; eauto | reflexivity].
    - split; [now left |]. intros [Hinherited | (entry & Hin & Hname)]; [exact Hinherited |].
      assert (Hyes : existsb (fun entry => String.eqb (ref_name (entry_gesture entry)) n)
                             (default [] (reg !! e)) = true).
      { apply existsb_exists. exists entry. split; [exact Hin |]. now apply String.eqb_eq. }
      congruence. }
  destruct preventIf as [| first others]; simpl length; cbv iota beta.
  - simpl. split; [discriminate |]. intros (n & [] & _).
  - change ((S (length others) =? 0)%nat) with false. cbv iota.
    rewrite existsb_exists. split.
    + intros (n & Hin & Hn). apply Hlisted in Hn. eauto.
    + intros (n & Hin & Hn). exists n. split; [exact Hin |]. now apply Hlisted.
Qed.

(** ** The pointer map between events *)

Lemma PointerMap_set_keys (m : PointerMap.t) (k q : Z) (v : PointerData) :
  In q (List.map fst (PointerMap.set m k v)) -> q = k \/ In q (List.map fst m).
Proof.
  induction m as [| [k' v'] rest IH]; simpl.
  - intros [<- | []]. now left.
  - destruct (k =? k')%Z eqn:E; simpl.
    + apply Z.eqb_eq in E. subst k'. intros [<- | Hin]; [now left | right; now right].
    + intros [<- | Hin]; [right; now left |].
      destruct (IH Hin) as [-> | Hrest]; [now left | right; now right].
Qed.

Lemma PointerMap_set_NoDup (m : PointerMap.t) (k : Z) (v : PointerData) :
  List.NoDup (List.map fst m) -> List.NoDup (List.map fst (PointerMap.set m k v)).
Proof.
  induction m as [| [k' v'] rest IH]; simpl; intros Hnodup.
  - constructor; [intros [] | constructor].
  - inversion Hnodup as [| ? ? Hfresh Hrest]; subst.
    destruct (k =? k')%Z eqn:E; simpl.
    + apply Z.eqb_eq in E. subst k'. now constructor.
    + constructor; [| now apply IH].
      intros Hin. apply PointerMap_set_keys in Hin as [-> | Hin]; [| contradiction].
      rewrite Z.eqb_refl in E. discriminate.
Qed.

Lemma PointerMap_set_Forall (P : Z * PointerData -> Prop) (m : PointerMap.t) (k : Z)
  (v : PointerData) :
  Forall P m -> P (k, v) -> Forall P (PointerMap.set m k v).
Proof.
  intros Hall Hnew. induction m as [| [k' v'] rest IH]; simpl.
  - now constructor.
  - inversion Hall; subst.
    destruct (k =? k')%Z; constructor; auto.
Qed.

Lemma PointerMap_delete_set (m : PointerMap.t) (k : Z) (v : PointerData) :
  PointerMap.delete (PointerMap.set m k v) k = PointerMap.delete m k.
Proof.
  unfold PointerMap.delete.
  induction m as [| [k' v'] rest IH]; simpl.
  - now rewrite Z.eqb_refl.
  - destruct (k =? k')%Z eqn:E; simpl.
    + now rewrite Z.eqb_refl.
    + rewrite E. simpl. now f_equal.
Qed.

Lemma PointerMap_delete_Forall (P : Z * PointerData -> Prop) (m : PointerMap.t) (k : Z) :
  Forall P m -> Forall P (PointerMap.delete m k).
Proof.
  unfold PointerMap.delete. intros Hall.
  induction Hall as [| kv rest Hkv Hrest IH]; simpl; [constructor |].
  destruct (negb _); [now constructor | exact IH].
Qed.

Lemma PointerMap_delete_NoDup (m : PointerMap.t) (k : Z) :
  List.NoDup (List.map fst m) -> List.NoDup (List.map fst (PointerMap.delete m k)).
Proof.
  unfold PointerMap.delete.
  induction m as [| [k' v'] rest IH]; simpl; intros Hnodup; [constructor |].
  inversion Hnodup as [| ? ? Hfresh Hrest]; subst.
  destruct (negb _); simpl; [| now apply IH].
  constructor; [| now apply IH].
  intros Hin. apply Hfresh.
  apply in_map_iff in Hin as (kv & Hkey & Hkv).
  apply filter_In in Hkv as [Hkv _].
  apply in_map_iff. now exists kv.
Qed.

Lemma PointerMap_size_set (m : PointerMap.t) (k : Z) (v : PointerData) :
  PointerMap.size (PointerMap.set m k v)
  = match PointerMap.get m k with
    | Some _ => PointerMap.size m
    | None => S (PointerMap.size m)
    end.
Proof.
  unfold PointerMap.size.
  induction m as [| [k' v'] rest IH]; simpl; [reflexivity |].
  destruct (k =? k')%Z; simpl; [reflexivity |].
  rewrite IH. now destruct (PointerMap.get rest k).
Qed.

(** What [handlePointerEvent] leaves in a manager whose handlers only
    read. *)
Lemma handlePointerEvent_readers {W : Type} (pm : PointerManager.t W) (event : PointerEvent)
  (w : W) :
  Forall PointerManager.readsOnly (PointerManager.gestureHandlers pm) ->
  let seen := PointerMap.set (PointerManager.pointers pm) (ev_pointerId event)
                             (PointerManager.createPointerData event) in
  PointerManager.handlePointerEvent pm event w
  = (PointerManager.withPointers pm
       (match ev_type event with
        | pointerdown | pointermove => seen
        | pointerup | pointercancel => PointerMap.delete seen (ev_pointerId event)
        end),
     fold_left (fun acc handler => snd (handler seen event acc))
               (PointerManager.gestureHandlers pm) w).
Proof.
  intros Hread seen.
  pose proof (notifyHandlers_readers (PointerManager.withPointers pm seen) event w Hread)
    as Hnotify.
  subst seen. unfold PointerManager.handlePointerEvent.
  destruct (ev_type event); cbv zeta; rewrite Hnotify; reflexivity.
Qed.

(** What [handleInterruptEvents] leaves in a manager whose handlers only
    read. *)
Lemma handleInterruptEvents_readers {W : Type} (pm : PointerManager.t W) (now : number)
  (w : W) :
  Forall PointerManager.readsOnly (PointerManager.gestureHandlers pm) ->
  let cancelled := List.map (fun kv => (fst kv, PointerManager.asCancelled (snd kv)))
                            (PointerManager.pointers pm) in
  let cancelEvent :=
    match PointerMap.values (PointerManager.pointers pm) with
    | firstPointer :: _ =>
        PointerManager.stampFrom firstPointer (PointerManager.syntheticCancel now)
    | [] => PointerManager.syntheticCancel now
    end in
  PointerManager.handleInterruptEvents pm now w
  = (PointerManager.withPointers pm PointerMap.empty,
     fold_left (fun acc handler => snd (handler cancelled cancelEvent acc))
               (PointerManager.gestureHandlers pm) w).
Proof.
  intros Hread cancelled cancelEvent. subst cancelled cancelEvent.
  unfold PointerManager.handleInterruptEvents, PointerMap.values.
  destruct (PointerManager.pointers pm) as [| [k v] rest] eqn:Hpointers;
    cbn [List.map fst snd].
  - rewrite (notifyHandlers_readers pm _ w Hread), Hpointers. reflexivity.
  - rewrite (notifyHandlers_readers
               (PointerManager.withPointers pm
                  ((k, PointerManager.asCancelled v)
                   :: List.map (fun kv => (fst kv, PointerManager.asCancelled (snd kv))) rest))
               (PointerManager.stampFrom v (PointerManager.syntheticCancel now)) w Hread).
    reflexivity.
Qed.

(** X6.  In a manager whose handlers only read the map, every input keeps
    the map well formed: no pointer id occurs twice, every snapshot is
    stored under its own pointer id, and between two events the map holds
    no snapshot of a [pointerup] or [pointercancel].  The handlers stay the
    same. *)
Theorem manager_keeps_pressed_snapshots :
  forall (W : Type) (pm : PointerManager.t W) (w : W) (inputs : list GestureManager.Input),
    Forall PointerManager.readsOnly (PointerManager.gestureHandlers pm) ->
    List.NoDup (List.map fst (PointerManager.pointers pm)) ->
    Forall keptSnapshot (PointerManager.pointers pm) ->
    let after := fold_left managerStep inputs (pm, w) in
    List.NoDup (List.map fst (PointerManager.pointers (fst after)))
    /\ Forall keptSnapshot (PointerManager.pointers (fst after))
    /\ PointerManager.gestureHandlers (fst after) = PointerManager.gestureHandlers pm.
Proof.
  intros W pm w inputs. revert pm w.
  induction inputs as [| input inputs IH]; intros pm w Hread Hnodup Hkept; simpl.
  - repeat split; assumption.
  - assert (Hstep : exists m,
              managerStep (pm, w) input
              = (PointerManager.withPointers pm m, snd (managerStep (pm, w) input))
              /\ List.NoDup (List.map fst m) /\ Forall keptSnapshot m).
    { destruct input as [event | now]; simpl.
      - rewrite (handlePointerEvent_readers pm event w Hread). cbv zeta. simpl.
        eexists. split; [reflexivity |].
        destruct (ev_type event) eqn:Htype.
        + split; [now apply PointerMap_set_NoDup |].
          apply PointerMap_set_Forall; [assumption |].
          split; [reflexivity | left; exact Htype].
        + split; [now apply PointerMap_set_NoDup |].
          apply PointerMap_set_Forall; [assumption |].
          split; [reflexivity | right; exact Htype].
        + rewrite PointerMap_delete_set.
          split; [now apply PointerMap_delete_NoDup | now apply PointerMap_delete_Forall].
        + rewrite PointerMap_delete_set.
          split; [now apply PointerMap_delete_NoDup | now apply PointerMap_delete_Forall].
      - rewrite (handleInterruptEvents_readers pm now w Hread). cbv zeta. simpl.
        eexists. split; [reflexivity |]. split; constructor. }
    destruct Hstep as (m & Hstep & Hnodup1 & Hkept1).
    rewrite Hstep.
    exact (IH (PointerManager.withPointers pm m) _ Hread Hnodup1 Hkept1).
Qed.

Lemma manager_keeps_pressed_snapshots_witness :
  let pm := {| PointerManager.pointers := PointerMap.empty;
               PointerManager.gestureHandlers := [recorder 0; recorder 1] |} in
  let inputs :=
    [GestureManager.PointerInput (Demo.touch pointerdown 1 0 1%nat 0);
     GestureManager.PointerInput (Demo.touch pointermove 2 100 1%nat 10);
     GestureManager.PointerInput (Demo.touch pointerup 1 0 1%nat 20);
     GestureManager.PointerInput (Demo.touch pointermove 2 120 1%nat 30)] in
  let after := fold_left managerStep inputs (pm, []) in
  List.map fst (PointerManager.pointers (fst after)) = [2%Z]
  /\ List.NoDup (List.map fst (PointerManager.pointers (fst after)))
  /\ Forall keptSnapshot (PointerManager.pointers (fst after))
  /\ PointerManager.gestureHandlers (fst after) = PointerManager.gestureHandlers pm.
Proof.
  intros pm inputs after.
  split; [reflexivity |].
  apply (manager_keeps_pressed_snapshots _ pm [] inputs).
  - repeat constructor.
  - constructor.
  - constructor.
Defined.

(** X7.  A [pointerdown] or a [pointermove] of pointer [p], in a manager
    whose handlers only read the map: the snapshot of the event is stored
    under [p] before the handlers are called, each handler is called with
    that map and the event, and the map is kept afterwards.  A pointer
    already in the map keeps its place; a pointer that is not, be it the
    pointer of a [pointermove] that never went down, is added. *)
Theorem down_or_move_is_tracked :
  forall (W : Type) (pm : PointerManager.t W) (event : PointerEvent) (w : W),
    Forall PointerManager.readsOnly (PointerManager.gestureHandlers pm) ->
    ev_type event = pointerdown \/ ev_type event = pointermove ->
    let p := ev_pointerId event in
    let before := PointerManager.pointers pm in
    let after := PointerManager.handlePointerEvent pm event w in
    let held := PointerManager.pointers (fst after) in
    snd after = fold_left (fun acc handler => snd (handler held event acc))
                          (PointerManager.gestureHandlers pm) w
    /\ PointerMap.get held p = Some (PointerManager.createPointerData event)
    /\ (forall q, q <> p -> PointerMap.get held q = PointerMap.get before q)
    /\ PointerMap.size held
       = match PointerMap.get before p with
         | Some _ => PointerMap.size before
         | None => S (PointerMap.size before)
         end
    /\ PointerManager.gestureHandlers (fst after) = PointerManager.gestureHandlers pm.
Proof.
  intros W pm event w Hread Htype p before after held.
  assert (Hafter : after =
            (PointerManager.withPointers pm
               (PointerMap.set before p (PointerManager.createPointerData event)),
             fold_left (fun acc handler =>
                          snd (handler (PointerMap.set before p
                                          (PointerManager.createPointerData event)) event acc))
                       (PointerManager.gestureHandlers pm) w)).
  { subst after. rewrite (handlePointerEvent_readers pm event w Hread). cbv zeta.
    destruct Htype as [-> | ->]; reflexivity. }
  subst held. rewrite Hafter. simpl.
  repeat split.
  - apply PointerMap_get_set_eq.
  - intros q Hq. now apply PointerMap_get_set_ne.
  - apply PointerMap_size_set.
Qed.

Lemma down_or_move_is_tracked_witness :
  let pm := {| PointerManager.pointers :=
                 [(1%Z, PointerManager.createPointerData (Demo.touch pointerdown 1 0 1%nat 0))];
               PointerManager.gestureHandlers := [recorder 0] |} in
  let event := Demo.touch pointermove 2 100 1%nat 10 in
  let after := PointerManager.handlePointerEvent pm event [] in
  List.map fst (PointerManager.pointers (fst after)) = [1%Z; 2%Z]
  /\ PointerMap.get (PointerManager.pointers (fst after)) 2%Z
     = Some (PointerManager.createPointerData event)
  /\ PointerMap.size (PointerManager.pointers (fst after)) = 2%nat.
Proof.
  intros pm event after.
  assert (Hread : Forall PointerManager.readsOnly (PointerManager.gestureHandlers pm))
    by (repeat constructor).
  pose proof (down_or_move_is_tracked _ pm event [] Hread (or_intror eq_refl))
    as (_ & Hheld & _ & Hsize & _).
  split; [reflexivity |].
  split; [exact Hheld | exact Hsize].
Defined.

(** X8.  An interrupt (blur, contextmenu) in a manager whose handlers only
    read the map: every handler is called once, in order, with one event of
    type [pointercancel] that carries [forceReset] and has no target, and
    with a map in which every tracked pointer is still present, retyped to
    [pointercancel] and otherwise as it was.  With pointers in the map the
    event takes its pointer id, client position and pointer type from the
    first of them.  Afterwards the map is empty and the handlers are the
    same. *)
Theorem interrupt_cancels_every_pointer_then_clears :
  forall (W : Type) (pm : PointerManager.t W) (now : number) (w : W),
    Forall PointerManager.readsOnly (PointerManager.gestureHandlers pm) ->
    let after := PointerManager.handleInterruptEvents pm now w in
    exists (cancelEvent : PointerEvent) (seen : PointerMap.t),
      snd after = fold_left (fun acc handler => snd (handler seen cancelEvent acc))
                            (PointerManager.gestureHandlers pm) w
      /\ ev_type cancelEvent = pointercancel
      /\ ev_forceReset cancelEvent = true
      /\ ev_target cancelEvent = None
      /\ ev_timeStamp cancelEvent = now
      /\ List.map fst seen = List.map fst (PointerManager.pointers pm)
      /\ (forall q, PointerMap.get seen q
                    = option_map PointerManager.asCancelled
                        (PointerMap.get (PointerManager.pointers pm) q))
      /\ Forall (fun pointer => type pointer = pointercancel) (PointerMap.values seen)
      /\ (forall firstPointer rest,
            PointerMap.values (PointerManager.pointers pm) = firstPointer :: rest ->
            ev_pointerId cancelEvent = pointerId firstPointer
            /\ ev_clientX cancelEvent = clientX firstPointer
            /\ ev_clientY cancelEvent = clientY firstPointer
            /\ ev_pointerType cancelEvent = pointerType firstPointer)
      /\ PointerManager.pointers (fst after) = PointerMap.empty
      /\ PointerManager.gestureHandlers (fst after) = PointerManager.gestureHandlers pm.
Proof.
  intros W pm now w Hread after. subst after.
  rewrite (handleInterruptEvents_readers pm now w Hread). cbv zeta.
  eexists. eexists. split; [reflexivity |]. simpl.
  split; [now destruct (PointerMap.values (PointerManager.pointers pm)) |].
  split; [now destruct (PointerMap.values (PointerManager.pointers pm)) |].
  split; [now destruct (PointerMap.values (PointerManager.pointers pm)) |].
  split; [now destruct (PointerMap.values (PointerManager.pointers pm)) |].
  split; [rewrite List.map_map; reflexivity |].
  split.
  { intros q. induction (PointerManager.pointers pm) as [| [k v] rest IH]; simpl;
      [reflexivity |].
    destruct (q =? k)%Z; [reflexivity | exact IH]. }
  split.
  { unfold PointerMap.values. rewrite List.map_map. apply Forall_map.
    apply Forall_forall. intros kv _. reflexivity. }
  split; [| split; reflexivity].
  intros firstPointer rest Hfirst. rewrite Hfirst. repeat split.
Qed.

Lemma interrupt_cancels_every_pointer_then_clears_witness :
  let pm := {| PointerManager.pointers :=
                 [(1%Z, PointerManager.createPointerData (Demo.touch pointerdown 1 5 1%nat 0));
                  (2%Z, PointerManager.createPointerData (Demo.touch pointermove 2 9 1%nat 1))];
               PointerManager.gestureHandlers := [recorder 0; recorder 1] |} in
  let after := PointerManager.handleInterruptEvents pm 7 [] in
  List.map (fun call => (fst (fst call), ev_pointerId (snd call), ev_forceReset (snd call),
                         List.map type (PointerMap.values (snd (fst call)))))
           (snd after)
  = [(0%nat, 1%Z, true, [pointercancel; pointercancel]);
     (1%nat, 1%Z, true, [pointercancel; pointercancel])]
  /\ exists (cancelEvent : PointerEvent) (seen : PointerMap.t),
       snd after = fold_left (fun acc handler => snd (handler seen cancelEvent acc))
                             (PointerManager.gestureHandlers pm) []
       /\ ev_forceReset cancelEvent = true
       /\ PointerManager.pointers (fst after) = PointerMap.empty.
Proof.
  intros pm after.
  split; [reflexivity |].
  assert (Hread : Forall PointerManager.readsOnly (PointerManager.gestureHandlers pm))
    by (repeat constructor).
  destruct (interrupt_cancels_every_pointer_then_clears _ pm 7 [] Hread)
    as (cancelEvent & seen & Hcalls & _ & Hforce & _ & _ & _ & _ & _ & _ & Hempty & _).
  exists cancelEvent, seen. repeat split; assumption.
Defined.

(** X9.  Whatever the registered handlers do to the map they are handed,
    the manager does not keep a pointer past its end: after a [pointerup]
    or [pointercancel] the pointer of the event is not in the map, and
    after an interrupt the map is empty. *)
Theorem manager_forgets_whatever_the_handlers_do :
  forall (W : Type) (pm : PointerManager.t W) (w : W),
    (forall event,
        ev_type event = pointerup \/ ev_type event = pointercancel ->
        PointerMap.get
          (PointerManager.pointers (fst (PointerManager.handlePointerEvent pm event w)))
          (ev_pointerId event) = None)
    /\ (forall now,
          PointerManager.pointers (fst (PointerManager.handleInterruptEvents pm now w))
          = PointerMap.empty).
Proof.
  intros W pm w. split.
  - intros event Htype. unfold PointerManager.handlePointerEvent.
    destruct Htype as [-> | ->];
      destruct (PointerManager.notifyHandlers _ event w) as [pm2 w1]; simpl;
      apply PointerMap_get_delete_eq.
  - intros now. unfold PointerManager.handleInterruptEvents.
    destruct (PointerMap.values (PointerManager.pointers pm));
      destruct (PointerManager.notifyHandlers _ _ w); reflexivity.
Qed.

(** ** The singleton *)

(** X10.  [getInstance] before any call with options throws and creates
    nothing; the first call with options creates the instance from them;
    every later call returns that same instance, and the options it is
    given are ignored. *)
Theorem first_options_make_the_instance :
  forall (W : Type) (documentElement : Node) (n : nat)
         (first : PointerManagerStatic.PointerManagerOptions)
         (later : list (option PointerManagerStatic.PointerManagerOptions)),
    let made := PointerManagerStatic.construct (W := W) documentElement first in
    PointerManagerStatic.getInstances (W := W) documentElement None (repeat None n)
    = (None,
       repeat (PointerManagerStatic.Thrown
                 "PointerManager must be initialized with options first time") n)
    /\ PointerManagerStatic.getInstances (W := W) documentElement None
         (repeat None n ++ Some first :: later)
       = (Some made,
          repeat (PointerManagerStatic.Thrown
                    "PointerManager must be initialized with options first time") n
          ++ repeat (PointerManagerStatic.Returned made) (S (length later))).
Proof.
  intros W documentElement n first later made.
  unfold PointerManagerStatic.getInstances.
  assert (Hthrown : forall k (out : list (PointerManagerStatic.Outcome W)),
            fold_left (fun st options =>
                         let '(static1, outcome) :=
                           PointerManagerStatic.getInstance documentElement (fst st) options in
                         (static1, snd st ++ [outcome]))
                      (repeat None k) (None, out)
            = (None, out ++ repeat (PointerManagerStatic.Thrown
                 "PointerManager must be initialized with options first time") k)).
  { induction k as [| k IH]; intros out; simpl; [now rewrite app_nil_r |].
    rewrite IH, <- app_assoc. reflexivity. }
  assert (Hreturned : forall (calls : list (option PointerManagerStatic.PointerManagerOptions))
                             (instance : PointerManagerStatic.ManagerInstance W)
                             (out : list (PointerManagerStatic.Outcome W)),
            fold_left (fun st options =>
                         let '(static1, outcome) :=
                           PointerManagerStatic.getInstance documentElement (fst st) options in
                         (static1, snd st ++ [outcome]))
                      calls (Some instance, out)
            = (Some instance,
               out ++ repeat (PointerManagerStatic.Returned instance) (length calls))).
  { induction calls as [| call calls IH]; intros instance out; simpl;
      [now rewrite app_nil_r |].
    rewrite IH, <- app_assoc. reflexivity. }
  split.
  - apply (Hthrown n []).
  - rewrite fold_left_app, (Hthrown n []). simpl.
    rewrite Hreturned, <- app_assoc. reflexivity.
Qed.

(** ** Histories of a pinch *)

Lemma phaseOrder_app (active : bool) (first rest : list GesturePhase) :
  phaseOrder active (first ++ rest)
  = match phaseOrder active first with
    | Some between => phaseOrder between rest
    | None => None
    end.
Proof.
  revert active. induction first as [| phase first IH]; intros active; simpl; [reflexivity |].
  destruct phase, active; auto.
Qed.

Section PinchHistories.

Context {dom : Dom} {spread : Spread}.

#[local] Open Scope Q_scope.

(** The five things one call of [handlePointerEvent] can do: nothing; start
    an idle pinch; report a move of an active one; close an active one;
    take a new start distance. *)
Lemma pinch_step_cases (g : PinchGesture.t) (reg : ActiveGesturesRegistry.t)
  (pointers : PointerMap.t) (event : PointerEvent) :
  let s := PinchGesture.state g in
  let e := PinchGesture.element g in
  let result := PinchGesture.handlePointerEvent g reg pointers event in
  result = (g, reg, [])
  \/ (PinchGesture.isActive g reg = false
      /\ exists s1 shown,
           let g1 := PinchGesture.withState g s1 in
           let reg1 := ActiveGesturesRegistry.registerActiveGesture reg e (PinchGesture.ref g) in
           result = (g1, reg1, [PinchGesture.emitPinchEvent g1 reg1 e start shown event])
           /\ PinchGesture.lastScale s1 = PinchGesture.lastScale s
           /\ PinchGesture.totalScale s1 = PinchGesture.totalScale s)
  \/ (PinchGesture.isActive g reg = true
      /\ truthy (PinchGesture.startDistance s) = true
      /\ ev_type event = pointermove
      /\ exists s1,
           let g1 := PinchGesture.withState g s1 in
           let shown := PinchGesture.relevantTo e (PointerMap.values pointers) in
           result = (g1, reg, [PinchGesture.emitPinchEvent g1 reg e ongoing shown event])
           /\ PinchGesture.lastScale s1
              = calculateAverageDistance shown / PinchGesture.startDistance s
           /\ PinchGesture.totalScale s1
              = PinchGesture.totalScale s
                * (PinchGesture.lastScale s1 / PinchGesture.lastScale s))
  \/ (PinchGesture.isActive g reg = true
      /\ exists phase shown,
           result = (fst (PinchGesture.resetState g reg), snd (PinchGesture.resetState g reg),
                     [PinchGesture.emitPinchEvent g reg e phase shown event])
           /\ closes phase = true)
  \/ (PinchGesture.isActive g reg = true
      /\ exists s1,
           result = (PinchGesture.withState g s1, reg, [])
           /\ PinchGesture.lastScale s1 = PinchGesture.lastScale s
           /\ PinchGesture.totalScale s1 = PinchGesture.totalScale s).
Proof.
  cbv zeta.
  unfold PinchGesture.handlePointerEvent, Gesture.getTargetElement.
  destruct (isOrContains (PinchGesture.element g) (ev_target event)); [| now left].
  destruct (Gesture.shouldPreventGesture _ _ _).
  { destruct (PinchGesture.isActive g reg) eqn:Hactive; [| now left].
    right. right. right. left. split; [reflexivity |].
    exists cancel, (PointerMap.values pointers). split; reflexivity. }
  cbv zeta.
  destruct (ev_type event) eqn:Htype.
  - unfold PinchGesture.onPointerDown.
    destruct (2 <=? _)%nat; [| now left].
    destruct (PinchGesture.isActive g reg) eqn:Hactive; [now left |].
    right. left. split; [reflexivity |].
    eexists. eexists. split; [reflexivity |]. split; reflexivity.
  - unfold PinchGesture.onPointerMove.
    destruct (PinchGesture.isActive g reg) eqn:Hactive; [| now left].
    destruct (truthy (PinchGesture.startDistance (PinchGesture.state g))) eqn:Hstart;
      [| now left].
    destruct (_ <=? _)%nat; [| now left].
    right. right. left. repeat (split; [reflexivity |]).
    eexists. split; [reflexivity |]. split; reflexivity.
  - unfold PinchGesture.onPointerEnd. rewrite Htype.
    destruct (PinchGesture.isActive g reg) eqn:Hactive; [| now left].
    destruct (_ <? _)%nat.
    + right. right. right. left. split; [reflexivity |].
      exists end_. eexists. split; reflexivity.
    + destruct (2 <=? _)%nat; [| now left].
      right. right. right. right. split; [reflexivity |].
      eexists. split; [reflexivity |]. split; reflexivity.
  - unfold PinchGesture.onPointerEnd. rewrite Htype.
    destruct (PinchGesture.isActive g reg) eqn:Hactive; [| now left].
    destruct (_ <? _)%nat.
    + right. right. right. left. split; [reflexivity |].
      exists cancel. eexists. split; reflexivity.
    + destruct (2 <=? _)%nat; [| now left].
      right. right. right. right. split; [reflexivity |].
      eexists. split; [reflexivity |]. split; reflexivity.
Qed.

(** A history is its first call followed by the history of what that call
    left. *)
Lemma pinchCalls_cons (g : PinchGesture.t) (reg : ActiveGesturesRegistry.t)
  (call : PointerMap.t * PointerEvent) (calls : list (PointerMap.t * PointerEvent)) :
  let first := PinchGesture.handlePointerEvent g reg (fst call) (snd call) in
  let rest := pinchCalls (fst (fst first), snd (fst first), []) calls in
  pinchCalls (g, reg, []) (call :: calls)
  = (fst (fst rest), snd (fst rest), snd first ++ snd rest).
Proof.
  cbv zeta. unfold pinchCalls. simpl.
  destruct (PinchGesture.handlePointerEvent g reg (fst call) (snd call)) as [[g1 reg1] out1].
  simpl.
  assert (Hacc : forall calls g reg (acc : list (CustomEvent PinchGestureEventData)),
            fold_left (fun st call =>
                         let '(g, reg, out) := st in
                         let '(g1, reg1, out1) :=
                           PinchGesture.handlePointerEvent g reg (fst call) (snd call) in
                         (g1, reg1, out ++ out1)) calls (g, reg, acc)
            = let rest :=
                fold_left (fun st call =>
                             let '(g, reg, out) := st in
                             let '(g1, reg1, out1) :=
                               PinchGesture.handlePointerEvent g reg (fst call) (snd call) in
                             (g1, reg1, out ++ out1)) calls (g, reg, []) in
              (fst (fst rest), snd (fst rest), acc ++ snd rest)).
  { clear. induction calls as [| call calls IH]; intros g reg acc; simpl.
    - now rewrite app_nil_r.
    - destruct (PinchGesture.handlePointerEvent g reg (fst call) (snd call))
        as [[g1 reg1] out1].
      rewrite (IH g1 reg1 (acc ++ out1)), (IH g1 reg1 out1). cbv zeta. simpl.
      now rewrite app_assoc. }
  apply Hacc.
Qed.

(** X11.  Whatever maps and events a pinch instance is called with, the
    events it dispatches come in order: [start] only while it is not
    active, [ongoing], [end] and [cancel] only while it is, and it is
    registered as active afterwards exactly when the last of them did not
    close it.  Every event is dispatched on the instance's element under
    the name made from the instance's name and the phase, and the instance
    keeps its identity and its options. *)
Theorem pinch_phases_come_in_order :
  forall (calls : list (PointerMap.t * PointerEvent))
         (g : PinchGesture.t) (reg : ActiveGesturesRegistry.t),
    let after := pinchCalls (g, reg, []) calls in
    let g1 := fst (fst after) in
    let reg1 := snd (fst after) in
    phaseOrder (PinchGesture.isActive g reg)
               (List.map (fun dispatched => pinch_phase (ce_detail dispatched)) (snd after))
    = Some (PinchGesture.isActive g1 reg1)
    /\ Forall (fun dispatched =>
                 ce_element dispatched = PinchGesture.element g
                 /\ ce_name dispatched
                    = Utils.createEventName (PinchGesture.name g)
                        (pinch_phase (ce_detail dispatched)))
              (snd after)
    /\ g1 = PinchGesture.withState g (PinchGesture.state g1).
Proof.
  induction calls as [| call calls IH]; intros g reg.
  - simpl. repeat split; [constructor | now destruct g].
  - cbv zeta. rewrite pinchCalls_cons. cbv zeta.
    pose proof (pinch_step_cases g reg (fst call) (snd call)) as Hstep. cbv zeta in Hstep.
    destruct (PinchGesture.handlePointerEvent g reg (fst call) (snd call))
      as [[g1 reg1] out1] eqn:Hfirst.
    cbn [fst snd] in *.
    specialize (IH g1 reg1). cbv zeta in IH.
    destruct (pinchCalls (g1, reg1, []) calls) as [[g2 reg2] out2].
    cbn [fst snd] in *. destruct IH as (Horder & Hnames & Hsame).
    assert (Hone : phaseOrder (PinchGesture.isActive g reg)
                     (List.map (fun dispatched => pinch_phase (ce_detail dispatched)) out1)
                   = Some (PinchGesture.isActive g1 reg1)
                   /\ Forall (fun dispatched =>
                                ce_element dispatched = PinchGesture.element g
                                /\ ce_name dispatched
                                   = Utils.createEventName (PinchGesture.name g)
                                       (pinch_phase (ce_detail dispatched))) out1
                   /\ g1 = PinchGesture.withState g (PinchGesture.state g1)).
    { destruct Hstep as [Hsame0 | [(Hidle & s1 & shown & Hstart & _)
                        | [(Hactive & _ & _ & s1 & Hmove & _)
                        | [(Hactive & phase & shown & Hclose & Hphase)
                        | (Hactive & s1 & Hrebase & _)]]]].
      - injection Hsame0 as -> -> ->. simpl. repeat split; [constructor | now destruct g].
      - injection Hstart as -> -> ->. rewrite Hidle. simpl.
        unfold PinchGesture.isActive. simpl.
        rewrite isGestureActive_register. repeat split. repeat constructor.
      - injection Hmove as -> -> ->. rewrite Hactive. simpl.
        rewrite pinch_withState_isActive, Hactive. repeat split. repeat constructor.
      - injection Hclose as -> -> ->. rewrite Hactive. simpl.
        unfold PinchGesture.isActive, PinchGesture.setActive. simpl.
        rewrite isGestureActive_unregister.
        split; [now destruct phase |]. split; [| reflexivity]. repeat constructor.
      - injection Hrebase as -> -> ->. rewrite Hactive. simpl.
        rewrite pinch_withState_isActive, Hactive. repeat split. constructor. }
    destruct Hone as (Horder1 & Hnames1 & Hsame1).
    assert (Hconfig : PinchGesture.element g1 = PinchGesture.element g
                      /\ PinchGesture.name g1 = PinchGesture.name g)
      by (rewrite Hsame1; split; reflexivity).
    destruct Hconfig as (Hel & Hname).
    split; [| split].
    + rewrite List.map_app, phaseOrder_app, Horder1. exact Horder.
    + apply Forall_app. split; [exact Hnames1 |].
      rewrite Hel, Hname in Hnames. exact Hnames.
    + rewrite Hsame. rewrite Hsame1 at 1. reflexivity.
Qed.

(** A property that every call keeps holds for the whole history. *)
Lemma pinchCalls_invariant (allowed : PointerMap.t * PointerEvent -> Prop)
  (kept : PinchGesture.t -> ActiveGesturesRegistry.t
          -> list (CustomEvent PinchGestureEventData) -> Prop) :
  (forall g reg out call,
      allowed call -> kept g reg out ->
      let result := PinchGesture.handlePointerEvent g reg (fst call) (snd call) in
      kept (fst (fst result)) (snd (fst result)) (out ++ snd result)) ->
  forall calls g reg out,
    Forall allowed calls -> kept g reg out ->
    let after := pinchCalls (g, reg, out) calls in
    kept (fst (fst after)) (snd (fst after)) (snd after).
Proof.
  intros Hstep. induction calls as [| call calls IH]; intros g reg out Hcalls Hkept.
  - exact Hkept.
  - inversion Hcalls as [| ? ? Hcall Hrest]; subst.
    specialize (Hstep g reg out call Hcall Hkept). cbv zeta in Hstep.
    cbv zeta. unfold pinchCalls. simpl.
    destruct (PinchGesture.handlePointerEvent g reg (fst call) (snd call))
      as [[g1 reg1] out1].
    exact (IH g1 reg1 (out ++ out1) Hrest Hstep).
Qed.

Lemma Forall_always {A : Type} (l : list A) : Forall (fun _ => True) l.
Proof. induction l; constructor; auto. Qed.

(** What one call does to the registry: nothing, or it registers the
    instance, which was not active, or it unregisters it. *)
Lemma pinch_step_registry (g : PinchGesture.t) (reg : ActiveGesturesRegistry.t)
  (pointers : PointerMap.t) (event : PointerEvent) :
  let result := PinchGesture.handlePointerEvent g reg pointers event in
  let own := PinchGesture.ref g in
  let e := PinchGesture.element g in
  fst (fst result) = PinchGesture.withState g (PinchGesture.state (fst (fst result)))
  /\ ((snd (fst result) = reg
       /\ PinchGesture.isActive (fst (fst result)) (snd (fst result))
          = PinchGesture.isActive g reg)
      \/ (PinchGesture.isActive g reg = false
          /\ snd (fst result) = ActiveGesturesRegistry.registerActiveGesture reg e own)
      \/ snd (fst result) = ActiveGesturesRegistry.unregisterActiveGesture reg e own).
Proof.
  cbv zeta.
  destruct (pinch_step_cases g reg pointers event)
    as [Hsame | [(Hidle & s1 & shown & Hstart & _)
       | [(Hactive & _ & _ & s1 & Hmove & _)
       | [(Hactive & phase & shown & Hclose & Hphase)
       | (Hactive & s1 & Hrebase & _)]]]].
  - rewrite Hsame. simpl. split; [now destruct g | left; split; reflexivity].
  - rewrite Hstart. simpl. split; [reflexivity | right; left; split; [exact Hidle | reflexivity]].
  - rewrite Hmove. simpl. split; [reflexivity | left; split; reflexivity].
  - rewrite Hclose. simpl. split; [reflexivity | right; right; reflexivity].
  - rewrite Hrebase. simpl. split; [reflexivity | left; split; reflexivity].
Qed.

(** X12.  Whatever a pinch instance is called with, it changes the
    registry's entries of no other gesture instance and of no other
    element. *)
Theorem pinch_leaves_other_records :
  forall (calls : list (PointerMap.t * PointerEvent))
         (g : PinchGesture.t) (reg : ActiveGesturesRegistry.t)
         (element : Node) (other : GestureRef),
    ref_id other <> PinchGesture.ident g \/ element <> PinchGesture.element g ->
    let after := pinchCalls (g, reg, []) calls in
    entriesOf (snd (fst after)) element other = entriesOf reg element other
    /\ ActiveGesturesRegistry.isGestureActive (snd (fst after)) element other
       = ActiveGesturesRegistry.isGestureActive reg element other.
Proof.
  intros calls g reg element other Hother after.
  assert (Hkept : fst (fst after) = PinchGesture.withState g (PinchGesture.state (fst (fst after)))
                  /\ entriesOf (snd (fst after)) element other = entriesOf reg element other).
  { subst after.
    apply (pinchCalls_invariant (fun _ => True)
             (fun g1 reg1 _ =>
                g1 = PinchGesture.withState g (PinchGesture.state g1)
                /\ entriesOf reg1 element other = entriesOf reg element other)).
    - intros g1 reg1 out call _ (Hsame & Hentries). cbv zeta.
      destruct (pinch_step_registry g1 reg1 (fst call) (snd call)) as (Hsame1 & Hreg).
      split; [rewrite Hsame1; rewrite Hsame at 1; reflexivity |].
      assert (Hown : ref_id other <> ref_id (PinchGesture.ref g1)
                     \/ element <> PinchGesture.element g1)
        by (rewrite Hsame; exact Hother).
      destruct Hreg as [(-> & _) | [(_ & ->) | ->]].
      + exact Hentries.
      + now rewrite entriesOf_register_other.
      + now rewrite entriesOf_unregister_other.
    - apply Forall_always.
    - split; [now destruct g | reflexivity]. }
  destruct Hkept as (_ & Hentries).
  split; [exact Hentries |].
  now rewrite !isGestureActive_entriesOf, Hentries.
Qed.

(** X13.  A pinch instance that has at most one entry in the registry
    keeps at most one, whatever it is called with: afterwards it has one
    entry when it is active and none when it is not. *)
Theorem pinch_registers_itself_once :
  forall (calls : list (PointerMap.t * PointerEvent))
         (g : PinchGesture.t) (reg : ActiveGesturesRegistry.t),
    (length (entriesOf reg (PinchGesture.element g) (PinchGesture.ref g)) <= 1)%nat ->
    let after := pinchCalls (g, reg, []) calls in
    let g1 := fst (fst after) in
    let reg1 := snd (fst after) in
    length (entriesOf reg1 (PinchGesture.element g) (PinchGesture.ref g))
    = (if PinchGesture.isActive g1 reg1 then 1 else 0)%nat.
Proof.
  intros calls g reg Hone after g1 reg1.
  assert (Hcount : forall (h : PinchGesture.t) (r : ActiveGesturesRegistry.t),
            (length (entriesOf r (PinchGesture.element h) (PinchGesture.ref h)) <= 1)%nat ->
            length (entriesOf r (PinchGesture.element h) (PinchGesture.ref h))
            = (if PinchGesture.isActive h r then 1 else 0)%nat).
  { intros h r Hle. unfold PinchGesture.isActive. rewrite isGestureActive_entriesOf.
    destruct (length (entriesOf r (PinchGesture.element h) (PinchGesture.ref h)))
      as [| [| n]]; simpl; [reflexivity | reflexivity | lia]. }
  assert (Hkept : g1 = PinchGesture.withState g (PinchGesture.state g1)
                  /\ (length (entriesOf reg1 (PinchGesture.element g) (PinchGesture.ref g))
                      <= 1)%nat).
  { subst g1 reg1 after.
    apply (pinchCalls_invariant (fun _ => True)
             (fun h r _ =>
                h = PinchGesture.withState g (PinchGesture.state h)
                /\ (length (entriesOf r (PinchGesture.element g) (PinchGesture.ref g))
                    <= 1)%nat)).
    - intros h r out call _ (Hsame & Hle). cbv zeta.
      destruct (pinch_step_registry h r (fst call) (snd call)) as (Hsame1 & Hreg).
      split; [rewrite Hsame1; rewrite Hsame at 1; reflexivity |].
      assert (Hel : PinchGesture.element h = PinchGesture.element g)
        by (rewrite Hsame; reflexivity).
      assert (Href : PinchGesture.ref h = PinchGesture.ref g)
        by (rewrite Hsame; reflexivity).
      rewrite Hel, Href in Hreg.
      destruct Hreg as [(-> & _) | [(Hidle & ->) | ->]].
      + exact Hle.
      + rewrite entriesOf_register_same, length_app. simpl.
        unfold PinchGesture.isActive in Hidle.
        rewrite Hel, Href, isGestureActive_entriesOf in Hidle.
        destruct (length (entriesOf r (PinchGesture.element g) (PinchGesture.ref g)));
          [simpl; lia | discriminate].
      + rewrite entriesOf_unregister_same. simpl. lia.
    - apply Forall_always.
    - split; [now destruct g | exact Hone]. }
  destruct Hkept as (Hsame & Hle).
  assert (Hel : PinchGesture.element g1 = PinchGesture.element g)
    by (rewrite Hsame; reflexivity).
  assert (Href : PinchGesture.ref g1 = PinchGesture.ref g)
    by (rewrite Hsame; reflexivity).
  rewrite <- Hel, <- Href in *. now apply Hcount.
Qed.

(** X14.  While a gesture named in [preventIf] is active on the element, a
    pinch that is not active stays as it is through any calls: it
    dispatches nothing and does not register itself. *)
Theorem prevented_pinch_never_starts :
  forall (calls : list (PointerMap.t * PointerEvent))
         (g : PinchGesture.t) (reg : ActiveGesturesRegistry.t),
    Gesture.shouldPreventGesture (PinchGesture.preventIf g) reg (PinchGesture.element g) = true ->
    PinchGesture.isActive g reg = false ->
    pinchCalls (g, reg, []) calls = (g, reg, []).
Proof.
  intros calls g reg Hprevented Hidle.
  induction calls as [| call calls IH]; [reflexivity |].
  unfold pinchCalls in *. simpl.
  rewrite (pinch_suppressed_stays_inactive g reg (fst call) (snd call) Hprevented Hidle).
  exact IH.
Qed.

(** The arithmetic of the accumulated scale. *)
Lemma product_opened (total finished last : Q) :
  total == finished * last -> total == finished * 1 * last.
Proof. intros ->. ring. Qed.

Lemma product_moved (total finished last scale : Q) :
  ~ last == 0 -> total == finished * last -> total * (scale / last) == finished * scale.
Proof. intros Hlast ->. field. exact Hlast. Qed.

Lemma product_closed (total finished last : Q) :
  total == finished * last -> total == finished * (last * 1) * 1.
Proof. intros ->. ring. Qed.

Lemma finishedScales_app (first rest : list (CustomEvent PinchGestureEventData)) :
  finishedScales (first ++ rest) == finishedScales first * finishedScales rest.
Proof.
  induction first as [| dispatched first IH]; simpl.
  - symmetry. apply Qmult_1_l.
  - destruct (closes _); [| exact IH].
    rewrite IH. apply Qmult_assoc.
Qed.

Lemma split_at_last {A : Type} (out before later : list A) (last dispatched : A) :
  out ++ [last] = before ++ dispatched :: later ->
  (before = out /\ dispatched = last /\ later = [])
  \/ exists middle, later = middle ++ [last] /\ out = before ++ dispatched :: middle.
Proof.
  destruct later as [| a later _] using rev_ind; intros Hsplit.
  - apply app_inj_tail in Hsplit as [-> ->]. now left.
  - rewrite app_comm_cons, app_assoc in Hsplit.
    apply app_inj_tail in Hsplit as [-> ->]. right. now exists later.
Qed.

(** X15.  A pinch instance whose last scale and total scale are 1, as in
    a new instance, is called with any maps and events such that the
    spread measured at every [pointermove] is not zero.  Then every event
    it dispatches carries as [totalScale] the product of the [scale] of
    the events that closed the pinches before it and of its own [scale];
    and the state's total scale is that product for all closing events
    so far and the last scale. *)
Theorem pinch_total_is_the_product_of_scales :
  forall (calls : list (PointerMap.t * PointerEvent))
         (g : PinchGesture.t) (reg : ActiveGesturesRegistry.t),
    PinchGesture.lastScale (PinchGesture.state g) == 1 ->
    PinchGesture.totalScale (PinchGesture.state g) == 1 ->
    Forall (fun call =>
              ev_type (snd call) = pointermove ->
              ~ calculateAverageDistance
                  (PinchGesture.relevantTo (PinchGesture.element g)
                     (PointerMap.values (fst call))) == 0)
           calls ->
    let after := pinchCalls (g, reg, []) calls in
    let s1 := PinchGesture.state (fst (fst after)) in
    PinchGesture.totalScale s1 == finishedScales (snd after) * PinchGesture.lastScale s1
    /\ forall before dispatched later,
         snd after = before ++ dispatched :: later ->
         pinch_totalScale (ce_detail dispatched)
         == finishedScales before * pinch_scale (ce_detail dispatched).
Proof.
  intros calls g reg Hlast Htotal Hcalls after s1.
  assert (Hkept :
    fst (fst after) = PinchGesture.withState g s1
    /\ ~ PinchGesture.lastScale s1 == 0
    /\ PinchGesture.totalScale s1 == finishedScales (snd after) * PinchGesture.lastScale s1
    /\ forall before dispatched later,
         snd after = before ++ dispatched :: later ->
         pinch_totalScale (ce_detail dispatched)
         == finishedScales before * pinch_scale (ce_detail dispatched)).
  { subst s1 after.
    apply (pinchCalls_invariant
             (fun call =>
                ev_type (snd call) = pointermove ->
                ~ calculateAverageDistance
                    (PinchGesture.relevantTo (PinchGesture.element g)
                       (PointerMap.values (fst call))) == 0)
             (fun h r out =>
                h = PinchGesture.withState g (PinchGesture.state h)
                /\ ~ PinchGesture.lastScale (PinchGesture.state h) == 0
                /\ PinchGesture.totalScale (PinchGesture.state h)
                   == finishedScales out * PinchGesture.lastScale (PinchGesture.state h)
                /\ forall before dispatched later,
                     out = before ++ dispatched :: later ->
                     pinch_totalScale (ce_detail dispatched)
                     == finishedScales before * pinch_scale (ce_detail dispatched)));
      [| exact Hcalls |].
    - intros h r out call Hcall (Hsame & Hnonzero & Hproduct & Hevents). cbv zeta.
      assert (Hel : PinchGesture.element h = PinchGesture.element g)
        by (rewrite Hsame; reflexivity).
      assert (Hconfig : forall s, PinchGesture.withState h s = PinchGesture.withState g s)
        by (intros s; rewrite Hsame; reflexivity).
      destruct (pinch_step_cases h r (fst call) (snd call))
        as [Hstep | [(Hidle & s2 & shown & Hstep & Hl & Ht)
           | [(Hactive & Hstart & Htype & s2 & Hstep & Hl & Ht)
           | [(Hactive & phase & shown & Hstep & Hphase)
           | (Hactive & s2 & Hstep & Hl & Ht)]]]];
        rewrite Hstep; cbn [fst snd].
      + rewrite app_nil_r. repeat split; assumption.
      + cbn [PinchGesture.state PinchGesture.withState].
        split; [apply Hconfig |].
        split; [rewrite Hl; exact Hnonzero |].
        split.
        * rewrite Hl, Ht, finishedScales_app. simpl. now apply product_opened.
        * intros before dispatched later Hsplit.
          apply split_at_last in Hsplit as [(-> & -> & _) | (middle & _ & ->)];
            [| now apply (Hevents before dispatched middle)].
          simpl. rewrite Hl, Ht. exact Hproduct.
      + cbn [PinchGesture.state PinchGesture.withState].
        apply truthy_true_nonzero in Hstart.
        rewrite Hel in Hl. specialize (Hcall Htype).
        assert (Hscale : ~ PinchGesture.lastScale s2 == 0)
          by (rewrite Hl; now apply Qdiv_nonzero).
        assert (Hnew : PinchGesture.totalScale s2
                       == finishedScales out * PinchGesture.lastScale s2).
        { rewrite Ht. now apply product_moved. }
        split; [apply Hconfig |].
        split; [exact Hscale |].
        split.
        * rewrite finishedScales_app. simpl. now apply product_opened.
        * intros before dispatched later Hsplit.
          apply split_at_last in Hsplit as [(-> & -> & _) | (middle & _ & ->)];
            [| now apply (Hevents before dispatched middle)].
          simpl. exact Hnew.
      + unfold PinchGesture.resetState. cbn [fst snd PinchGesture.state PinchGesture.withState
                                               PinchGesture.lastScale PinchGesture.totalScale].
        split; [apply Hconfig |].
        split; [discriminate |].
        split.
        * rewrite finishedScales_app. simpl. rewrite Hphase. now apply product_closed.
        * intros before dispatched later Hsplit.
          apply split_at_last in Hsplit as [(-> & -> & _) | (middle & _ & ->)];
            [| now apply (Hevents before dispatched middle)].
          simpl. exact Hproduct.
      + rewrite app_nil_r. cbn [PinchGesture.state PinchGesture.withState].
        split; [apply Hconfig |].
        split; [rewrite Hl; exact Hnonzero |].
        split; [rewrite Hl, Ht; exact Hproduct | exact Hevents].
    - split; [now destruct g |].
      split; [rewrite Hlast; discriminate |].
      split; [simpl; rewrite Hlast, Htotal; reflexivity |].
      intros before dispatched later Hsplit. now destruct before. }
  destruct Hkept as (_ & _ & Hproduct & Hevents). split; assumption.
Qed.

(** X16.  A pinch instance that starts out not active lists its own name
    in the [activeGestures] of every event it dispatches, the [end] and
    the [cancel] included. *)
Theorem pinch_events_list_the_pinch :
  forall (calls : list (PointerMap.t * PointerEvent))
         (g : PinchGesture.t) (reg : ActiveGesturesRegistry.t),
    PinchGesture.isActive g reg = false ->
    let after := pinchCalls (g, reg, []) calls in
    Forall (fun dispatched =>
              Gesture.isListed (pinch_activeGestures (ce_detail dispatched))
                               (PinchGesture.name g) = true)
           (snd after).
Proof.
  intros calls g reg Hidle after.
  set (named := fun r : ActiveGesturesRegistry.t =>
         forall entry,
           In entry (default [] (r !! PinchGesture.element g)) ->
           ref_id (entry_gesture entry) = PinchGesture.ident g ->
           ref_name (entry_gesture entry) = PinchGesture.name g).
  assert (Hlisted : forall r,
            named r ->
            ActiveGesturesRegistry.isGestureActive r (PinchGesture.element g)
              (PinchGesture.ref g) = true ->
            Gesture.isListed
              (ActiveGesturesRegistry.getActiveGestures r (PinchGesture.element g))
              (PinchGesture.name g) = true).
  { intros r Hnamed Hactive. unfold Gesture.isListed. rewrite activeGestures_lookup.
    unfold ActiveGesturesRegistry.isGestureActive in Hactive.
    destruct (r !! PinchGesture.element g) as [entries |] eqn:Hlookup; [| discriminate].
    apply existsb_exists in Hactive as (entry & Hin & Hid).
    apply Nat.eqb_eq in Hid.
    assert (Hany : existsb (fun entry => String.eqb (ref_name (entry_gesture entry))
                                                    (PinchGesture.name g))
                           (default [] (Some entries)) = true).
    { apply existsb_exists. exists entry. split; [exact Hin |].
      apply String.eqb_eq. apply Hnamed; [rewrite Hlookup; exact Hin | exact Hid]. }
    now rewrite Hany. }
  assert (Hkept : fst (fst after) = PinchGesture.withState g (PinchGesture.state (fst (fst after)))
                  /\ named (snd (fst after))
                  /\ Forall (fun dispatched =>
                               Gesture.isListed (pinch_activeGestures (ce_detail dispatched))
                                                (PinchGesture.name g) = true)
                            (snd after)).
  { subst after.
    apply (pinchCalls_invariant (fun _ => True)
             (fun h r out =>
                h = PinchGesture.withState g (PinchGesture.state h)
                /\ named r
                /\ Forall (fun dispatched =>
                             Gesture.isListed (pinch_activeGestures (ce_detail dispatched))
                                              (PinchGesture.name g) = true) out));
      [| apply Forall_always |].
    - intros h r out call _ (Hsame & Hnamed & Hout). cbv zeta.
      assert (Hel : PinchGesture.element h = PinchGesture.element g)
        by (rewrite Hsame; reflexivity).
      assert (Href : PinchGesture.ref h = PinchGesture.ref g)
        by (rewrite Hsame; reflexivity).
      assert (Hconfig : forall s, PinchGesture.withState h s = PinchGesture.withState g s)
        by (intros s; rewrite Hsame; reflexivity).
      assert (Hregistered :
                named (ActiveGesturesRegistry.registerActiveGesture r (PinchGesture.element g)
                         (PinchGesture.ref g))).
      { intros entry Hin Hid. rewrite registry_lookup_register in Hin. simpl in Hin.
        apply in_app_or in Hin as [Hin | [<- | []]]; [now apply Hnamed | reflexivity]. }
      assert (Hunregistered :
                named (ActiveGesturesRegistry.unregisterActiveGesture r (PinchGesture.element g)
                         (PinchGesture.ref g))).
      { intros entry Hin Hid. rewrite registry_lookup_unregister in Hin.
        apply Hnamed; [| exact Hid].
        destruct (List.filter _ (default [] (r !! PinchGesture.element g)))
          as [| kept rest] eqn:Hfilter; [destruct Hin |].
        change (In entry (kept :: rest)) in Hin. rewrite <- Hfilter in Hin.
        now apply filter_In in Hin as [Hin _]. }
      destruct (pinch_step_cases h r (fst call) (snd call))
        as [Hstep | [(Hidle1 & s2 & shown & Hstep & _)
           | [(Hactive & _ & _ & s2 & Hstep & _)
           | [(Hactive & phase & shown & Hstep & _)
           | (Hactive & s2 & Hstep & _)]]]];
        rewrite Hstep; cbn [fst snd];
        unfold PinchGesture.isActive in *; rewrite ?Hel, ?Href in *.
      + rewrite app_nil_r. repeat split; assumption.
      + split; [apply Hconfig |]. split; [exact Hregistered |].
        apply Forall_app. split; [exact Hout |]. constructor; [| constructor].
        simpl. apply Hlisted; [exact Hregistered | apply isGestureActive_register].
      + split; [apply Hconfig |]. split; [exact Hnamed |].
        apply Forall_app. split; [exact Hout |]. constructor; [| constructor].
        simpl. now apply Hlisted.
      + unfold PinchGesture.resetState, PinchGesture.setActive. cbn [fst snd].
        rewrite ?Hel, ?Href.
        split; [apply Hconfig |]. split; [exact Hunregistered |].
        apply Forall_app. split; [exact Hout |]. constructor; [| constructor].
        simpl. now apply Hlisted.
      + rewrite app_nil_r. split; [apply Hconfig |]. split; assumption.
    - split; [now destruct g |]. split; [| constructor].
      intros entry Hin Hid. exfalso.
      unfold PinchGesture.isActive, ActiveGesturesRegistry.isGestureActive in Hidle.
      destruct (reg !! PinchGesture.element g) as [entries |]; [| destruct Hin].
      assert (Hany : existsb (fun entry => sameGesture (entry_gesture entry) (PinchGesture.ref g))
                             entries = true).
      { apply existsb_exists. exists entry. split; [exact Hin |]. now apply Nat.eqb_eq. }
      congruence. }
  destruct Hkept as (_ & _ & Hout). exact Hout.
Qed.

End PinchHistories.

(** ** Histories of a pan *)

Section PanHistories.

Context {dom : Dom}.

#[local] Open Scope Q_scope.

Lemma panSettled_idle (g : PanGesture.t) :
  PanGesture.active (PanGesture.state g) = false ->
  PanGesture.movementThresholdReached (PanGesture.state g) = false ->
  panSettled g.
Proof.
  intros Hidle Hreached. split; [now apply panCoherent_inactive | congruence].
Qed.

Lemma pan_withState_same (g : PanGesture.t) : g = PanGesture.withState g (PanGesture.state g).
Proof. now destruct g. Qed.

(** One call of [handlePointerEvent] on a settled pan leaves it settled,
    with its identity and its options, and does one of the four things. *)
Lemma pan_step_cases (g : PanGesture.t) (pointers : PointerMap.t) (event : PointerEvent) :
  panSettled g ->
  let result := PanGesture.handlePointerEvent g pointers event in
  panSettled (fst result)
  /\ fst result = PanGesture.withState g (PanGesture.state (fst result))
  /\ panStep g (fst result) (snd result).
Proof.
  intros Hsettled. cbv zeta.
  pose proof Hsettled as (Hcoherent & Hflags).
  assert (Hquiet : panSettled (fst (g, @nil (CustomEvent PanGestureEventData)))
                   /\ fst (g, @nil (CustomEvent PanGestureEventData))
                      = PanGesture.withState g
                          (PanGesture.state (fst (g, @nil (CustomEvent PanGestureEventData))))
                   /\ panStep g (fst (g, @nil (CustomEvent PanGestureEventData)))
                              (snd (g, @nil (CustomEvent PanGestureEventData)))).
  { cbn [fst snd]. split; [exact Hsettled |]. split; [apply pan_withState_same |].
    apply panQuiet; [reflexivity | intros _; reflexivity]. }
  unfold PanGesture.handlePointerEvent.
  destruct (PanGesture.element g) as [el |] eqn:Hel.
  2: { destruct (ev_forceReset event); unfold PanGesture.getTargetElement; rewrite Hel;
       exact Hquiet. }
  destruct (PanGesture.active (PanGesture.state g)) eqn:Hactive.
  - (* an active pan *)
    destruct (Hcoherent Hactive) as (Hstart & Hlast & _).
    destruct (PanGesture.startCentroid (PanGesture.state g)) as [start0 |] eqn:Hstart0;
      [| congruence].
    destruct (PanGesture.lastCentroid (PanGesture.state g)) as [last |] eqn:Hlast0;
      [| congruence].
    clear Hstart Hlast.
    assert (Hclosed : forall (phase : GesturePhase) (shown : list PointerData) (g1 : PanGesture.t),
              closes phase = true ->
              PanGesture.active (PanGesture.state g1) = false ->
              PanGesture.movementThresholdReached (PanGesture.state g1) = false ->
              g1 = PanGesture.withState g (PanGesture.state g1) ->
              let result := (g1, PanGesture.emitPanEvent g el phase shown event last) in
              panSettled (fst result)
              /\ fst result = PanGesture.withState g (PanGesture.state (fst result))
              /\ panStep g (fst result) (snd result)).
    { intros phase shown g1 Hphase Hidle1 Hreached1 Hsame1. cbv zeta. cbn [fst snd].
      split; [now apply panSettled_idle |]. split; [exact Hsame1 |].
      unfold PanGesture.emitPanEvent. rewrite Hstart0.
      now apply (panClosed g g1 start0 last el). }
    destruct (ev_forceReset event).
    { unfold PanGesture.onForceReset. rewrite Hactive, Hstart0, Hlast0.
      now apply (Hclosed cancel). }
    unfold PanGesture.getTargetElement. rewrite Hel. unfold Gesture.getTargetElement.
    destruct (isOrContains el (ev_target event)); [| exact Hquiet].
    cbv zeta.
    set (shown := PanGesture.relevantTo el (PointerMap.values pointers)).
    destruct ((length shown <? PanGesture.minPointers g)%nat) eqn:Hlow; simpl orb; cbv iota.
    { unfold PanGesture.cancelGesture. rewrite Hactive, Hstart0, Hlast0.
      now apply (Hclosed cancel). }
    destruct (PanGesture.exceeds (length shown) (PanGesture.maxPointers g)) eqn:Hhigh.
    { unfold PanGesture.cancelGesture. rewrite Hactive, Hstart0, Hlast0.
      now apply (Hclosed cancel). }
    apply Nat.ltb_ge in Hlow.
    assert (Hended :
      panSettled (fst (PanGesture.onPointerEnd g el shown event))
      /\ fst (PanGesture.onPointerEnd g el shown event)
         = PanGesture.withState g (PanGesture.state (fst (PanGesture.onPointerEnd g el shown event)))
      /\ panStep g (fst (PanGesture.onPointerEnd g el shown event))
                 (snd (PanGesture.onPointerEnd g el shown event))).
    { unfold PanGesture.onPointerEnd. rewrite Hactive, Hflags. simpl andb. cbv iota.
      destruct (length (List.filter PanGesture.stillPressed shown) =? 0)%nat.
      - rewrite Hlast0. now apply (Hclosed end_).
      - exact Hquiet. }
    destruct (ev_type event) eqn:Htype; try exact Hended.
    + unfold PanGesture.onPointerDown. rewrite Hactive. exact Hquiet.
    + unfold PanGesture.onPointerMove. rewrite Hstart0.
      assert (Hcount : (PanGesture.minPointers g <=? length shown)%nat = true)
        by now apply Nat.leb_le.
      rewrite Hcount, Hflags, Hactive. simpl negb. simpl andb. cbv iota.
      rewrite Hlast0. cbn [fst snd].
      split.
      { apply conj; [| reflexivity].
        intros _. simpl. rewrite Hel. repeat split; congruence. }
      split; [reflexivity |].
      unfold PanGesture.emitPanEvent. cbn [PanGesture.state PanGesture.withState
                                            PanGesture.startCentroid]. rewrite ?Hstart0.
      now apply (panMoved g _ start0 last (Utils.calculateCentroid shown) el).
  - (* a pan that is not active *)
    assert (Hsilent : forall g1 : PanGesture.t,
              PanGesture.active (PanGesture.state g1) = false ->
              PanGesture.movementThresholdReached (PanGesture.state g1) = false ->
              g1 = PanGesture.withState g (PanGesture.state g1) ->
              panSettled (fst (g1, @nil (CustomEvent PanGestureEventData)))
              /\ fst (g1, @nil (CustomEvent PanGestureEventData))
                 = PanGesture.withState g
                     (PanGesture.state (fst (g1, @nil (CustomEvent PanGestureEventData))))
              /\ panStep g (fst (g1, @nil (CustomEvent PanGestureEventData)))
                         (snd (g1, @nil (CustomEvent PanGestureEventData)))).
    { intros g1 Hidle1 Hreached1 Hsame1. cbn [fst snd].
      split; [now apply panSettled_idle |]. split; [exact Hsame1 |].
      apply panQuiet; [now rewrite Hactive | rewrite Hactive; discriminate]. }
    destruct (ev_forceReset event).
    { unfold PanGesture.onForceReset. rewrite Hactive. exact Hquiet. }
    unfold PanGesture.getTargetElement. rewrite Hel. unfold Gesture.getTargetElement.
    destruct (isOrContains el (ev_target event)); [| exact Hquiet].
    cbv zeta.
    set (shown := PanGesture.relevantTo el (PointerMap.values pointers)).
    destruct ((length shown <? PanGesture.minPointers g)%nat) eqn:Hlow; simpl orb; cbv iota;
      [exact Hquiet |].
    destruct (PanGesture.exceeds (length shown) (PanGesture.maxPointers g)) eqn:Hhigh;
      [exact Hquiet |].
    apply Nat.ltb_ge in Hlow.
    destruct (ev_type event) eqn:Htype.
    + unfold PanGesture.onPointerDown. rewrite Hactive.
      destruct (PanGesture.startCentroid (PanGesture.state g)); [exact Hquiet |].
      apply Hsilent; first [reflexivity | assumption].
    + unfold PanGesture.onPointerMove.
      destruct (PanGesture.startCentroid (PanGesture.state g)) as [start0 |] eqn:Hstart0;
        [| exact Hquiet].
      assert (Hcount : (PanGesture.minPointers g <=? length shown)%nat = true)
        by now apply Nat.leb_le.
      rewrite Hcount, Hflags, Hactive. simpl negb. cbv iota.
      set (c := Utils.calculateCentroid shown).
      destruct (normAtLeast (x c - x start0) (y c - y start0) (PanGesture.threshold g))
        eqn:Hfar; simpl andb; cbv iota;
        [| apply Hsilent; first [reflexivity | assumption]].
      destruct (Utils.isDirectionAllowed (Utils.getDirection start0 c) (PanGesture.direction g))
        eqn:Hallowed; cbv iota;
        [| apply Hsilent; first [reflexivity | assumption]].
      cbn [fst snd].
      split.
      { apply conj; [| reflexivity].
        intros _. simpl. rewrite Hel. repeat split; congruence. }
      split; [reflexivity |].
      unfold PanGesture.emitPanEvent. cbn [PanGesture.state PanGesture.withState
                                            PanGesture.startCentroid]. rewrite ?Hstart0.
      now apply (panStarted g _ start0 c el).
    + unfold PanGesture.onPointerEnd. rewrite Hactive. simpl andb. cbv iota.
      apply Hsilent; reflexivity.
    + unfold PanGesture.onPointerEnd. rewrite Hactive. simpl andb. cbv iota.
      apply Hsilent; reflexivity.
Qed.

(** A property that every call keeps holds for the whole history. *)
Lemma panCalls_invariant
  (kept : PanGesture.t -> list (CustomEvent PanGestureEventData) -> Prop) :
  (forall g out pointers event,
      kept g out ->
      let result := PanGesture.handlePointerEvent g pointers event in
      kept (fst result) (out ++ snd result)) ->
  forall calls g out,
    kept g out ->
    let after := panCalls (g, out) calls in
    kept (fst after) (snd after).
Proof.
  intros Hstep. induction calls as [| call calls IH]; intros g out Hkept.
  - exact Hkept.
  - specialize (Hstep g out (fst call) (snd call) Hkept). cbv zeta in Hstep.
    cbv zeta. unfold panCalls. simpl.
    destruct (PanGesture.handlePointerEvent g (fst call) (snd call)) as [g1 out1].
    exact (IH g1 (out ++ out1) Hstep).
Qed.

Lemma pan_reset_settled (g : PanGesture.t) : panSettled (PanGesture.resetState g).
Proof. now apply panSettled_idle. Qed.

(** X17.  A pan instance in its initial state is called with any maps and
    events.  The events it dispatches come in order: [start] only while it
    is not active, [ongoing], [end] and [cancel] only while it is; every
    time an active pan becomes inactive it dispatches exactly one [end] or
    [cancel]; and it is active afterwards exactly when the last event did
    not close it.  Every event is dispatched on the bound element under
    the name made from the instance's name and the phase, and the instance
    keeps its identity and its options. *)
Theorem pan_phases_come_in_order :
  forall (calls : list (PointerMap.t * PointerEvent)) (g : PanGesture.t),
    let after := panCalls (PanGesture.resetState g, []) calls in
    let g1 := fst after in
    phaseOrder false (List.map (fun dispatched => pan_phase (ce_detail dispatched)) (snd after))
    = Some (PanGesture.active (PanGesture.state g1))
    /\ Forall (fun dispatched =>
                 PanGesture.element g = Some (ce_element dispatched)
                 /\ ce_name dispatched
                    = Utils.createEventName (PanGesture.name g)
                        (pan_phase (ce_detail dispatched)))
              (snd after)
    /\ g1 = PanGesture.withState g (PanGesture.state g1).
Proof.
  intros calls g after g1.
  assert (Hkept :
    panSettled g1
    /\ g1 = PanGesture.withState g (PanGesture.state g1)
    /\ phaseOrder false (List.map (fun dispatched => pan_phase (ce_detail dispatched)) (snd after))
       = Some (PanGesture.active (PanGesture.state g1))
    /\ Forall (fun dispatched =>
                 PanGesture.element g = Some (ce_element dispatched)
                 /\ ce_name dispatched
                    = Utils.createEventName (PanGesture.name g)
                        (pan_phase (ce_detail dispatched)))
              (snd after)).
  { subst g1 after.
    apply (panCalls_invariant
             (fun h out =>
                panSettled h
                /\ h = PanGesture.withState g (PanGesture.state h)
                /\ phaseOrder false
                     (List.map (fun dispatched => pan_phase (ce_detail dispatched)) out)
                   = Some (PanGesture.active (PanGesture.state h))
                /\ Forall (fun dispatched =>
                             PanGesture.element g = Some (ce_element dispatched)
                             /\ ce_name dispatched
                                = Utils.createEventName (PanGesture.name g)
                                    (pan_phase (ce_detail dispatched)))
                          out)).
    - intros h out pointers event (Hsettled & Hsame & Horder & Hnames). cbv zeta.
      destruct (pan_step_cases h pointers event Hsettled) as (Hsettled1 & Hsame1 & Hstep).
      assert (Hel : PanGesture.element h = PanGesture.element g)
        by (rewrite Hsame; reflexivity).
      assert (Hname : PanGesture.name h = PanGesture.name g)
        by (rewrite Hsame; reflexivity).
      split; [exact Hsettled1 |].
      split; [rewrite Hsame1; rewrite Hsame at 1; reflexivity |].
      rewrite List.map_app, phaseOrder_app, Horder, Forall_app.
      inversion Hstep
        as [h1 Hactive Hkeep
           | h1 start0 c el dispatched Hidle Hactive1 Hbound Hon Hcalled Hphase
           | h1 start0 last c el dispatched Hactive Hactive1 Hbound Hon Hcalled Hphase
           | h1 start0 last el dispatched Hactive Hidle1 Hbound Hon Hcalled Hphase];
        subst; simpl.
      + rewrite Hactive. split; [reflexivity | split; [exact Hnames | constructor]].
      + rewrite Hphase, Hidle, Hactive1. simpl.
        split; [reflexivity |]. split; [exact Hnames |].
        constructor; [| constructor]. rewrite <- Hel, <- Hname, Hphase. split; assumption.
      + rewrite Hphase, Hactive, Hactive1. simpl.
        split; [reflexivity |]. split; [exact Hnames |].
        constructor; [| constructor]. rewrite <- Hel, <- Hname, Hphase. split; assumption.
      + rewrite Hactive, Hidle1.
        split; [now destruct (pan_phase (ce_detail dispatched)) |].
        split; [exact Hnames |].
        constructor; [| constructor]. rewrite <- Hel, <- Hname. split; assumption.
    - split; [apply pan_reset_settled |]. repeat split. constructor. }
  destruct Hkept as (_ & Hsame & Horder & Hnames). repeat split; assumption.
Qed.

(** X18.  Whatever a pan instance in its initial state is called with,
    every [start] event it dispatches carries a direction that is one of
    the allowed directions, and every [start] and [ongoing] event carries
    a number of pointers within [minPointers] and [maxPointers]. *)
Theorem pan_starts_in_an_allowed_direction :
  forall (calls : list (PointerMap.t * PointerEvent)) (g : PanGesture.t),
    let after := panCalls (PanGesture.resetState g, []) calls in
    Forall (fun dispatched =>
              let detail := ce_detail dispatched in
              (pan_phase detail = start ->
               Utils.isDirectionAllowed (pan_direction detail) (PanGesture.direction g) = true)
              /\ (closes (pan_phase detail) = false ->
                  (PanGesture.minPointers g <= length (pan_pointers detail))%nat
                  /\ PanGesture.exceeds (length (pan_pointers detail)) (PanGesture.maxPointers g)
                     = false))
           (snd after).
Proof.
  intros calls g after.
  assert (Hkept :
    panSettled (fst after)
    /\ fst after = PanGesture.withState g (PanGesture.state (fst after))
    /\ Forall (fun dispatched =>
                 let detail := ce_detail dispatched in
                 (pan_phase detail = start ->
                  Utils.isDirectionAllowed (pan_direction detail) (PanGesture.direction g)
                  = true)
                 /\ (closes (pan_phase detail) = false ->
                     (PanGesture.minPointers g <= length (pan_pointers detail))%nat
                     /\ PanGesture.exceeds (length (pan_pointers detail))
                                           (PanGesture.maxPointers g) = false))
              (snd after)).
  { subst after.
    apply (panCalls_invariant
             (fun h out =>
                panSettled h
                /\ h = PanGesture.withState g (PanGesture.state h)
                /\ Forall (fun dispatched =>
                             let detail := ce_detail dispatched in
                             (pan_phase detail = start ->
                              Utils.isDirectionAllowed (pan_direction detail)
                                                       (PanGesture.direction g) = true)
                             /\ (closes (pan_phase detail) = false ->
                                 (PanGesture.minPointers g <= length (pan_pointers detail))%nat
                                 /\ PanGesture.exceeds (length (pan_pointers detail))
                                                       (PanGesture.maxPointers g) = false))
                          out)).
    - intros h out pointers event (Hsettled & Hsame & Hout). cbv zeta.
      destruct (pan_step_cases h pointers event Hsettled) as (Hsettled1 & Hsame1 & Hstep).
      assert (Hconfig : PanGesture.direction h = PanGesture.direction g
                        /\ PanGesture.minPointers h = PanGesture.minPointers g
                        /\ PanGesture.maxPointers h = PanGesture.maxPointers g)
        by (rewrite Hsame; repeat split).
      destruct Hconfig as (Hdirection & Hmin & Hmax).
      split; [exact Hsettled1 |].
      split; [rewrite Hsame1; rewrite Hsame at 1; reflexivity |].
      rewrite Forall_app. split; [exact Hout |].
      inversion Hstep
        as [h1 Hactive Hkeep
           | h1 start0 c el dispatched Hidle Hactive1 Hbound Hon Hcalled Hphase
               Hs0 Hs1 Hl1 Htx Hty Hdx Hdy Hex Hey Hallowed Hlow Hhigh Hc
           | h1 start0 last c el dispatched Hactive Hactive1 Hbound Hon Hcalled Hphase
               Hs0 Hl0 Hs1 Hl1 Htx Hty Hdx Hdy Hex Hey Hlow Hhigh Hc
           | h1 start0 last el dispatched Hactive Hidle1 Hbound Hon Hcalled Hphase];
        subst; [constructor | | |]; (constructor; [| constructor]); cbv zeta.
      + rewrite <- Hdirection, <- Hmin, <- Hmax.
        split; [intros _; assumption | intros _; split; assumption].
      + rewrite Hphase, <- Hmin, <- Hmax.
        split; [discriminate | intros _; split; assumption].
      + split; [intros Hno; rewrite Hno in Hphase; discriminate Hphase |].
        intros Hno. rewrite Hno in Hphase. discriminate Hphase.
    - split; [apply pan_reset_settled |]. split; [reflexivity | constructor]. }
  destruct Hkept as (_ & _ & Hout). exact Hout.
Qed.

(** X19.  Whatever a pan instance in its initial state is called with, for
    two events it dispatches one after the other, the second of which is
    not a [start]: both carry as delta their centroid minus one and the
    same start centroid.  When the second is an [ongoing] event, its total
    delta is the total delta of the first plus the step from the centroid
    of the first to its own, [totalDeltaX + (centroid.x - previous
    centroid.x)] as the code computes it, and likewise for y.  When the
    second is an [end] or a [cancel], it carries the total delta, the
    centroid and the delta of the first. *)
Theorem pan_total_adds_the_centroid_steps :
  forall (calls : list (PointerMap.t * PointerEvent)) (g : PanGesture.t),
    let after := panCalls (PanGesture.resetState g, []) calls in
    forall before first second later,
      snd after = before ++ first :: second :: later ->
      pan_phase (ce_detail second) <> start ->
      let d1 := ce_detail first in
      let d2 := ce_detail second in
      (pan_phase d2 = ongoing ->
       pan_totalDeltaX d2 = pan_totalDeltaX d1 + (x (pan_centroid d2) - x (pan_centroid d1))
       /\ pan_totalDeltaY d2 = pan_totalDeltaY d1 + (y (pan_centroid d2) - y (pan_centroid d1)))
      /\ (closes (pan_phase d2) = true ->
          pan_totalDeltaX d2 = pan_totalDeltaX d1
          /\ pan_totalDeltaY d2 = pan_totalDeltaY d1
          /\ pan_centroid d2 = pan_centroid d1
          /\ pan_deltaX d2 = pan_deltaX d1
          /\ pan_deltaY d2 = pan_deltaY d1)
      /\ exists start0,
           pan_deltaX d1 = x (pan_centroid d1) - x start0
           /\ pan_deltaY d1 = y (pan_centroid d1) - y start0
           /\ pan_deltaX d2 = x (pan_centroid d2) - x start0
           /\ pan_deltaY d2 = y (pan_centroid d2) - y start0.
Proof.
  intros calls g after.
  set (follows := fun (first second : CustomEvent PanGestureEventData) =>
         let d1 := ce_detail first in
         let d2 := ce_detail second in
         (pan_phase d2 = ongoing ->
          pan_totalDeltaX d2 = pan_totalDeltaX d1 + (x (pan_centroid d2) - x (pan_centroid d1))
          /\ pan_totalDeltaY d2
             = pan_totalDeltaY d1 + (y (pan_centroid d2) - y (pan_centroid d1)))
         /\ (closes (pan_phase d2) = true ->
             pan_totalDeltaX d2 = pan_totalDeltaX d1
             /\ pan_totalDeltaY d2 = pan_totalDeltaY d1
             /\ pan_centroid d2 = pan_centroid d1
             /\ pan_deltaX d2 = pan_deltaX d1
             /\ pan_deltaY d2 = pan_deltaY d1)
         /\ exists start0,
              pan_deltaX d1 = x (pan_centroid d1) - x start0
              /\ pan_deltaY d1 = y (pan_centroid d1) - y start0
              /\ pan_deltaX d2 = x (pan_centroid d2) - x start0
              /\ pan_deltaY d2 = y (pan_centroid d2) - y start0).
  set (tracked := fun (h : PanGesture.t) (out : list (CustomEvent PanGestureEventData)) =>
         PanGesture.active (PanGesture.state h) = true ->
         exists start0 before previous,
           PanGesture.startCentroid (PanGesture.state h) = Some start0
           /\ PanGesture.lastCentroid (PanGesture.state h)
              = Some (pan_centroid (ce_detail previous))
           /\ out = before ++ [previous]
           /\ PanGesture.totalDeltaX (PanGesture.state h) = pan_totalDeltaX (ce_detail previous)
           /\ PanGesture.totalDeltaY (PanGesture.state h) = pan_totalDeltaY (ce_detail previous)
           /\ pan_deltaX (ce_detail previous)
              = x (pan_centroid (ce_detail previous)) - x start0
           /\ pan_deltaY (ce_detail previous)
              = y (pan_centroid (ce_detail previous)) - y start0).
  set (paired := fun out : list (CustomEvent PanGestureEventData) =>
         forall before first second later,
           out = before ++ first :: second :: later ->
           pan_phase (ce_detail second) <> start ->
           follows first second).
  assert (Hpaired : forall out dispatched,
            paired out ->
            (pan_phase (ce_detail dispatched) <> start ->
             forall before previous, out = before ++ [previous] -> follows previous dispatched) ->
            paired (out ++ [dispatched])).
  { intros out dispatched Hout Hnew before first second later Hsplit Hphase.
    change (before ++ first :: second :: later)
      with (before ++ [first] ++ second :: later) in Hsplit.
    rewrite app_assoc in Hsplit.
    apply split_at_last in Hsplit as [(Hbefore & -> & _) | (middle & _ & ->)].
    - now apply (Hnew Hphase before first).
    - apply (Hout before first second middle); [| exact Hphase].
      now rewrite <- app_assoc. }
  assert (Hkept : panSettled (fst after) /\ tracked (fst after) (snd after)
                  /\ paired (snd after)).
  { subst after.
    apply (panCalls_invariant (fun h out => panSettled h /\ tracked h out /\ paired out)).
    - intros h out pointers event (Hsettled & Htracked & Hout). cbv zeta.
      destruct (pan_step_cases h pointers event Hsettled) as (Hsettled1 & _ & Hstep).
      split; [exact Hsettled1 |].
      inversion Hstep
        as [h1 Hactive Hkeep
           | h1 start0 c el dispatched Hidle Hactive1 Hbound Hon Hcalled Hphase
               Hs0 Hs1 Hl1 Htx Hty Hdx Hdy Hex Hey Hallowed Hlow Hhigh Hc
           | h1 start0 last c el dispatched Hactive Hactive1 Hbound Hon Hcalled Hphase
               Hs0 Hl0 Hs1 Hl1 Htx Hty Hdx Hdy Hex Hey Hlow Hhigh Hc
           | h1 start0 last el dispatched Hactive Hidle1 Hbound Hon Hcalled Hphase
               Hs0 Hl0 Hdx Hdy Hex Hey Hc];
        subst.
      + rewrite app_nil_r. split; [| exact Hout].
        intros Hactive1. rewrite Hactive in Hactive1. rewrite (Hkeep Hactive1).
        exact (Htracked Hactive1).
      + split.
        * intros _. exists start0, out, dispatched.
          rewrite Hs1, Hl1, Htx, Hty, Hdx, Hdy, Hex, Hey. repeat split; reflexivity.
        * apply Hpaired; [exact Hout |]. intros Hno. now rewrite Hphase in Hno.
      + destruct (Htracked Hactive)
          as (start1 & before & previous & Hs & Hl & Hlist & Hx & Hy & Hpx & Hpy).
        rewrite Hs0 in Hs. injection Hs as <-. rewrite Hl0 in Hl. injection Hl as Hlast.
        split.
        * intros _. exists start0, out, dispatched.
          rewrite Hs1, Hl1, Hdx, Hdy, Hex, Hey. repeat split; reflexivity.
        * apply Hpaired; [exact Hout |]. intros _ before' previous' Hlist'.
          rewrite Hlist in Hlist'. apply app_inj_tail in Hlist' as [_ <-].
          unfold follows. cbv zeta. rewrite Hphase, Hex, Hey, Htx, Hty, Hdx, Hdy.
          rewrite Hx, Hy, Hlast.
          split; [intros _; split; reflexivity |].
          split; [discriminate |].
          exists start0. rewrite Hpx, Hpy. repeat split; reflexivity.
      + destruct (Htracked Hactive)
          as (start1 & before & previous & Hs & Hl & Hlist & Hx & Hy & Hpx & Hpy).
        rewrite Hs0 in Hs. injection Hs as <-. rewrite Hl0 in Hl. injection Hl as Hlast.
        split.
        * intros Hno. rewrite Hidle1 in Hno. discriminate Hno.
        * apply Hpaired; [exact Hout |]. intros _ before' previous' Hlist'.
          rewrite Hlist in Hlist'. apply app_inj_tail in Hlist' as [_ <-].
          unfold follows. cbv zeta. rewrite Hex, Hey, Hdx, Hdy, Hx, Hy, Hlast.
          split.
          { intros Hno. rewrite Hno in Hphase. discriminate Hphase. }
          split.
          { intros _. rewrite Hpx, Hpy. repeat split; reflexivity. }
          exists start0. rewrite Hpx, Hpy. repeat split; reflexivity.
    - split; [apply pan_reset_settled |]. split.
      + intros Hno. discriminate Hno.
      + intros before first second later Hsplit. now destruct before. }
  destruct Hkept as (_ & _ & Hout). exact Hout.
Qed.

End PanHistories.

(** ** The histories on a concrete page *)

(** The two pinches of the example, next to an active "zoom". *)
Lemma pinch_leaves_other_records_witness :
  let other := PinchGesture.ref Demo.zoom in
  let after := Examples.pinchCalls (Demo.pinch, Examples.zoomActive, []) Examples.twoPinches in
  (ref_id other <> PinchGesture.ident Demo.pinch \/ 1%nat <> PinchGesture.element Demo.pinch)
  /\ PinchGesture.isActive (fst (fst after)) (snd (fst after)) = true
  /\ entriesOf (snd (fst after)) 1%nat other = entriesOf Examples.zoomActive 1%nat other
  /\ ActiveGesturesRegistry.isGestureActive (snd (fst after)) 1%nat other
     = ActiveGesturesRegistry.isGestureActive Examples.zoomActive 1%nat other.
Proof.
  intros other after.
  assert (Hother : ref_id other <> PinchGesture.ident Demo.pinch
                   \/ 1%nat <> PinchGesture.element Demo.pinch) by (left; discriminate).
  split; [exact Hother |].
  split; [vm_compute; reflexivity |].
  exact (@pinch_leaves_other_records Demo.page Demo.axisSpread Examples.twoPinches
           Demo.pinch Examples.zoomActive 1%nat other Hother).
Defined.

(** The two pinches of the example, from the empty registry. *)
Lemma pinch_registers_itself_once_witness :
  let after := Examples.pinchCalls (Demo.pinch, ∅, []) Examples.twoPinches in
  (length (entriesOf ∅ (PinchGesture.element Demo.pinch) (PinchGesture.ref Demo.pinch)) <= 1)%nat
  /\ PinchGesture.isActive (fst (fst after)) (snd (fst after)) = true
  /\ length (entriesOf (snd (fst after)) (PinchGesture.element Demo.pinch)
               (PinchGesture.ref Demo.pinch))
     = (if PinchGesture.isActive (fst (fst after)) (snd (fst after)) then 1 else 0)%nat.
Proof.
  intros after.
  assert (Hone : (length (entriesOf ∅ (PinchGesture.element Demo.pinch)
                            (PinchGesture.ref Demo.pinch)) <= 1)%nat)
    by (vm_compute; lia).
  split; [exact Hone |].
  split; [vm_compute; reflexivity |].
  exact (@pinch_registers_itself_once Demo.page Demo.axisSpread Examples.twoPinches
           Demo.pinch ∅ Hone).
Defined.

(** The same calls with "zoom" active: nothing happens; without it the
    pinch dispatches events. *)
Lemma prevented_pinch_never_starts_witness :
  Gesture.shouldPreventGesture (PinchGesture.preventIf Examples.shyPinch) Examples.zoomActive
    (PinchGesture.element Examples.shyPinch) = true
  /\ PinchGesture.isActive Examples.shyPinch Examples.zoomActive = false
  /\ Examples.pinchCalls (Examples.shyPinch, Examples.zoomActive, []) Examples.twoPinches
     = (Examples.shyPinch, Examples.zoomActive, [])
  /\ snd (Examples.pinchCalls (Examples.shyPinch, ∅, []) Examples.twoPinches) <> [].
Proof.
  assert (Hprevented : Gesture.shouldPreventGesture (PinchGesture.preventIf Examples.shyPinch)
                         Examples.zoomActive (PinchGesture.element Examples.shyPinch) = true)
    by (vm_compute; reflexivity).
  assert (Hidle : PinchGesture.isActive Examples.shyPinch Examples.zoomActive = false)
    by (vm_compute; reflexivity).
  split; [exact Hprevented |]. split; [exact Hidle |].
  split; [| vm_compute; discriminate].
  exact (@prevented_pinch_never_starts Demo.page Demo.axisSpread Examples.twoPinches
           Examples.shyPinch Examples.zoomActive Hprevented Hidle).
Defined.

(** The first pinch ends at 3/2; the second reaches 2 and a total of 3. *)
Lemma pinch_total_is_the_product_of_scales_witness :
  let after := Examples.pinchCalls (Demo.pinch, ∅, []) Examples.twoPinches in
  let s1 := PinchGesture.state (fst (fst after)) in
  List.map (fun dispatched =>
              (pinch_phase (ce_detail dispatched),
               Qred (pinch_scale (ce_detail dispatched)),
               Qred (pinch_totalScale (ce_detail dispatched))))
           (snd after)
  = [(start, 1%Q, 1%Q); (ongoing, 3 # 2, 3 # 2); (end_, 3 # 2, 3 # 2);
     (start, 1%Q, 3 # 2); (ongoing, 2%Q, 3%Q)]
  /\ (PinchGesture.totalScale s1 == finishedScales (snd after) * PinchGesture.lastScale s1)%Q
  /\ forall before dispatched later,
       snd after = before ++ dispatched :: later ->
       (pinch_totalScale (ce_detail dispatched)
        == finishedScales before * pinch_scale (ce_detail dispatched))%Q.
Proof.
  intros after s1.
  split; [vm_compute; reflexivity |].
  apply (@pinch_total_is_the_product_of_scales Demo.page Demo.axisSpread Examples.twoPinches
           Demo.pinch ∅).
  - reflexivity.
  - reflexivity.
  - repeat constructor;
      first [intros Htype; discriminate Htype | intros _; vm_compute; discriminate].
Defined.

(** The five events of the example all list "pinch". *)
Lemma pinch_events_list_the_pinch_witness :
  let after := Examples.pinchCalls (Demo.pinch, ∅, []) Examples.twoPinches in
  PinchGesture.isActive Demo.pinch ∅ = false
  /\ length (snd after) = 5%nat
  /\ Forall (fun dispatched =>
               Gesture.isListed (pinch_activeGestures (ce_detail dispatched))
                                (PinchGesture.name Demo.pinch) = true)
            (snd after).
Proof.
  intros after.
  assert (Hidle : PinchGesture.isActive Demo.pinch ∅ = false) by reflexivity.
  split; [exact Hidle |].
  split; [vm_compute; reflexivity |].
  exact (@pinch_events_list_the_pinch Demo.page Demo.axisSpread Examples.twoPinches
           Demo.pinch ∅ Hidle).
Defined.

(** The drag of the example: [start] with a delta of 20, [ongoing] and
    [end] with a delta of 30 and a total of 10. *)
Lemma pan_total_adds_the_centroid_steps_witness :
  let after := Examples.panCalls (PanGesture.resetState Demo.pan, []) Examples.drag in
  List.map (fun dispatched =>
              (pan_phase (ce_detail dispatched),
               Qred (pan_deltaX (ce_detail dispatched)),
               Qred (pan_totalDeltaX (ce_detail dispatched))))
           (snd after)
  = [(start, 20%Q, 0%Q); (ongoing, 30%Q, 10%Q); (end_, 30%Q, 10%Q)]
  /\ exists first second later,
       snd after = [] ++ first :: second :: later
       /\ pan_phase (ce_detail second) <> start
       /\ (pan_phase (ce_detail second) = ongoing ->
           pan_totalDeltaX (ce_detail second)
           = (pan_totalDeltaX (ce_detail first)
              + (x (pan_centroid (ce_detail second)) - x (pan_centroid (ce_detail first))))%Q
           /\ pan_totalDeltaY (ce_detail second)
              = (pan_totalDeltaY (ce_detail first)
                 + (y (pan_centroid (ce_detail second)) - y (pan_centroid (ce_detail first))))%Q)
       /\ (closes (pan_phase (ce_detail second)) = true ->
           pan_totalDeltaX (ce_detail second) = pan_totalDeltaX (ce_detail first)
           /\ pan_totalDeltaY (ce_detail second) = pan_totalDeltaY (ce_detail first)
           /\ pan_centroid (ce_detail second) = pan_centroid (ce_detail first)
           /\ pan_deltaX (ce_detail second) = pan_deltaX (ce_detail first)
           /\ pan_deltaY (ce_detail second) = pan_deltaY (ce_detail first))
       /\ exists start0,
            pan_deltaX (ce_detail first) = (x (pan_centroid (ce_detail first)) - x start0)%Q
            /\ pan_deltaY (ce_detail first) = (y (pan_centroid (ce_detail first)) - y start0)%Q
            /\ pan_deltaX (ce_detail second) = (x (pan_centroid (ce_detail second)) - x start0)%Q
            /\ pan_deltaY (ce_detail second)
               = (y (pan_centroid (ce_detail second)) - y start0)%Q.
Proof.
  intros after.
  split; [vm_compute; reflexivity |].
  destruct (snd after) as [| first [| second later]] eqn:Hout;
    [vm_compute in Hout; discriminate Hout | vm_compute in Hout; discriminate Hout |].
  assert (Hphase : pan_phase (ce_detail second) <> start).
  { pose proof Hout as Hcomputed. vm_compute in Hcomputed.
    injection Hcomputed as _ <- _. discriminate. }
  exists first, second, later.
  split; [reflexivity |]. split; [exact Hphase |].
  exact (@pan_total_adds_the_centroid_steps Demo.page Examples.drag Demo.pan
           [] first second later Hout Hphase).
Defined.

(** ** GestureManager *)

Lemma lookupInstance_none_unregister (w : GestureManager.World) (gestureName : string)
  (element : Node) :
  GestureManager.lookupInstance (GestureManager.manager w) element gestureName = None ->
  GestureManager.unregisterElement w gestureName element = (w, false).
Proof.
  unfold GestureManager.lookupInstance, GestureManager.unregisterElement.
  destruct (GestureManager.elementGestureMap (GestureManager.manager w) !! element)
    as [elementGestures |]; [| reflexivity].
  now intros ->.
Qed.

(** X20.  [unregisterElement(gestureName, element)] answers whether an
    instance was registered under that name on that element.  Afterwards
    there is none, every other instance is registered as before, the
    templates are the same and no event was dispatched, not even for an
    instance that was active; a call that answers false changes nothing,
    and so does a second call. *)
Theorem unregisterElement_removes_one_instance :
  forall (w : GestureManager.World) (gestureName : string) (element : Node),
    let result := GestureManager.unregisterElement w gestureName element in
    let w1 := fst result in
    snd result
    = match GestureManager.lookupInstance (GestureManager.manager w) element gestureName with
      | Some _ => true
      | None => false
      end
    /\ GestureManager.lookupInstance (GestureManager.manager w1) element gestureName = None
    /\ (forall element' gestureName',
          element' <> element \/ gestureName' <> gestureName ->
          GestureManager.lookupInstance (GestureManager.manager w1) element' gestureName'
          = GestureManager.lookupInstance (GestureManager.manager w) element' gestureName')
    /\ GestureManager.gestureTemplates (GestureManager.manager w1)
       = GestureManager.gestureTemplates (GestureManager.manager w)
    /\ GestureManager.dispatched w1 = GestureManager.dispatched w
    /\ (snd result = false -> w1 = w)
    /\ GestureManager.unregisterElement w1 gestureName element = (w1, false).
Proof.
  intros w gestureName element result w1.
  assert (Hmain :
    snd result
    = match GestureManager.lookupInstance (GestureManager.manager w) element gestureName with
      | Some _ => true
      | None => false
      end
    /\ GestureManager.lookupInstance (GestureManager.manager w1) element gestureName = None
    /\ (forall element' gestureName',
          element' <> element \/ gestureName' <> gestureName ->
          GestureManager.lookupInstance (GestureManager.manager w1) element' gestureName'
          = GestureManager.lookupInstance (GestureManager.manager w) element' gestureName')
    /\ GestureManager.gestureTemplates (GestureManager.manager w1)
       = GestureManager.gestureTemplates (GestureManager.manager w)
    /\ GestureManager.dispatched w1 = GestureManager.dispatched w
    /\ (snd result = false -> w1 = w)).
  { subst w1 result.
    unfold GestureManager.unregisterElement, GestureManager.lookupInstance.
    destruct (GestureManager.elementGestureMap (GestureManager.manager w) !! element)
      as [elementGestures |] eqn:Htable.
    2: { simpl. rewrite Htable. repeat split. }
    destruct (elementGestures !! gestureName) as [gesture |] eqn:Hgesture.
    2: { simpl. rewrite Htable, Hgesture. repeat split. }
    cbn [fst snd GestureManager.manager GestureManager.elementGestureMap
         GestureManager.gestureTemplates GestureManager.dispatched].
    split; [reflexivity |].
    destruct (size (delete gestureName elementGestures) =? 0)%nat eqn:Hsize.
    - apply Nat.eqb_eq, map_size_empty_inv in Hsize.
      split; [now rewrite lookup_delete_eq |].
      split; [| repeat split; discriminate].
      intros element' gestureName' Hother.
      destruct (decide (element' = element)) as [-> | Hne].
      + destruct Hother as [Hel | Hname]; [congruence |].
        rewrite lookup_delete_eq, Htable.
        rewrite <- (lookup_delete_ne elementGestures gestureName gestureName') by congruence.
        now rewrite Hsize, lookup_empty.
      + now rewrite lookup_delete_ne by congruence.
    - split; [now rewrite lookup_insert_eq, lookup_delete_eq |].
      split; [| repeat split; discriminate].
      intros element' gestureName' Hother.
      destruct (decide (element' = element)) as [-> | Hne].
      + destruct Hother as [Hel | Hname]; [congruence |].
        rewrite lookup_insert_eq, Htable. now apply lookup_delete_ne.
      + now rewrite lookup_insert_ne by congruence. }
  destruct Hmain as (Hanswer & Hgone & Hothers & Htemplates & Hevents & Hfalse).
  repeat split; try assumption.
  now apply lookupInstance_none_unregister.
Qed.

(** X21.  [unregisterAllGestures(element)] leaves no instance registered
    on the element and leaves the instances of every other element, the
    templates and the dispatched events as they are; when the element had
    an instance, the registry holds nothing for the element afterwards.  A
    second call changes nothing. *)
Theorem unregisterAllGestures_clears_the_element :
  forall (w : GestureManager.World) (element : Node),
    let w1 := GestureManager.unregisterAllGestures w element in
    (forall gestureName,
        GestureManager.lookupInstance (GestureManager.manager w1) element gestureName = None
        /\ (GestureManager.lookupInstance (GestureManager.manager w) element gestureName <> None ->
            GestureManager.registry w1 !! element = None))
    /\ (forall element' gestureName,
          element' <> element ->
          GestureManager.lookupInstance (GestureManager.manager w1) element' gestureName
          = GestureManager.lookupInstance (GestureManager.manager w) element' gestureName)
    /\ GestureManager.gestureTemplates (GestureManager.manager w1)
       = GestureManager.gestureTemplates (GestureManager.manager w)
    /\ GestureManager.dispatched w1 = GestureManager.dispatched w
    /\ GestureManager.unregisterAllGestures w1 element = w1.
Proof.
  intros w element w1. subst w1.
  unfold GestureManager.unregisterAllGestures, GestureManager.lookupInstance.
  destruct (GestureManager.elementGestureMap (GestureManager.manager w) !! element)
    as [elementGestures |] eqn:Htable.
  2: { rewrite Htable. repeat split. intros Hsome. congruence. }
  cbn [GestureManager.manager GestureManager.elementGestureMap GestureManager.registry
       GestureManager.gestureTemplates GestureManager.dispatched].
  rewrite lookup_delete_eq.
  split.
  { intros gestureName. split; [reflexivity |]. intros Hsome.
    assert (Hfold : forall m : gmap string AnyGesture,
              m <> ∅ ->
              map_fold (fun _ gesture reg =>
                          ActiveGesturesRegistry.unregisterElement
                            (GestureManager.destroyGesture gesture reg) element)
                       (GestureManager.registry w) m !! element = None).
    { intros m. apply (map_fold_weak_ind
                (fun (r : ActiveGesturesRegistry.t) (m : gmap string AnyGesture) =>
                   m <> ∅ -> r !! element = None)).
      - congruence.
      - intros name gesture m0 r _ _ _.
        unfold ActiveGesturesRegistry.unregisterElement. apply lookup_delete_eq. }
    apply Hfold. intros Hempty. rewrite Hempty, lookup_empty in Hsome. congruence. }
  split.
  { intros element' gestureName Hne. now rewrite lookup_delete_ne by congruence. }
  repeat split.
Qed.

(** ** Interrupts in the running system *)

Lemma lookup_storeInstance (m : GestureManager.t) (element element' : Node)
  (gestureName gestureName' : string) (gesture : AnyGesture) :
  GestureManager.lookupInstance (GestureManager.storeInstance m element gestureName gesture)
    element' gestureName'
  = if decide (element' = element /\ gestureName' = gestureName)
    then Some gesture
    else GestureManager.lookupInstance m element' gestureName'.
Proof.
  unfold GestureManager.lookupInstance, GestureManager.storeInstance. simpl.
  destruct (decide (element' = element /\ gestureName' = gestureName)) as [[-> ->] | Hne].
  - now rewrite !lookup_insert_eq.
  - destruct (decide (element' = element)) as [-> | Hel].
    + rewrite lookup_insert_eq.
      assert (Hname : gestureName <> gestureName') by (intros ->; now apply Hne).
      rewrite lookup_insert_ne by exact Hname.
      now destruct (GestureManager.elementGestureMap m !! element).
    + now rewrite lookup_insert_ne by congruence.
Qed.

(** A pan answers an event that carries [forceReset] with nothing or with
    [cancel] events. *)
Lemma pan_interrupt_output {dom : Dom} (g : PanGesture.t) (pointers : PointerMap.t)
  (event : PointerEvent) :
  ev_forceReset event = true ->
  ev_target event = None ->
  Forall (fun dispatched => pan_phase (ce_detail dispatched) = cancel)
         (snd (PanGesture.handlePointerEvent g pointers event)).
Proof.
  intros Hforce Hnull. unfold PanGesture.handlePointerEvent. rewrite Hforce.
  destruct (PanGesture.element g) as [el |] eqn:Hel.
  - unfold PanGesture.onForceReset.
    destruct (PanGesture.active (PanGesture.state g)); [| constructor].
    destruct (PanGesture.startCentroid (PanGesture.state g)) eqn:Hstart; [| constructor].
    destruct (PanGesture.lastCentroid (PanGesture.state g)); [| constructor].
    unfold PanGesture.emitPanEvent. rewrite Hstart. simpl. now repeat constructor.
  - unfold PanGesture.getTargetElement. rewrite Hel. constructor.
Qed.

(** X22.  In a running system whose handlers are those of gesture
    instances, an interrupt (blur, contextmenu) leaves the registry of
    active gestures exactly as it was, while the pointer map is emptied: a
    gesture that was registered as active is still registered as active
    with no pointer left.  Every pinch instance is left untouched, and the
    only events dispatched are [cancel] events of pans. *)
Theorem interrupt_keeps_the_registry :
  forall (dom : Dom) (spread : Spread) (sys : GestureManager.System) (now : number),
    Forall (fun handler =>
              exists element gestureName,
                handler = GestureManager.instanceHandler element gestureName)
           (PointerManager.gestureHandlers (GestureManager.pointerManager sys)) ->
    let after := GestureManager.step sys (GestureManager.InterruptInput now) in
    let w := GestureManager.world sys in
    let w1 := GestureManager.world after in
    GestureManager.registry w1 = GestureManager.registry w
    /\ PointerManager.pointers (GestureManager.pointerManager after) = PointerMap.empty
    /\ (forall element gestureName g,
          GestureManager.lookupInstance (GestureManager.manager w) element gestureName
          = Some (PinchInstance g) ->
          GestureManager.lookupInstance (GestureManager.manager w1) element gestureName
          = Some (PinchInstance g))
    /\ exists news,
         GestureManager.dispatched w1 = GestureManager.dispatched w ++ news
         /\ Forall (fun d => match d with
                             | PanDispatched e => pan_phase (ce_detail e) = cancel
                             | PinchDispatched _ => False
                             end) news.
Proof.
  intros dom spread sys now Hhandlers after w w1.
  assert (Hread : Forall PointerManager.readsOnly
                         (PointerManager.gestureHandlers (GestureManager.pointerManager sys))).
  { eapply List.Forall_impl; [| exact Hhandlers].
    intros handler (element & gestureName & ->). apply instanceHandler_readsOnly. }
  pose proof (handleInterruptEvents_readers (GestureManager.pointerManager sys) now w Hread)
    as Hstep. cbv zeta in Hstep.
  set (cancelled := List.map (fun kv => (fst kv, PointerManager.asCancelled (snd kv)))
                             (PointerManager.pointers (GestureManager.pointerManager sys)))
    in Hstep.
  set (cancelEvent :=
         match PointerMap.values (PointerManager.pointers (GestureManager.pointerManager sys)) with
         | firstPointer :: _ =>
             PointerManager.stampFrom firstPointer (PointerManager.syntheticCancel now)
         | [] => PointerManager.syntheticCancel now
         end) in Hstep.
  assert (Hforce : ev_forceReset cancelEvent = true)
    by (subst cancelEvent;
        now destruct (PointerMap.values
                        (PointerManager.pointers (GestureManager.pointerManager sys)))).
  assert (Hnull : ev_target cancelEvent = None)
    by (subst cancelEvent;
        now destruct (PointerMap.values
                        (PointerManager.pointers (GestureManager.pointerManager sys)))).
  assert (Hafter : after
                   = {| GestureManager.pointerManager :=
                          PointerManager.withPointers (GestureManager.pointerManager sys)
                            PointerMap.empty;
                        GestureManager.world :=
                          fold_left (fun acc handler => snd (handler cancelled cancelEvent acc))
                            (PointerManager.gestureHandlers (GestureManager.pointerManager sys))
                            w |}).
  { subst after. unfold GestureManager.step. fold w. now rewrite Hstep. }
  subst w1. rewrite Hafter. cbn [GestureManager.pointerManager GestureManager.world
                                  PointerManager.pointers PointerManager.withPointers].
  clear Hafter Hstep after Hread.
  assert (Hfold : forall handlers (acc : GestureManager.World),
            Forall (fun handler =>
                      exists element gestureName,
                        handler = GestureManager.instanceHandler element gestureName)
                   handlers ->
            GestureManager.registry acc = GestureManager.registry w ->
            (forall element gestureName g,
                GestureManager.lookupInstance (GestureManager.manager w) element gestureName
                = Some (PinchInstance g) ->
                GestureManager.lookupInstance (GestureManager.manager acc) element gestureName
                = Some (PinchInstance g)) ->
            (exists news,
                GestureManager.dispatched acc = GestureManager.dispatched w ++ news
                /\ Forall (fun d => match d with
                                    | PanDispatched e => pan_phase (ce_detail e) = cancel
                                    | PinchDispatched _ => False
                                    end) news) ->
            let final := fold_left (fun acc handler => snd (handler cancelled cancelEvent acc))
                                   handlers acc in
            GestureManager.registry final = GestureManager.registry w
            /\ (forall element gestureName g,
                  GestureManager.lookupInstance (GestureManager.manager w) element gestureName
                  = Some (PinchInstance g) ->
                  GestureManager.lookupInstance (GestureManager.manager final) element gestureName
                  = Some (PinchInstance g))
            /\ exists news,
                 GestureManager.dispatched final = GestureManager.dispatched w ++ news
                 /\ Forall (fun d => match d with
                                     | PanDispatched e => pan_phase (ce_detail e) = cancel
                                     | PinchDispatched _ => False
                                     end) news).
  { induction handlers as [| handler handlers IH];
      intros acc Hall Hreg Hpinches (news & Hnews & Hcancels); cbv zeta.
    - simpl. split; [exact Hreg |]. split; [exact Hpinches |]. now exists news.
    - inversion Hall as [| ? ? (element & gestureName & ->) Hrest]; subst.
      simpl fold_left. apply IH; [exact Hrest | | |];
        unfold GestureManager.instanceHandler, PointerManager.reader; cbn [snd];
        destruct (GestureManager.lookupInstance (GestureManager.manager acc) element gestureName)
          as [[g | g] |] eqn:Hlookup; try assumption.
      + now destruct (PanGesture.handlePointerEvent g cancelled cancelEvent).
      + rewrite (pinch_ignores_interrupt g _ cancelled cancelEvent Hnull). exact Hreg.
      + destruct (PanGesture.handlePointerEvent g cancelled cancelEvent) as [g1 out].
        cbn [GestureManager.manager]. intros element' gestureName' g' Hwas.
        rewrite lookup_storeInstance.
        destruct (decide (element' = element /\ gestureName' = gestureName)) as [[-> ->] | _];
          [| now apply Hpinches].
        rewrite (Hpinches _ _ _ Hwas) in Hlookup. discriminate Hlookup.
      + rewrite (pinch_ignores_interrupt g _ cancelled cancelEvent Hnull).
        cbn [GestureManager.manager]. intros element' gestureName' g' Hwas.
        rewrite lookup_storeInstance.
        destruct (decide (element' = element /\ gestureName' = gestureName)) as [[-> ->] | _];
          [| now apply Hpinches].
        rewrite (Hpinches _ _ _ Hwas) in Hlookup. symmetry. exact Hlookup.
      + pose proof (pan_interrupt_output g cancelled cancelEvent Hforce Hnull) as Hout.
        destruct (PanGesture.handlePointerEvent g cancelled cancelEvent) as [g1 out].
        cbn [GestureManager.dispatched]. exists (news ++ List.map PanDispatched out).
        split; [rewrite Hnews; now rewrite app_assoc |].
        apply Forall_app. split; [exact Hcancels |].
        apply Forall_map. exact Hout.
      + rewrite (pinch_ignores_interrupt g _ cancelled cancelEvent Hnull).
        cbn [GestureManager.dispatched]. exists news.
        split; [simpl; now rewrite app_nil_r | exact Hcancels].
      + now exists news. }
  destruct (Hfold _ w Hhandlers eq_refl (fun _ _ _ H => H)) as (Hreg & Hpinches & Hnews).
  { exists []. split; [now rewrite app_nil_r | constructor]. }
  repeat split; assumption.
Qed.

(** A pan and a pinch on node 1, both active when the interrupt comes. *)
Lemma interrupt_keeps_the_registry_witness :
  let sys :=
    GestureManager.run (Demo.panAndPinch [])
      (Demo.twoFingersDown
       ++ [GestureManager.PointerInput (Demo.touch pointermove 2 120 2%nat 20)]) in
  let after := GestureManager.step sys (GestureManager.InterruptInput 30) in
  ActiveGesturesRegistry.isGestureActive
    (GestureManager.registry (GestureManager.world sys)) 1%nat (PinchGesture.ref Demo.pinch)
  = true
  /\ GestureManager.registry (GestureManager.world after)
     = GestureManager.registry (GestureManager.world sys)
  /\ PointerManager.pointers (GestureManager.pointerManager after) = PointerMap.empty.
Proof.
  intros sys after.
  split; [vm_compute; reflexivity |].
  assert (Hhandlers :
            Forall (fun handler =>
                      exists element gestureName,
                        handler = @GestureManager.instanceHandler Demo.page Demo.axisSpread
                                    element gestureName)
                   (PointerManager.gestureHandlers (GestureManager.pointerManager sys))).
  { repeat constructor; eexists; eexists; reflexivity. }
  destruct (interrupt_keeps_the_registry Demo.page Demo.axisSpread sys 30 Hhandlers)
    as (Hreg & Hempty & _).
  split; assumption.
Defined.

(** ** How a gesture closes *)

(** X23.  When a call makes an active pinch inactive, it dispatches
    exactly one event: [cancel] when the pinch is prevented by an active
    gesture or the event is a [pointercancel], [end] otherwise.  The event
    carries the scale and the total scale the pinch had; the instance
    unregisters itself, and its state is reset with the total scale
    kept. *)
Theorem pinch_closes_with_end_or_cancel :
  forall (dom : Dom) (spread : Spread) (g : PinchGesture.t) (reg : ActiveGesturesRegistry.t)
         (pointers : PointerMap.t) (event : PointerEvent),
    PinchGesture.isActive g reg = true ->
    let result := PinchGesture.handlePointerEvent g reg pointers event in
    let g1 := fst (fst result) in
    let reg1 := snd (fst result) in
    PinchGesture.isActive g1 reg1 = false ->
    exists dispatched,
      snd result = [dispatched]
      /\ pinch_phase (ce_detail dispatched)
         = (if Gesture.shouldPreventGesture (PinchGesture.preventIf g) reg (PinchGesture.element g)
               || EventType_eqb (ev_type event) pointercancel
            then cancel else end_)
      /\ pinch_scale (ce_detail dispatched) = PinchGesture.lastScale (PinchGesture.state g)
      /\ pinch_totalScale (ce_detail dispatched) = PinchGesture.totalScale (PinchGesture.state g)
      /\ reg1 = ActiveGesturesRegistry.unregisterActiveGesture reg (PinchGesture.element g)
                  (PinchGesture.ref g)
      /\ PinchGesture.state g1
         = {| PinchGesture.startDistance := 0;
              PinchGesture.lastDistance := 0;
              PinchGesture.lastScale := 1;
              PinchGesture.lastTime := 0;
              PinchGesture.velocity := 0;
              PinchGesture.totalScale := PinchGesture.totalScale (PinchGesture.state g) |}.
Proof.
  intros dom spread g reg pointers event Hactive result g1 reg1.
  subst g1 reg1 result.
  unfold PinchGesture.handlePointerEvent, Gesture.getTargetElement.
  destruct (isOrContains (PinchGesture.element g) (ev_target event));
    [| cbn [fst snd PinchGesture.unchanged]; congruence].
  destruct (Gesture.shouldPreventGesture _ _ _).
  { rewrite Hactive. cbn [fst snd PinchGesture.resetState orb]. intros _.
    eexists. split; [reflexivity |]. repeat split. }
  cbv zeta. cbn [orb].
  destruct (ev_type event) eqn:Htype.
  - unfold PinchGesture.onPointerDown. rewrite Hactive, andb_false_r.
    cbn [fst snd PinchGesture.unchanged]. congruence.
  - unfold PinchGesture.onPointerMove. rewrite Hactive.
    destruct (_ && _ && _); cbn [fst snd PinchGesture.unchanged];
      [rewrite pinch_withState_isActive |]; congruence.
  - unfold PinchGesture.onPointerEnd. rewrite Hactive, Htype.
    destruct (_ <? _)%nat.
    + cbn [fst snd PinchGesture.resetState EventType_eqb]. intros _.
      eexists. split; [reflexivity |]. repeat split.
    + destruct (2 <=? _)%nat; cbn [fst snd PinchGesture.unchanged];
        [rewrite pinch_withState_isActive |]; congruence.
  - unfold PinchGesture.onPointerEnd. rewrite Hactive, Htype.
    destruct (_ <? _)%nat.
    + cbn [fst snd PinchGesture.resetState EventType_eqb]. intros _.
      eexists. split; [reflexivity |]. repeat split.
    + destruct (2 <=? _)%nat; cbn [fst snd PinchGesture.unchanged];
        [rewrite pinch_withState_isActive |]; congruence.
Qed.

(** X24.  When a call makes an active pan inactive, it dispatches exactly
    one event, which carries the total delta the pan had.  On an interrupt
    the event is a [cancel] and the total delta is kept; when the number of
    pointers on the element leaves the pan's bounds the event is a [cancel]
    and the total delta is reset to zero; otherwise the event is a
    [pointerup] or a [pointercancel] that left no pointer pressed, the
    event dispatched is an [end] in both cases, and the total delta is
    kept. *)
Theorem pan_closes_with_end_or_cancel :
  forall (dom : Dom) (g : PanGesture.t) (el : Node) (pointers : PointerMap.t)
         (event : PointerEvent),
    panSettled g ->
    PanGesture.element g = Some el ->
    PanGesture.active (PanGesture.state g) = true ->
    let result := PanGesture.handlePointerEvent g pointers event in
    let s1 := PanGesture.state (fst result) in
    let shown := PanGesture.relevantTo el (PointerMap.values pointers) in
    let outOfBounds := (length shown <? PanGesture.minPointers g)%nat
                       || PanGesture.exceeds (length shown) (PanGesture.maxPointers g) in
    PanGesture.active s1 = false ->
    exists dispatched,
      snd result = [dispatched]
      /\ pan_phase (ce_detail dispatched)
         = (if ev_forceReset event || outOfBounds then cancel else end_)
      /\ pan_totalDeltaX (ce_detail dispatched) = PanGesture.totalDeltaX (PanGesture.state g)
      /\ pan_totalDeltaY (ce_detail dispatched) = PanGesture.totalDeltaY (PanGesture.state g)
      /\ PanGesture.totalDeltaX s1
         = (if negb (ev_forceReset event) && outOfBounds
            then 0%Q else PanGesture.totalDeltaX (PanGesture.state g))
      /\ PanGesture.totalDeltaY s1
         = (if negb (ev_forceReset event) && outOfBounds
            then 0%Q else PanGesture.totalDeltaY (PanGesture.state g))
      /\ (ev_forceReset event || outOfBounds = false ->
          (ev_type event = pointerup \/ ev_type event = pointercancel)
          /\ List.filter PanGesture.stillPressed shown = []).
Proof.
  intros dom g el pointers event (Hcoherent & Hflags) Hel Hactive result s1 shown outOfBounds.
  subst s1 result outOfBounds.
  destruct (Hcoherent Hactive) as (Hstart & Hlast & _).
  destruct (PanGesture.startCentroid (PanGesture.state g)) as [start0 |] eqn:Hstart0;
    [| congruence].
  destruct (PanGesture.lastCentroid (PanGesture.state g)) as [last |] eqn:Hlast0;
    [| congruence].
  clear Hstart Hlast. rewrite Hactive in Hflags.
  unfold PanGesture.handlePointerEvent. rewrite Hel.
  destruct (ev_forceReset event).
  { unfold PanGesture.onForceReset. rewrite Hactive, Hstart0, Hlast0.
    unfold PanGesture.emitPanEvent. rewrite Hstart0. cbn [fst snd orb negb andb]. intros _.
    eexists. split; [reflexivity |]. repeat split; discriminate. }
  unfold PanGesture.getTargetElement. rewrite Hel. unfold Gesture.getTargetElement.
  destruct (isOrContains el (ev_target event)); [| cbn [fst snd]; congruence].
  cbv zeta. fold shown. cbn [orb negb andb].
  destruct ((length shown <? PanGesture.minPointers g)%nat
            || PanGesture.exceeds (length shown) (PanGesture.maxPointers g)) eqn:Hbounds.
  { rewrite Hactive. unfold PanGesture.cancelGesture. rewrite Hactive, Hstart0, Hlast0.
    unfold PanGesture.emitPanEvent. rewrite Hstart0. cbn [fst snd]. intros _.
    eexists. split; [reflexivity |]. repeat split; discriminate. }
  assert (Hended :
    PanGesture.active (PanGesture.state (fst (PanGesture.onPointerEnd g el shown event))) = false ->
    exists dispatched,
      snd (PanGesture.onPointerEnd g el shown event) = [dispatched]
      /\ pan_phase (ce_detail dispatched) = end_
      /\ pan_totalDeltaX (ce_detail dispatched) = PanGesture.totalDeltaX (PanGesture.state g)
      /\ pan_totalDeltaY (ce_detail dispatched) = PanGesture.totalDeltaY (PanGesture.state g)
      /\ PanGesture.totalDeltaX (PanGesture.state (fst (PanGesture.onPointerEnd g el shown event)))
         = PanGesture.totalDeltaX (PanGesture.state g)
      /\ PanGesture.totalDeltaY (PanGesture.state (fst (PanGesture.onPointerEnd g el shown event)))
         = PanGesture.totalDeltaY (PanGesture.state g)
      /\ List.filter PanGesture.stillPressed shown = []).
  { unfold PanGesture.onPointerEnd. rewrite Hactive, Hflags. cbn [andb].
    destruct (List.filter PanGesture.stillPressed shown) as [| pressed rest] eqn:Hpressed;
      cbn [length Nat.eqb]; [| cbn [fst snd]; congruence].
    rewrite Hlast0. unfold PanGesture.emitPanEvent. rewrite Hstart0. cbn [fst snd]. intros _.
    eexists. split; [reflexivity |]. repeat split. }
  destruct (ev_type event) eqn:Htype.
  - unfold PanGesture.onPointerDown. rewrite Hactive. cbn [fst snd]. congruence.
  - unfold PanGesture.onPointerMove. rewrite Hstart0.
    destruct (_ <=? _)%nat; [| cbn [fst snd]; congruence].
    rewrite Hflags, Hactive. cbn [negb andb fst snd PanGesture.withLastCentroid
                                   PanGesture.withState PanGesture.state PanGesture.active].
    congruence.
  - intros Hidle. destruct (Hended Hidle) as (dispatched & H1 & H2 & H3 & H4 & H5 & H6 & H7).
    exists dispatched. repeat split; try assumption. now left.
  - intros Hidle. destruct (Hended Hidle) as (dispatched & H1 & H2 & H3 & H4 & H5 & H6 & H7).
    exists dispatched. repeat split; try assumption. now right.
Qed.

(** The first pinch of the example is closed by lifting finger 2. *)
Lemma pinch_closes_with_end_or_cancel_witness :
  let before := Examples.pinchCalls (Demo.pinch, ∅, []) (firstn 3 Examples.twoPinches) in
  let g := fst (fst before) in
  let reg := snd (fst before) in
  let pointers :=
    Demo.held [Demo.finger1; Demo.finger2; Demo.finger2To150; Examples.finger2Up] in
  let result :=
    @PinchGesture.handlePointerEvent Demo.page Demo.axisSpread g reg pointers Examples.finger2Up in
  PinchGesture.isActive g reg = true
  /\ PinchGesture.isActive (fst (fst result)) (snd (fst result)) = false
  /\ List.map (fun dispatched => (pinch_phase (ce_detail dispatched),
                                  Qred (pinch_scale (ce_detail dispatched))))
              (snd result)
     = [(end_, 3 # 2)]
  /\ exists dispatched,
       snd result = [dispatched]
       /\ pinch_phase (ce_detail dispatched)
          = (if Gesture.shouldPreventGesture (PinchGesture.preventIf g) reg (PinchGesture.element g)
                || EventType_eqb (ev_type Examples.finger2Up) pointercancel
             then cancel else end_)
       /\ pinch_scale (ce_detail dispatched) = PinchGesture.lastScale (PinchGesture.state g)
       /\ pinch_totalScale (ce_detail dispatched) = PinchGesture.totalScale (PinchGesture.state g)
       /\ snd (fst result)
          = ActiveGesturesRegistry.unregisterActiveGesture reg (PinchGesture.element g)
              (PinchGesture.ref g)
       /\ PinchGesture.state (fst (fst result))
          = {| PinchGesture.startDistance := 0;
               PinchGesture.lastDistance := 0;
               PinchGesture.lastScale := 1;
               PinchGesture.lastTime := 0;
               PinchGesture.velocity := 0;
               PinchGesture.totalScale := PinchGesture.totalScale (PinchGesture.state g) |}.
Proof.
  intros before g reg pointers result.
  assert (Hactive : PinchGesture.isActive g reg = true) by (vm_compute; reflexivity).
  assert (Hidle : PinchGesture.isActive (fst (fst result)) (snd (fst result)) = false)
    by (vm_compute; reflexivity).
  split; [exact Hactive |]. split; [exact Hidle |].
  split; [vm_compute; reflexivity |].
  exact (pinch_closes_with_end_or_cancel Demo.page Demo.axisSpread g reg pointers
           Examples.finger2Up Hactive Hidle).
Defined.

(** The drag of the example has reached a total of 10 when two more
    fingers are on the element: three pointers are more than the pan's
    two, and the [cancel] leaves a total of zero. *)
Lemma pan_closes_with_end_or_cancel_witness :
  let g := fst (Examples.panCalls (PanGesture.resetState Demo.pan, []) (firstn 3 Examples.drag)) in
  let result :=
    @PanGesture.handlePointerEvent Demo.page g (fst Examples.crowd) (snd Examples.crowd) in
  let shown := @PanGesture.relevantTo Demo.page 1%nat (PointerMap.values (fst Examples.crowd)) in
  let outOfBounds := (length shown <? PanGesture.minPointers g)%nat
                     || PanGesture.exceeds (length shown) (PanGesture.maxPointers g) in
  Qred (PanGesture.totalDeltaX (PanGesture.state g)) = 10%Q
  /\ List.map (fun dispatched => (pan_phase (ce_detail dispatched),
                                  Qred (pan_totalDeltaX (ce_detail dispatched))))
              (snd result)
     = [(cancel, 10%Q)]
  /\ PanGesture.totalDeltaX (PanGesture.state (fst result)) = 0%Q
  /\ exists dispatched,
       snd result = [dispatched]
       /\ pan_phase (ce_detail dispatched)
          = (if ev_forceReset (snd Examples.crowd) || outOfBounds then cancel else end_)
       /\ pan_totalDeltaX (ce_detail dispatched) = PanGesture.totalDeltaX (PanGesture.state g)
       /\ pan_totalDeltaY (ce_detail dispatched) = PanGesture.totalDeltaY (PanGesture.state g)
       /\ PanGesture.totalDeltaX (PanGesture.state (fst result))
          = (if negb (ev_forceReset (snd Examples.crowd)) && outOfBounds
             then 0%Q else PanGesture.totalDeltaX (PanGesture.state g))
       /\ PanGesture.totalDeltaY (PanGesture.state (fst result))
          = (if negb (ev_forceReset (snd Examples.crowd)) && outOfBounds
             then 0%Q else PanGesture.totalDeltaY (PanGesture.state g))
       /\ (ev_forceReset (snd Examples.crowd) || outOfBounds = false ->
           (ev_type (snd Examples.crowd) = pointerup
            \/ ev_type (snd Examples.crowd) = pointercancel)
           /\ List.filter PanGesture.stillPressed shown = []).
Proof.
  intros g result shown outOfBounds.
  assert (Hsettled : panSettled g).
  { split; [intros _; vm_compute; repeat split; discriminate | vm_compute; reflexivity]. }
  assert (Hel : PanGesture.element g = Some 1%nat) by (vm_compute; reflexivity).
  assert (Hactive : PanGesture.active (PanGesture.state g) = true) by (vm_compute; reflexivity).
  assert (Hidle : PanGesture.active (PanGesture.state (fst result)) = false)
    by (vm_compute; reflexivity).
  split; [vm_compute; reflexivity |].
  split; [vm_compute; reflexivity |].
  split; [vm_compute; reflexivity |].
  exact (pan_closes_with_end_or_cancel Demo.page g 1%nat (fst Examples.crowd)
           (snd Examples.crowd) Hsettled Hel Hactive Hidle).
Defined.

(** ** The pointers of a pinch event *)

(** The events of one call: a [start] carries at least two pointers, an
    [ongoing] event at least [minPointers]. *)
Lemma pinch_step_counts {dom : Dom} {spread : Spread} (g : PinchGesture.t)
  (reg : ActiveGesturesRegistry.t) (pointers : PointerMap.t) (event : PointerEvent) :
  Forall (fun dispatched =>
            let detail := ce_detail dispatched in
            (pinch_phase detail = start -> (2 <= length (pinch_pointers detail))%nat)
            /\ (pinch_phase detail = ongoing ->
                (PinchGesture.minPointers g <= length (pinch_pointers detail))%nat)
            /\ (pinch_phase detail = start \/ pinch_phase detail = ongoing ->
                pinch_pointers detail
                = PinchGesture.relevantTo (PinchGesture.element g) (PointerMap.values pointers)))
         (snd (PinchGesture.handlePointerEvent g reg pointers event)).
Proof.
  unfold PinchGesture.handlePointerEvent, Gesture.getTargetElement.
  destruct (isOrContains (PinchGesture.element g) (ev_target event)); [| constructor].
  destruct (Gesture.shouldPreventGesture _ _ _).
  { destruct (PinchGesture.isActive g reg); [| constructor].
    constructor; [| constructor]. cbv zeta. simpl.
    repeat split; try discriminate; try (intros [Hno | Hno]; discriminate Hno). }
  cbv zeta.
  destruct (ev_type event) eqn:Htype.
  - unfold PinchGesture.onPointerDown.
    destruct (2 <=? _)%nat eqn:Hcount; [| constructor].
    destruct (PinchGesture.isActive g reg); [constructor |].
    constructor; [| constructor]. cbv zeta. simpl.
    apply Nat.leb_le in Hcount. repeat split; try discriminate. intros _. exact Hcount.
  - unfold PinchGesture.onPointerMove.
    destruct (PinchGesture.isActive g reg); [| constructor].
    destruct (truthy _); [| constructor].
    destruct (_ <=? _)%nat eqn:Hcount; [| constructor].
    constructor; [| constructor]. cbv zeta. simpl.
    apply Nat.leb_le in Hcount. repeat split; try discriminate. intros _. exact Hcount.
  - unfold PinchGesture.onPointerEnd. rewrite Htype.
    destruct (PinchGesture.isActive g reg); [| constructor].
    destruct (_ <? _)%nat; [| destruct (2 <=? _)%nat; constructor].
    constructor; [| constructor]. cbv zeta. simpl.
    repeat split; try discriminate; try (intros [Hno | Hno]; discriminate Hno).
  - unfold PinchGesture.onPointerEnd. rewrite Htype.
    destruct (PinchGesture.isActive g reg); [| constructor].
    destruct (_ <? _)%nat; [| destruct (2 <=? _)%nat; constructor].
    constructor; [| constructor]. cbv zeta. simpl.
    repeat split; try discriminate; try (intros [Hno | Hno]; discriminate Hno).
Qed.

(** X25.  Whatever a pinch instance is called with, every [start] event
    it dispatches carries at least two pointers, whatever [minPointers]
    is, and every [ongoing] event carries at least [minPointers] pointers;
    the pointers of both are pointers whose target is the instance's
    element or inside it. *)
Theorem pinch_events_have_enough_pointers :
  forall (dom : Dom) (spread : Spread) (calls : list (PointerMap.t * PointerEvent))
         (g : PinchGesture.t) (reg : ActiveGesturesRegistry.t),
    let after := pinchCalls (g, reg, []) calls in
    Forall (fun dispatched =>
              let detail := ce_detail dispatched in
              (pinch_phase detail = start -> (2 <= length (pinch_pointers detail))%nat)
              /\ (pinch_phase detail = ongoing ->
                  (PinchGesture.minPointers g <= length (pinch_pointers detail))%nat)
              /\ (pinch_phase detail = start \/ pinch_phase detail = ongoing ->
                  Forall (fun pointer =>
                            isOrContains (PinchGesture.element g) (target pointer) = true)
                         (pinch_pointers detail)))
           (snd after).
Proof.
  intros dom spread calls g reg after.
  assert (Hkept :
    fst (fst after) = PinchGesture.withState g (PinchGesture.state (fst (fst after)))
    /\ Forall (fun dispatched =>
                 let detail := ce_detail dispatched in
                 (pinch_phase detail = start -> (2 <= length (pinch_pointers detail))%nat)
                 /\ (pinch_phase detail = ongoing ->
                     (PinchGesture.minPointers g <= length (pinch_pointers detail))%nat)
                 /\ (pinch_phase detail = start \/ pinch_phase detail = ongoing ->
                     Forall (fun pointer =>
                               isOrContains (PinchGesture.element g) (target pointer) = true)
                            (pinch_pointers detail)))
              (snd after)).
  { subst after.
    apply (pinchCalls_invariant (fun _ => True)
             (fun h _ out =>
                h = PinchGesture.withState g (PinchGesture.state h)
                /\ Forall (fun dispatched =>
                             let detail := ce_detail dispatched in
                             (pinch_phase detail = start ->
                              (2 <= length (pinch_pointers detail))%nat)
                             /\ (pinch_phase detail = ongoing ->
                                 (PinchGesture.minPointers g
                                  <= length (pinch_pointers detail))%nat)
                             /\ (pinch_phase detail = start \/ pinch_phase detail = ongoing ->
                                 Forall (fun pointer =>
                                           isOrContains (PinchGesture.element g)
                                                        (target pointer) = true)
                                        (pinch_pointers detail)))
                          out));
      [| apply Forall_always |].
    - intros h r out call _ (Hsame & Hout). cbv zeta.
      destruct (pinch_step_registry h r (fst call) (snd call)) as (Hsame1 & _).
      split; [rewrite Hsame1; rewrite Hsame at 1; reflexivity |].
      apply Forall_app. split; [exact Hout |].
      assert (Hmin : PinchGesture.minPointers h = PinchGesture.minPointers g)
        by (rewrite Hsame; reflexivity).
      assert (Hel : PinchGesture.element h = PinchGesture.element g)
        by (rewrite Hsame; reflexivity).
      eapply List.Forall_impl; [| apply (pinch_step_counts h r (fst call) (snd call))].
      cbv zeta. intros dispatched (Hstart & Hongoing & Hshown).
      rewrite Hmin in Hongoing. rewrite Hel in Hshown.
      split; [exact Hstart |]. split; [exact Hongoing |].
      intros Hphase. rewrite (Hshown Hphase). unfold PinchGesture.relevantTo.
      apply List.Forall_forall. intros pointer Hin. now apply filter_In in Hin as [_ Hin].
    - split; [now destruct g | constructor]. }
  destruct Hkept as (_ & Hout). exact Hout.
Qed.
